(** * Recursive sprint accountability: verification layer, ELO ranking,
      critic-fixer cycle and the orchestrating engine

    A shallow embedding of [src/oversight/recursive-learning-core.js] and
    [src/oversight/recursive-sprint-accountability-engine.js], and of the
    commit validation of [src/oversight/cicd-integration-hook.js] that
    calls the engine.

    Conventions of the embedding.
    - A JavaScript number is an exact rational ([Q]); every comparison and
      arithmetic operation of the source is the corresponding operation on
      [Q], so rounding is not modelled.  [NaN] and the infinities do not
      occur: every division of the modelled code has a non-zero divisor,
      except the averages of [calculateImprovement] on an empty list.
    - A JavaScript string is a [string] of ASCII characters; [toLowerCase],
      [\w] and [\s] are their ASCII restrictions.
    - The task output, the sprint context and the quality standards are
      records whose fields have the types of the data model; a field that
      may be [undefined] is an [option], and so is an object that may be
      [null] or [undefined] where the code dereferences it.
    - An object of free shape (a solution, a constraint map, a context
      element) is a [json] value whose objects keep their keys in insertion
      order.
    - A [Map] is an association list in insertion order ([JsMap]).
    - A thrown exception is the [Throw] case of [Exc]; state that was
      written before the throw stays written.
    - The caller's [taskData] object is threaded through [processAgentTask]
      and handed back in its final state; the records that keep a reference
      to it read only fields that the engine never writes.
    - Clock readings, the random suffix of an identifier and the outcome of
      a file write are supplied by the caller of each operation ([Env]);
      [Math.pow] and the decimal rendering of a number are parameters
      ([Section Host]). *)

From Stdlib Require Import ZArith QArith Qminmax Qabs Qround Qpower Lqa Lia.
From Stdlib Require Import List String Ascii Bool Arith DecimalString.
From Stdlib Require Import Sorted Permutation.
Import ListNotations.

Set Warnings "-register-all".

Local Open Scope string_scope.
Local Open Scope list_scope.
Local Open Scope Q_scope.

(** ** Numbers *)

Definition Qnat (n : nat) : Q := inject_Z (Z.of_nat n).

Definition Qltb (a b : Q) : bool := negb (Qle_bool b a).
Definition Qleb (a b : Q) : bool := Qle_bool a b.
Definition Qeqb (a b : Q) : bool := Qeq_bool a b.

(** [xs.reduce((sum, x) => sum + x, 0)] *)
Definition Qsum (xs : list Q) : Q := fold_left Qplus xs 0.

(** ** Strings *)

Module JsString.

Definition code (c : ascii) : N := N_of_ascii c.

Definition is_upper (c : ascii) : bool :=
  (65 <=? code c)%N && (code c <=? 90)%N.

Definition is_lower (c : ascii) : bool :=
  (97 <=? code c)%N && (code c <=? 122)%N.

Definition is_digit (c : ascii) : bool :=
  (48 <=? code c)%N && (code c <=? 57)%N.

(** The class [\w]: letters, digits and the underscore. *)
Definition is_word (c : ascii) : bool :=
  is_upper c || is_lower c || is_digit c || (code c =? 95)%N.

(** The class [\s] on ASCII: tab, line feed, vertical tab, form feed,
    carriage return and space. *)
Definition is_space (c : ascii) : bool :=
  ((9 <=? code c)%N && (code c <=? 13)%N) || (code c =? 32)%N.

Definition lower_char (c : ascii) : ascii :=
  if is_upper c then ascii_of_N (code c + 32) else c.

Fixpoint smap (f : ascii -> ascii) (s : string) : string :=
  match s with
  | EmptyString => EmptyString
  | String c s' => String (f c) (smap f s')
  end.

Fixpoint sfilter (p : ascii -> bool) (s : string) : string :=
  match s with
  | EmptyString => EmptyString
  | String c s' => if p c then String c (sfilter p s') else sfilter p s'
  end.

Fixpoint srev_append (acc s : string) : string :=
  match acc with
  | EmptyString => s
  | String c acc' => srev_append acc' (String c s)
  end.

Definition srev (s : string) : string := srev_append s EmptyString.

(** [s.toLowerCase()] *)
Definition toLowerCase (s : string) : string := smap lower_char s.

(** [s.replace(/[^\w\s]/g, '')] *)
Definition strip_punctuation (s : string) : string :=
  sfilter (fun c => is_word c || is_space c) s.

(** [s.split(/\s+/)]: the pieces between maximal runs of white space.  A
    string that starts (ends) with white space yields a leading
    (trailing) empty piece, and the empty string yields one empty piece.
    [cur] is the current piece, reversed; [in_ws] tells that the previous
    character was white space. *)
Fixpoint split_go (cur : string) (in_ws : bool) (s : string) : list string :=
  match s with
  | EmptyString => [srev cur]
  | String c s' =>
      if is_space c then
        if in_ws then split_go cur true s'
        else srev cur :: split_go EmptyString true s'
      else split_go (String c cur) false s'
  end.

Definition split_ws (s : string) : list string :=
  split_go EmptyString false s.

(** [xs.includes(x)] on an array of strings *)
Definition includes (xs : list string) (x : string) : bool :=
  existsb (String.eqb x) xs.

(** [s.includes(t)]: [t] occurs in [s] as a substring. *)
Fixpoint has_substring (t s : string) : bool :=
  String.prefix t s ||
  match s with
  | EmptyString => false
  | String _ s' => has_substring t s'
  end.

(** [xs.join(sep)] *)
Fixpoint join (sep : string) (xs : list string) : string :=
  match xs with
  | [] => EmptyString
  | [x] => x
  | x :: xs' => x ++ sep ++ join sep xs'
  end.

End JsString.

(** ** Keyword extraction and keyword overlap *)

(** [extractKeywords(text)]: lower-case, drop punctuation, split on white
    space, keep the words longer than three characters, at most twenty. *)
Definition extractKeywords (text : string) : list string :=
  firstn 20
    (filter (fun word => (3 <? String.length word)%nat)
       (JsString.split_ws
          (JsString.strip_punctuation (JsString.toLowerCase text)))).

(** [calculateKeywordAlignment(outputKeywords, goalKeywords)] *)
Definition calculateKeywordAlignment (outputKeywords goalKeywords : list string) : Q :=
  if (List.length goalKeywords =? 0)%nat then 1 # 2
  else
    let matches :=
      filter (fun keyword => JsString.includes goalKeywords keyword) outputKeywords in
    Qnat (List.length matches)
    / Qnat (Nat.max (Nat.max (List.length outputKeywords) (List.length goalKeywords)) 1).

(** ** Exceptions *)

Inductive JsError : Type :=
| TypeError (message : string).

Definition error_message (e : JsError) : string :=
  match e with TypeError m => m end.

Inductive Exc (A : Type) : Type :=
| Return (a : A)
| Throw (e : JsError).
Arguments Return {A} a.
Arguments Throw {A} e.

Definition bind {A B : Type} (m : Exc A) (k : A -> Exc B) : Exc B :=
  match m with
  | Return a => k a
  | Throw e => Throw e
  end.

Notation "x <- m ;; k" := (bind m (fun x => k))
  (at level 61, m at next level, right associativity).
Notation "' pat <- m ;; k" := (bind m (fun x => match x with pat => k end))
  (at level 61, pat pattern, m at next level, right associativity).

(** [for (const x of xs) ys.push(await f(x))] *)
Fixpoint mapM {A B : Type} (f : A -> Exc B) (xs : list A) : Exc (list B) :=
  match xs with
  | [] => Return []
  | x :: xs' => y <- f x ;; ys <- mapM f xs' ;; Return (y :: ys)
  end.

(** ** Maps in insertion order *)

Module JsMap.

Definition t (V : Type) : Type := list (string * V).

Fixpoint get {V : Type} (m : t V) (k : string) : option V :=
  match m with
  | [] => None
  | (k', v) :: m' => if String.eqb k k' then Some v else get m' k
  end.

Definition has {V : Type} (m : t V) (k : string) : bool :=
  match get m k with Some _ => true | None => false end.

(** [m.set(k, v)]: an existing key keeps its place, a new key goes last. *)
Fixpoint set {V : Type} (m : t V) (k : string) (v : V) : t V :=
  match m with
  | [] => [(k, v)]
  | (k', v') :: m' =>
      if String.eqb k k' then (k', v) :: m' else (k', v') :: set m' k v
  end.

Definition size {V : Type} (m : t V) : nat := List.length m.

Definition values {V : Type} (m : t V) : list V := map snd m.

End JsMap.

(** ** Values of free shape *)

Inductive json : Type :=
| JNull
| JBool (b : bool)
| JNum (q : Q)
| JStr (s : string)
| JArr (items : list json)
| JObj (fields : list (string * json)).

(** Truthiness of a value that is present, and of a field that may be
    [undefined]. *)
Definition truthy (v : json) : bool :=
  match v with
  | JNull => false
  | JBool b => b
  | JNum q => negb (Qeqb q 0)
  | JStr s => negb (String.eqb s "")
  | JArr _ | JObj _ => true
  end.

Definition truthy_opt (o : option json) : bool :=
  match o with Some v => truthy v | None => false end.

(** [v.k] for a receiver that is not [null]: the own property of an object,
    [undefined] on every other receiver.  The keys asked for are never
    [length] nor a name of a prototype. *)
Definition field (v : json) (k : string) : option json :=
  match v with
  | JObj fs => JsMap.get fs k
  | _ => None
  end.

(** [obj.k = v] on an object's property list. *)
Definition set_field (fs : list (string * json)) (k : string) (v : json)
  : list (string * json) := JsMap.set fs k v.

(** [v.length] where the source compares it with a number: the length of a
    string or of an array, a numeric own property [length] of an object;
    [None] is a value that no comparison accepts. *)
Definition js_length (v : json) : option Q :=
  match v with
  | JStr s => Some (Qnat (String.length s))
  | JArr xs => Some (Qnat (List.length xs))
  | JObj fs => match JsMap.get fs "length" with
               | Some (JNum q) => Some q
               | _ => None
               end
  | _ => None
  end.

(** [Object.keys(v).length] for a truthy [v]. *)
Definition keys_count (v : json) : nat :=
  match v with
  | JObj fs => List.length fs
  | JArr xs => List.length xs
  | JStr s => String.length s
  | _ => 0%nat
  end.

Module JsonText.

Definition dquote : ascii := ascii_of_nat 34.
Definition backslash : ascii := ascii_of_nat 92.

Definition hex_digit (n : N) : ascii :=
  if (n <? 10)%N then ascii_of_N (48 + n) else ascii_of_N (87 + n).

(** The escape of one character inside a JSON string literal. *)
Definition escape_char (c : ascii) : string :=
  let n := N_of_ascii c in
  if (n =? 34)%N then String backslash (String dquote EmptyString)
  else if (n =? 92)%N then String backslash (String backslash EmptyString)
  else if (n =? 8)%N then String backslash "b"
  else if (n =? 12)%N then String backslash "f"
  else if (n =? 10)%N then String backslash "n"
  else if (n =? 13)%N then String backslash "r"
  else if (n =? 9)%N then String backslash "t"
  else if (n <? 32)%N then
    String backslash
      ("u00" ++ String (hex_digit (n / 16)) (String (hex_digit (n mod 16)) EmptyString))
  else String c EmptyString.

Fixpoint escape (s : string) : string :=
  match s with
  | EmptyString => EmptyString
  | String c s' => escape_char c ++ escape s'
  end.

Definition quote (s : string) : string :=
  String dquote (escape s ++ String dquote EmptyString).

End JsonText.

(** ** Sorting

    [xs.sort((a, b) => key(b) - key(a))]: by decreasing key; the sort is
    stable, elements of equal key keep their order. *)

Fixpoint insert_desc {A : Type} (key : A -> Q) (x : A) (l : list A) : list A :=
  match l with
  | [] => [x]
  | y :: l' => if Qltb (key x) (key y) then y :: insert_desc key x l'
               else x :: y :: l'
  end.

Definition sort_desc {A : Type} (key : A -> Q) (l : list A) : list A :=
  fold_right (insert_desc key) [] l.

(** [xs.slice(-n)] *)
Definition lastn {A : Type} (n : nat) (l : list A) : list A :=
  skipn (List.length l - n) l.

(** ** Data model *)

(** A candidate solution: the own properties of the object. *)
Definition Solution : Type := list (string * json).

(** The task output submitted by a caller, with the fields the engine reads
    or writes. *)
Record TaskData : Type := mkTaskData {
  td_id : option string;
  td_description : option string;
  td_type : option string;
  td_complexity : option Q;
  td_solutions : option (list Solution);
  td_enhanced : option bool;
  td_improvementCycles : option nat;
  td_documentation : option bool;
  td_collaboration : option bool;
  td_architecture : option json;
  td_testing : option json
}.

Record QualityStandards : Type := mkQualityStandards {
  requireTesting : option bool;
  requireDocumentation : option bool;
  requireArchitecture : option bool;
  minimumComplexity : option Q
}.

Record SprintContext : Type := mkSprintContext {
  sc_goals : option (list string);
  sc_requirements : option json;
  sc_constraints : option json;
  sc_acceptance_criteria : option json;
  sc_qualityStandards : option QualityStandards;
  sc_allowInnovation : option bool
}.

Inductive Mode : Type := strict | moderate | dev.

Record PatternSummary : Type := mkPatternSummary {
  avgComplexity : Q;
  commonKeywords : list string;
  successFactors : list string
}.

Inductive CheckDetails : Type :=
| AlignmentDetails (outputKeywords goalKeywords : list string) (alignmentScore : Q)
| QualityDetails (hasDescription hasValidType hasComplexityEstimate hasProperStructure : bool)
| NoRecentOutputs
| ConsistencyDetails (comparedOutputs : nat)
| NoHistoricalPattern
| ComplianceDetails (historicalPattern : PatternSummary)
| AccuracyDetails (perElement : list (string * Q)).

Record CheckResult : Type := mkCheck {
  cr_score : Q;
  cr_passed : bool;
  cr_details : CheckDetails
}.

Record VerificationChecks : Type := mkChecks {
  sprintAlignment : CheckResult;
  qualityStandards : CheckResult;
  crossAgentConsistency : CheckResult;
  historicalCompliance : CheckResult;
  contextAccuracy : CheckResult
}.

Record VerificationResult : Type := mkVerification {
  vr_verificationId : string;
  vr_timestamp : Z;
  vr_mode : Mode;
  vr_score : Q;
  vr_threshold : Q;
  vr_verified : bool;
  vr_checks : VerificationChecks;
  vr_agentOutput : TaskData;
  vr_sprintContext : option SprintContext
}.

Record PatternExample : Type := mkExample {
  ex_timestamp : Z;
  ex_score : Q;
  ex_output : TaskData
}.

Record SuccessPattern : Type := mkPattern {
  sp_count : nat;
  sp_examples : list PatternExample;
  sp_summary : PatternSummary
}.

Record VerificationLayer : Type := mkLayer {
  mode : Mode;
  verificationMemory : JsMap.t VerificationResult;
  successPatterns : JsMap.t SuccessPattern;
  rollbackHistory : list VerificationResult
}.

(** The content of [verification-memory.json]. *)
Record MemoryData : Type := mkMemoryData {
  md_verificationMemory : list (string * VerificationResult);
  md_successPatterns : list (string * SuccessPattern);
  md_rollbackHistory : list VerificationResult;
  md_lastUpdated : Z
}.

(** What one call reads from its surroundings: the clock in milliseconds
    (it does not advance during the call), the text that
    [Math.random().toString(36).substr(2, 9)] yields, and whether the file
    write at the end succeeds. *)
Record Env : Type := mkEnv {
  now : Z;
  random_suffix : string;
  write_ok : bool
}.

(** [String(n)] for an integer. *)
Definition decimal_of_Z (z : Z) : string := NilZero.string_of_int (Z.to_int z).

Record VerificationStats : Type := mkVStats {
  totalVerifications : nat;
  successfulVerifications : nat;
  rollbacks : nat;
  successRate : Q;
  patterns : nat;
  stats_mode : Mode
}.

(** [new VerificationLayer(mode)] *)
Definition new_VerificationLayer (m : Mode) : VerificationLayer :=
  mkLayer m [] [] [].

(** [this.thresholds] *)
Definition thresholds (m : Mode) : Q :=
  match m with
  | strict => 9 # 10
  | moderate => 7 # 10
  | dev => 5 # 10
  end.

Definition or_empty (o : option string) : string :=
  match o with Some s => s | None => "" end.

(** [x || d] for a number [x] that may be missing: zero is falsy. *)
Definition num_or (o : option Q) (d : Q) : Q :=
  match o with
  | Some q => if Qeqb q 0 then d else q
  | None => d
  end.

Definition null_context {A : Type} (prop : string) : Exc A :=
  Throw (TypeError ("Cannot read properties of undefined (reading '" ++ prop ++ "')")).

(** ** Objects used as counters

    [Object.entries(o)] lists the keys that are array indices first, in
    increasing order, and then the other keys in insertion order. *)

Module JsObject.

Fixpoint digits_value (acc : N) (s : string) : option N :=
  match s with
  | EmptyString => Some acc
  | String c s' =>
      if JsString.is_digit c
      then digits_value (acc * 10 + (N_of_ascii c - 48))%N s'
      else None
  end.

(** A canonical numeric string below [2^32 - 1]. *)
Definition array_index (s : string) : option N :=
  match s with
  | EmptyString => None
  | String c s' =>
      if (N_of_ascii c =? 48)%N && negb (String.eqb s' "") then None
      else match digits_value 0%N s with
           | Some n => if (n <? 4294967295)%N then Some n else None
           | None => None
           end
  end.

Fixpoint insert_index {V : Type} (n : N) (e : string * V)
    (l : list (N * (string * V))) : list (N * (string * V)) :=
  match l with
  | [] => [(n, e)]
  | (m, e') :: l' => if (n <? m)%N then (n, e) :: (m, e') :: l'
                     else (m, e') :: insert_index n e l'
  end.

Fixpoint indexed {V : Type} (l : list (string * V)) : list (N * (string * V)) :=
  match l with
  | [] => []
  | (k, v) :: l' =>
      match array_index k with
      | Some n => insert_index n (k, v) (indexed l')
      | None => indexed l'
      end
  end.

Definition entries {V : Type} (o : list (string * V)) : list (string * V) :=
  map snd (indexed o)
  ++ filter (fun e => match array_index (fst e) with
                      | Some _ => false
                      | None => true
                      end) o.

End JsObject.

Section Host.

(** The two library functions whose results the embedding does not
    compute: the decimal rendering of a number inside
    [JSON.stringify], and [Math.pow]. *)
Variable Number_toString : Q -> string.
Variable Math_pow : Q -> Q -> Q.

(** [JSON.stringify(v)] without indentation. *)
Fixpoint stringify (v : json) : string :=
  match v with
  | JNull => "null"
  | JBool true => "true"
  | JBool false => "false"
  | JNum q => Number_toString q
  | JStr s => JsonText.quote s
  | JArr xs => "[" ++ JsString.join "," (map stringify xs) ++ "]"
  | JObj fs =>
      "{" ++ JsString.join ","
               (map (fun kv => (JsonText.quote (fst kv) ++ ":" ++ stringify (snd kv))%string) fs)
          ++ "}"
  end.

(** *** Verification layer *)

Definition verifySprintAlignment (agentOutput : TaskData)
    (sprintContext : option SprintContext) : Exc CheckResult :=
  match sprintContext with
  | None => null_context "goals"
  | Some ctx =>
      let sprintGoals := match sc_goals ctx with Some g => g | None => [] end in
      let outputKeywords := extractKeywords (or_empty (td_description agentOutput)) in
      let goalKeywords := flat_map extractKeywords sprintGoals in
      let alignmentScore := calculateKeywordAlignment outputKeywords goalKeywords in
      Return (mkCheck alignmentScore (Qltb (6 # 10) alignmentScore)
                (AlignmentDetails (firstn 10 outputKeywords) (firstn 10 goalKeywords)
                   alignmentScore))
  end.

Definition validateOutputStructure (output : TaskData) : bool :=
  match td_description output, td_type output with
  | Some _, Some _ => true
  | _, _ => false
  end.

Definition validTypes : list string :=
  ["implementation"; "debugging"; "analysis"; "documentation"].

Definition hasDescription (agentOutput : TaskData) : bool :=
  match td_description agentOutput with
  | Some d => (10 <? String.length d)%nat
  | None => false
  end.

Definition hasValidType (agentOutput : TaskData) : bool :=
  match td_type agentOutput with
  | Some t => negb (String.eqb t "") && JsString.includes validTypes t
  | None => false
  end.

Definition hasComplexityEstimate (agentOutput : TaskData) : bool :=
  match td_complexity agentOutput with
  | Some c => negb (Qeqb c 0) && Qleb 0 c && Qleb c 1
  | None => false
  end.

Definition count_true (bs : list bool) : nat :=
  List.length (filter (fun b => b) bs).

Definition verifyQualityStandards (agentOutput : TaskData) : CheckResult :=
  let qualityChecks :=
    [hasDescription agentOutput; hasValidType agentOutput;
     hasComplexityEstimate agentOutput; validateOutputStructure agentOutput] in
  let qualityScore := Qnat (count_true qualityChecks) / Qnat (List.length qualityChecks) in
  mkCheck qualityScore (Qltb (75 # 100) qualityScore)
    (QualityDetails (hasDescription agentOutput) (hasValidType agentOutput)
       (hasComplexityEstimate agentOutput) (validateOutputStructure agentOutput)).

Definition option_string_eqb (a b : option string) : bool :=
  match a, b with
  | Some x, Some y => String.eqb x y
  | None, None => true
  | _, _ => false
  end.

Definition calculateConsistencyScore (output : TaskData)
    (recentOutputs : list TaskData) : Q :=
  if (List.length recentOutputs =? 0)%nat then 1
  else
    let consistencyScore := 0 in
    let factors := 0 in
    let sameTypeOutputs :=
      filter (fun recent => option_string_eqb (td_type recent) (td_type output))
        recentOutputs in
    let consistencyScore :=
      consistencyScore
      + (Qnat (List.length sameTypeOutputs) / Qnat (List.length recentOutputs)) * (3 # 10) in
    let factors := factors + (3 # 10) in
    let avgComplexity :=
      fold_left (fun sum recent => sum + num_or (td_complexity recent) 0) recentOutputs 0
      / Qnat (List.length recentOutputs) in
    let complexityDiff := Qabs (num_or (td_complexity output) 0 - avgComplexity) in
    let consistencyScore :=
      consistencyScore + Qmax 0 (1 - complexityDiff * 2) * (4 # 10) in
    let factors := factors + (4 # 10) in
    let outputKeywords := extractKeywords (or_empty (td_description output)) in
    let recentKeywords :=
      flat_map (fun recent => extractKeywords (or_empty (td_description recent)))
        recentOutputs in
    let similarity := calculateKeywordAlignment outputKeywords recentKeywords in
    let consistencyScore := consistencyScore + similarity * (3 # 10) in
    let factors := factors + (3 # 10) in
    consistencyScore / factors.

Definition day_ms : Z := (24 * 60 * 60 * 1000)%Z.

Definition verifyCrossAgentConsistency (env : Env) (this : VerificationLayer)
    (agentOutput : TaskData) : CheckResult :=
  let recentOutputs :=
    map vr_agentOutput
      (filter (fun v => vr_verified v && (now env - vr_timestamp v <? day_ms)%Z)
         (JsMap.values (verificationMemory this))) in
  if (List.length recentOutputs =? 0)%nat then mkCheck 1 true NoRecentOutputs
  else
    let consistencyScore := calculateConsistencyScore agentOutput recentOutputs in
    mkCheck consistencyScore (Qltb (5 # 10) consistencyScore)
      (ConsistencyDetails (List.length recentOutputs)).

Definition calculateHistoricalCompliance (output : TaskData) (pattern : SuccessPattern) : Q :=
  let complianceScore := 0 in
  let complexityInRange :=
    Qltb (Qabs (num_or (td_complexity output) 0 - avgComplexity (sp_summary pattern)))
      (3 # 10) in
  let complianceScore := complianceScore + (if complexityInRange then 4 # 10 else 0) in
  let outputKeywords := extractKeywords (or_empty (td_description output)) in
  let commonKeywordMatches :=
    filter (fun keyword => JsString.includes (commonKeywords (sp_summary pattern)) keyword)
      outputKeywords in
  let complianceScore :=
    complianceScore
    + (Qnat (List.length commonKeywordMatches)
       / Qnat (Nat.max (List.length (commonKeywords (sp_summary pattern))) 1)) * (4 # 10) in
  let complianceScore := complianceScore + (2 # 10) in
  complianceScore.

Definition verifyHistoricalCompliance (this : VerificationLayer)
    (agentOutput : TaskData) : CheckResult :=
  let successPattern :=
    match td_type agentOutput with
    | Some t => JsMap.get (successPatterns this) t
    | None => None
    end in
  match successPattern with
  | None => mkCheck (8 # 10) true NoHistoricalPattern
  | Some pattern =>
      let complianceScore := calculateHistoricalCompliance agentOutput pattern in
      mkCheck complianceScore (Qltb (6 # 10) complianceScore)
        (ComplianceDetails (sp_summary pattern))
  end.

Definition calculateContextElementAccuracy (output : TaskData) (contextElement : json) : Q :=
  let outputKeywords := extractKeywords (or_empty (td_description output)) in
  let contextKeywords := extractKeywords (stringify contextElement) in
  calculateKeywordAlignment outputKeywords contextKeywords.

Definition contextElements : list string :=
  ["goals"; "requirements"; "constraints"; "acceptance_criteria"].

(** [sprintContext[element]] *)
Definition context_element (ctx : SprintContext) (element : string) : option json :=
  if String.eqb element "goals" then option_map (fun g => JArr (map JStr g)) (sc_goals ctx)
  else if String.eqb element "requirements" then sc_requirements ctx
  else if String.eqb element "constraints" then sc_constraints ctx
  else if String.eqb element "acceptance_criteria" then sc_acceptance_criteria ctx
  else None.

Definition verifyContextAccuracy (agentOutput : TaskData)
    (sprintContext : option SprintContext) : Exc CheckResult :=
  match sprintContext with
  | None => null_context "goals"
  | Some ctx =>
      let '(accuracyScore, details) :=
        fold_left
          (fun '(accuracyScore, details) element =>
             match context_element ctx element with
             | Some v =>
                 if truthy v then
                   let elementScore := calculateContextElementAccuracy agentOutput v in
                   (accuracyScore + elementScore, details ++ [(element, elementScore)])
                 else (accuracyScore, details)
             | None => (accuracyScore, details)
             end)
          contextElements (0, []) in
      let accuracyScore := accuracyScore / Qnat (List.length contextElements) in
      Return (mkCheck accuracyScore (Qltb (6 # 10) accuracyScore) (AccuracyDetails details))
  end.

Definition check_scores (checks : VerificationChecks) : list Q :=
  [cr_score (sprintAlignment checks); cr_score (qualityStandards checks);
   cr_score (crossAgentConsistency checks); cr_score (historicalCompliance checks);
   cr_score (contextAccuracy checks)].

Definition calculateVerificationScore (checks : VerificationChecks) : Q :=
  let scores := check_scores checks in
  Qsum scores / Qnat (List.length scores).

(** [calculatePatternSummary(examples)].  [keywordCounts] is an object
    used as a counter; a keyword that names a property every object
    inherits ([constructor], [__proto__]) is not counted by the source
    as a number and is outside this definition. *)
Definition count_keyword (keywordCounts : list (string * nat)) (keyword : string)
  : list (string * nat) :=
  JsMap.set keywordCounts keyword
    (match JsMap.get keywordCounts keyword with Some n => n | None => 0 end + 1)%nat.

Definition calculatePatternSummary (examples : list PatternExample) : PatternSummary :=
  let avgComplexity :=
    fold_left (fun sum ex => sum + num_or (td_complexity (ex_output ex)) 0) examples 0
    / Qnat (List.length examples) in
  let allKeywords :=
    flat_map (fun ex => extractKeywords (or_empty (td_description (ex_output ex))))
      examples in
  let keywordCounts := fold_left count_keyword allKeywords [] in
  let commonKeywords :=
    map fst
      (firstn 5 (sort_desc (fun e => Qnat (snd e)) (JsObject.entries keywordCounts))) in
  mkPatternSummary avgComplexity commonKeywords
    ["proper_documentation"; "complexity_estimation"; "sprint_alignment"].

Definition type_or_general (o : option string) : string :=
  match o with
  | Some t => if String.eqb t "" then "general" else t
  | None => "general"
  end.

Definition storeSuccessPattern (this : VerificationLayer)
    (verificationResult : VerificationResult) : VerificationLayer :=
  let agentOutput := vr_agentOutput verificationResult in
  let type := type_or_general (td_type agentOutput) in
  let pattern :=
    match JsMap.get (successPatterns this) type with
    | Some p => p
    | None => mkPattern 0 [] (mkPatternSummary 0 [] [])
    end in
  let count := S (sp_count pattern) in
  let examples :=
    sp_examples pattern
    ++ [mkExample (vr_timestamp verificationResult) (vr_score verificationResult)
          agentOutput] in
  let examples :=
    if (10 <? List.length examples)%nat then lastn 10 examples else examples in
  let pattern := mkPattern count examples (calculatePatternSummary examples) in
  mkLayer (mode this) (verificationMemory this)
    (JsMap.set (successPatterns this) type pattern) (rollbackHistory this).

(** The object that [persistVerificationMemory] serialises. *)
Definition memory_snapshot (env : Env) (this : VerificationLayer) : MemoryData :=
  mkMemoryData (verificationMemory this) (successPatterns this)
    (lastn 50 (rollbackHistory this)) (now env).

(** [persistVerificationMemory()]: the file holds the snapshot when the
    write succeeds; a failed write is logged and leaves the file as it
    was. *)
Definition persistVerificationMemory (env : Env) (this : VerificationLayer)
    (file : option MemoryData) : option MemoryData :=
  if write_ok env then Some (memory_snapshot env this) else file.

(** [loadVerificationMemory()] *)
Definition loadVerificationMemory (this : VerificationLayer)
    (file : option MemoryData) : VerificationLayer :=
  match file with
  | Some data =>
      mkLayer (mode this) (md_verificationMemory data) (md_successPatterns data)
        (md_rollbackHistory data)
  | None => this
  end.

(** [enforceVerification(agentOutput, sprintContext)].  The rollback
    action that [triggerRollback] builds is logged and dropped. *)
Definition enforceVerification (env : Env) (agentOutput : TaskData)
    (sprintContext : option SprintContext) (this : VerificationLayer)
    (file : option MemoryData)
  : Exc (VerificationResult * VerificationLayer * option MemoryData) :=
  let verificationId :=
    ("verify_" ++ decimal_of_Z (now env) ++ "_" ++ random_suffix env)%string in
  sprintAlignment <- verifySprintAlignment agentOutput sprintContext ;;
  let qualityStandards := verifyQualityStandards agentOutput in
  let crossAgentConsistency := verifyCrossAgentConsistency env this agentOutput in
  let historicalCompliance := verifyHistoricalCompliance this agentOutput in
  contextAccuracy <- verifyContextAccuracy agentOutput sprintContext ;;
  let verificationChecks :=
    mkChecks sprintAlignment qualityStandards crossAgentConsistency
      historicalCompliance contextAccuracy in
  let verificationScore := calculateVerificationScore verificationChecks in
  let threshold := thresholds (mode this) in
  let result :=
    mkVerification verificationId (now env) (mode this) verificationScore threshold
      (Qleb threshold verificationScore) verificationChecks agentOutput sprintContext in
  let this :=
    if negb (vr_verified result) then
      mkLayer (mode this) (verificationMemory this) (successPatterns this)
        (rollbackHistory this ++ [result])
    else storeSuccessPattern this result in
  let this :=
    mkLayer (mode this) (JsMap.set (verificationMemory this) verificationId result)
      (successPatterns this) (rollbackHistory this) in
  Return (result, this, persistVerificationMemory env this file).

Definition getStats (this : VerificationLayer) : VerificationStats :=
  let totalVerifications := JsMap.size (verificationMemory this) in
  let successfulVerifications :=
    List.length (filter vr_verified (JsMap.values (verificationMemory this))) in
  let rollbacks := List.length (rollbackHistory this) in
  mkVStats totalVerifications successfulVerifications rollbacks
    (if (0 <? totalVerifications)%nat
     then Qnat successfulVerifications / Qnat totalVerifications else 0)
    (JsMap.size (successPatterns this)) (mode this).

(** *** ELO ranking *)

Record TaskResult : Type := mkTaskResult {
  tr_completed : bool;
  tr_quality : option Q;
  tr_onTime : bool;
  tr_complexity : option Q;
  tr_innovative : bool;
  tr_helpedOthers : bool;
  tr_documentation : bool
}.

Record ComplianceFactors : Type := mkFactors {
  goalAlignment : Q;
  constraintAdherence : Q;
  qualityCompliance : Q
}.

Record SprintCompliance : Type := mkCompliance {
  overallCompliance : option Q;
  factors : option ComplianceFactors
}.

Record PerformanceRecord : Type := mkPerformance {
  pr_timestamp : Z;
  pr_previousRating : Q;
  pr_newRating : Q;
  pr_ratingChange : Q;
  pr_taskResult : TaskResult;
  pr_sprintCompliance : SprintCompliance;
  pr_expectedScore : Q;
  pr_actualScore : Q
}.

Record AgentELORankingSystem : Type := mkElo {
  agentRatings : JsMap.t Q;
  performanceHistory : JsMap.t (list PerformanceRecord)
}.

Record RatingUpdate : Type := mkRatingUpdate {
  ru_agentId : string;
  previousRating : Q;
  newRating : Q;
  ratingChange : Q;
  performanceClass : string;
  expectedScore : Q;
  actualScore : Q;
  improvement : bool
}.

Definition initialRating : Q := 1500.
Definition kFactor : Q := 32.

Definition new_AgentELORankingSystem : AgentELORankingSystem := mkElo [] [].

Definition calculateExpectedScore (agentRating taskComplexity : Q) : Q :=
  let taskDifficultyRating := 1500 + (taskComplexity - (5 # 10)) * 800 in
  let ratingDifference := agentRating - taskDifficultyRating in
  1 / (1 + Math_pow 10 (- ratingDifference / 400)).

Definition calculateActualScore (taskResult : TaskResult)
    (sprintCompliance : SprintCompliance) : Q :=
  let score := 0 in
  let score := if tr_completed taskResult then score + (4 # 10) else score in
  let score :=
    match tr_quality taskResult with
    | Some q => if negb (Qeqb q 0) && Qltb (8 # 10) q then score + (1 # 10) else score
    | None => score
    end in
  let score := if tr_onTime taskResult then score + (1 # 10) else score in
  let score :=
    match overallCompliance sprintCompliance with
    | Some c => if negb (Qeqb c 0) then score + c * (4 # 10) else score
    | None => score
    end in
  let score := if tr_innovative taskResult then score + (1 # 10) else score in
  let score := if tr_helpedOthers taskResult then score + (5 # 100) else score in
  let score := if tr_documentation taskResult then score + (5 # 100) else score in
  Qmax 0 (Qmin 1 score).

Definition classifyPerformance (rating : Q) : string :=
  if Qleb 2200 rating then "Master"
  else if Qleb 2000 rating then "Expert"
  else if Qleb 1800 rating then "Advanced"
  else if Qleb 1600 rating then "Intermediate"
  else if Qleb 1400 rating then "Developing"
  else if Qleb 1200 rating then "Novice"
  else "Beginner".

(** [storePerformanceHistory(agentId, performanceData)]; the rankings
    file that it then rewrites is not part of the modelled state. *)
Definition storePerformanceHistory (agentId : string)
    (performanceData : PerformanceRecord) (this : AgentELORankingSystem)
  : AgentELORankingSystem :=
  let history :=
    match JsMap.get (performanceHistory this) agentId with
    | Some h => h
    | None => []
    end in
  let history := history ++ [performanceData] in
  let history :=
    if (50 <? List.length history)%nat then lastn 50 history else history in
  mkElo (agentRatings this) (JsMap.set (performanceHistory this) agentId history).

Definition updateAgentRating (env : Env) (agentId : string) (taskResult : TaskResult)
    (sprintCompliance : SprintCompliance) (this : AgentELORankingSystem)
  : RatingUpdate * AgentELORankingSystem :=
  let currentRating := num_or (JsMap.get (agentRatings this) agentId) initialRating in
  let taskComplexity := num_or (tr_complexity taskResult) (5 # 10) in
  let expectedScore := calculateExpectedScore currentRating taskComplexity in
  let actualScore := calculateActualScore taskResult sprintCompliance in
  let ratingChange := kFactor * (actualScore - expectedScore) in
  let newRating := Qmax 800 (Qmin 2400 (currentRating + ratingChange)) in
  let this := mkElo (JsMap.set (agentRatings this) agentId newRating)
                (performanceHistory this) in
  let this :=
    storePerformanceHistory agentId
      (mkPerformance (now env) currentRating newRating ratingChange taskResult
         sprintCompliance expectedScore actualScore) this in
  let performanceClass := classifyPerformance newRating in
  (mkRatingUpdate agentId currentRating newRating ratingChange performanceClass
     expectedScore actualScore (Qltb 0 ratingChange), this).

(** *** Critic-fixer cycle *)

Record EvaluationContext : Type := mkEvalContext {
  sprintGoals : option (list string);
  ec_constraints : option json;
  ec_qualityStandards : option QualityStandards
}.

Record Factors : Type := mkSolutionFactors {
  f_sprintAlignment : Q;
  f_technicalQuality : Q;
  f_implementationFeasibility : Q;
  f_riskAssessment : Q;
  f_innovationFactor : Q
}.

Record Evaluation : Type := mkEvaluation {
  ev_score : Q;
  ev_factors : Factors;
  ev_strengths : list string;
  ev_weaknesses : list string;
  ev_improvementAreas : list string
}.

Record CriticResult : Type := mkCritic {
  solutionIndex : nat;
  c_solution : Solution;
  c_score : Q;
  strengths : list string;
  weaknesses : list string;
  improvementAreas : list string
}.

Record FixedSolution : Type := mkFixed {
  originalScore : Q;
  improvedScore : Q;
  fs_improvement : Q;
  fs_solution : Solution;
  appliedFixes : list string
}.

Record Improvement : Type := mkImprovement {
  originalAverage : Q;
  improvedAverage : Q;
  avgImprovement : Q;
  significantImprovement : bool;
  improvementCount : nat
}.

Record ImprovementCycleResult : Type := mkCycleResult {
  originalSolutions : list Solution;
  finalSolutions : list Solution;
  cycles : nat;
  improvements : list Improvement;
  finalScores : list Q;
  cycle_avgImprovement : Q
}.

Definition maxCycles : nat := 3.
Definition improvementThreshold : Q := 1 # 10.

(** A value in a numeric comparison: a number, or a boolean or [null]
    coerced as JavaScript does; [None] is [NaN], which every comparison
    rejects.  Text and containers in a numeric position are taken as
    [NaN]. *)
Definition as_number (v : json) : option Q :=
  match v with
  | JNum q => Some q
  | JBool true => Some 1
  | JBool false => Some 0
  | JNull => Some 0
  | _ => None
  end.

Definition number_of (o : option json) : option Q :=
  match o with Some v => as_number v | None => None end.

Definition num_lt (a b : option Q) : bool :=
  match a, b with Some x, Some y => Qltb x y | _, _ => false end.

Definition num_le (a b : option Q) : bool :=
  match a, b with Some x, Some y => Qleb x y | _, _ => false end.

Definition extractSolutionKeywords (solution : Solution) : list string :=
  let text := JsString.toLowerCase (stringify (JObj solution)) in
  firstn 20
    (filter (fun word => (3 <? String.length word)%nat)
       (JsString.split_ws (JsString.strip_punctuation text))).

Definition evaluateSprintAlignment (solution : Solution)
    (evaluationContext : EvaluationContext) : Q :=
  match sprintGoals evaluationContext with
  | None => 7 # 10
  | Some goals =>
      let solutionKeywords := extractSolutionKeywords solution in
      let goalKeywords :=
        flat_map (fun goal =>
                    filter (fun word => (3 <? String.length word)%nat)
                      (JsString.split_ws (JsString.toLowerCase goal)))
          goals in
      let matchingKeywords :=
        filter (fun keyword => JsString.includes goalKeywords keyword) solutionKeywords in
      Qmin 1 (Qnat (List.length matchingKeywords)
              / Qmax (Qnat (List.length goalKeywords) * (3 # 10)) 1)
  end.

(** [solution.k && solution.k.sub] *)
Definition truthy_sub (solution : Solution) (k sub : string) : bool :=
  match JsMap.get solution k with
  | Some v => truthy v && truthy_opt (field v sub)
  | None => false
  end.

Definition evaluateTechnicalQuality (solution : Solution) : Q :=
  let score := 5 # 10 in
  let score :=
    match JsMap.get solution "technicalDetails" with
    | Some d => if truthy d && num_lt (Some 50) (js_length d)
                then score + (2 # 10) else score
    | None => score
    end in
  let score :=
    match JsMap.get solution "architecture" with
    | Some a => if truthy a && (0 <? keys_count a)%nat
                then score + (15 # 100) else score
    | None => score
    end in
  let score := if truthy_sub solution "testing" "strategy"
               then score + (1 # 10) else score in
  let score := if truthy_opt (JsMap.get solution "errorHandling")
               then score + (5 # 100) else score in
  Qmin 1 score.

Definition evaluateImplementationFeasibility (solution : Solution) : Q :=
  let score := 6 # 10 in
  let complexity := JsMap.get solution "complexity" in
  let score :=
    if truthy_opt complexity && num_le (number_of complexity) (Some (7 # 10))
    then score + (2 # 10)
    else if truthy_opt complexity
            && num_lt (Some (9 # 10)) (number_of complexity)
    then score - (1 # 10)
    else score in
  let score := if truthy_sub solution "resourceRequirements" "realistic"
               then score + (15 # 100) else score in
  let score := if truthy_sub solution "timeline" "realistic"
               then score + (5 # 100) else score in
  Qmin 1 (Qmax (1 # 10) score).

(** [risk.mitigation] for one element of [solution.risks]. *)
Definition risk_mitigated (risk : json) : Exc bool :=
  match risk with
  | JNull => Throw (TypeError "Cannot read properties of null (reading 'mitigation')")
  | _ => Return (truthy_opt (field risk "mitigation"))
  end.

Definition evaluateRiskAssessment (solution : Solution) : Exc Q :=
  let score := 7 # 10 in
  score <-
    match JsMap.get solution "risks" with
    | Some risks =>
        if truthy risks then
          match risks with
          | JArr items =>
              let riskCount := List.length items in
              mitigated <- mapM risk_mitigated items ;;
              let mitigationCount := count_true mitigated in
              if (riskCount =? 0)%nat then Return (score + (2 # 10))
              else if Qltb (8 # 10) (Qnat mitigationCount / Qnat riskCount)
              then Return (score + (3 # 10))
              else if Qltb (Qnat mitigationCount / Qnat riskCount) (5 # 10)
              then Return (score - (2 # 10))
              else Return score
          | _ => Throw (TypeError "solution.risks.filter is not a function")
          end
        else Return score
    | None => Return score
    end ;;
  Return (Qmin 1 (Qmax (1 # 10) score)).

Definition evaluateInnovationFactor (solution : Solution) : Q :=
  let score := 5 # 10 in
  let score := if truthy_sub solution "innovative" "features"
               then score + (3 # 10) else score in
  let score := if truthy_sub solution "novel" "approach"
               then score + (2 # 10) else score in
  Qmin 1 score.

Definition weights : list (string * Q) :=
  [("sprintAlignment", 3 # 10); ("technicalQuality", 25 # 100);
   ("implementationFeasibility", 25 # 100); ("riskAssessment", 15 # 100);
   ("innovationFactor", 5 # 100)].

Definition weight_of (factor : string) : Q :=
  match JsMap.get weights factor with Some w => w | None => 0 end.

Definition factor_entries (f : Factors) : list (string * Q) :=
  [("sprintAlignment", f_sprintAlignment f); ("technicalQuality", f_technicalQuality f);
   ("implementationFeasibility", f_implementationFeasibility f);
   ("riskAssessment", f_riskAssessment f); ("innovationFactor", f_innovationFactor f)].

Definition evaluateSolution (solution : Solution)
    (evaluationContext : EvaluationContext) : Exc Evaluation :=
  let sprintAlignment := evaluateSprintAlignment solution evaluationContext in
  let technicalQuality := evaluateTechnicalQuality solution in
  let implementationFeasibility := evaluateImplementationFeasibility solution in
  riskAssessment <- evaluateRiskAssessment solution ;;
  let innovationFactor := evaluateInnovationFactor solution in
  let factors :=
    mkSolutionFactors sprintAlignment technicalQuality implementationFeasibility
      riskAssessment innovationFactor in
  let '(totalScore, strengths, weaknesses, improvementAreas) :=
    fold_left
      (fun '(totalScore, strengths, weaknesses, improvementAreas) '(factor, score) =>
         let weightedScore := score * weight_of factor in
         let totalScore := totalScore + weightedScore in
         if Qltb (8 # 10) score
         then (totalScore, strengths ++ [factor], weaknesses, improvementAreas)
         else if Qltb score (6 # 10)
         then (totalScore, strengths, weaknesses ++ [factor], improvementAreas ++ [factor])
         else (totalScore, strengths, weaknesses, improvementAreas))
      (factor_entries factors) (0, [], [], []) in
  Return (mkEvaluation totalScore factors strengths weaknesses improvementAreas).

Fixpoint criticPhase_from (i : nat) (solutions : list Solution)
    (evaluationContext : EvaluationContext) : Exc (list CriticResult) :=
  match solutions with
  | [] => Return []
  | solution :: rest =>
      evaluation <- evaluateSolution solution evaluationContext ;;
      evaluations <- criticPhase_from (S i) rest evaluationContext ;;
      Return (mkCritic i solution (ev_score evaluation) (ev_strengths evaluation)
                (ev_weaknesses evaluation) (ev_improvementAreas evaluation)
              :: evaluations)
  end.

Definition criticPhase (solutions : list Solution)
    (evaluationContext : EvaluationContext) : Exc (list CriticResult) :=
  evaluations <- criticPhase_from 0 solutions evaluationContext ;;
  Return (sort_desc c_score evaluations).

Definition enhanceSprintAlignment (evaluationContext : EvaluationContext) : json :=
  JObj [("alignmentStrategy", JStr "Enhanced alignment with sprint goals");
        ("specificGoalMapping",
         JArr (map JStr (match sprintGoals evaluationContext with
                         | Some g => g
                         | None => []
                         end)));
        ("alignmentScore", JStr "improved")].

Definition enhanceTechnicalQuality : json :=
  JObj [("addedArchitecture",
         JStr "Layered architecture with clear separation of concerns");
        ("addedTesting",
         JStr "Unit tests, integration tests, and end-to-end testing strategy");
        ("addedErrorHandling", JStr "Comprehensive error handling and logging");
        ("codeQuality", JStr "Code review process and static analysis integration")].

Definition enhanceFeasibility : json :=
  JObj [("simplifiedApproach", JStr "Broken down into smaller, manageable phases");
        ("resourceOptimization", JStr "Optimized resource requirements");
        ("realisticTimeline", JStr "Adjusted timeline based on team capacity");
        ("dependencyManagement",
         JStr "Clear dependency identification and management")].

Definition enhanceRiskAssessment : json :=
  JObj [("identifiedRisks",
         JArr [JObj [("risk", JStr "Technical complexity");
                     ("mitigation", JStr "Proof of concept development")];
               JObj [("risk", JStr "Timeline pressure");
                     ("mitigation", JStr "Agile approach with MVP focus")];
               JObj [("risk", JStr "Resource constraints");
                     ("mitigation", JStr "Staged implementation approach")]]);
        ("contingencyPlans", JStr "Multiple fallback options identified")].

Definition enhanceInnovation : json :=
  JObj [("innovativeAspects", JStr "Unique approach to problem solving");
        ("novelTechniques", JStr "Modern best practices and emerging patterns");
        ("futureProofing", JStr "Extensible design for future enhancements")].

Definition apply_fix (evaluationContext : EvaluationContext)
    (improvedSolution : Solution) (area : string) : Solution :=
  if String.eqb area "sprintAlignment" then
    set_field improvedSolution "sprintAlignmentEnhancement"
      (enhanceSprintAlignment evaluationContext)
  else if String.eqb area "technicalQuality" then
    set_field improvedSolution "technicalEnhancements" enhanceTechnicalQuality
  else if String.eqb area "implementationFeasibility" then
    set_field improvedSolution "feasibilityImprovements" enhanceFeasibility
  else if String.eqb area "riskAssessment" then
    set_field improvedSolution "riskMitigations" enhanceRiskAssessment
  else if String.eqb area "innovationFactor" then
    set_field improvedSolution "innovativeEnhancements" enhanceInnovation
  else improvedSolution.

Definition applySolutionFixes (solution : Solution) (improvementAreas : list string)
    (evaluationContext : EvaluationContext) : Solution :=
  fold_left (apply_fix evaluationContext) improvementAreas solution.

Definition fix_one (evaluationContext : EvaluationContext)
    (criticResult : CriticResult) : Exc FixedSolution :=
  if Qltb (c_score criticResult) (8 # 10)
     && (0 <? List.length (improvementAreas criticResult))%nat
  then
    let improvedSolution :=
      applySolutionFixes (c_solution criticResult) (improvementAreas criticResult)
        evaluationContext in
    newEvaluation <- evaluateSolution improvedSolution evaluationContext ;;
    Return (mkFixed (c_score criticResult) (ev_score newEvaluation)
              (ev_score newEvaluation - c_score criticResult) improvedSolution
              (improvementAreas criticResult))
  else
    Return (mkFixed (c_score criticResult) (c_score criticResult) 0
              (c_solution criticResult) []).

Definition fixerPhase (criticResults : list CriticResult)
    (evaluationContext : EvaluationContext) : Exc (list FixedSolution) :=
  mapM (fix_one evaluationContext) criticResults.

(** [calculateImprovement(originalResults, fixedResults)].  On empty
    lists the source's averages are [NaN] and the comparison fails; the
    zero of [Q] takes the same branch. *)
Definition calculateImprovement (originalResults : list CriticResult)
    (fixedResults : list FixedSolution) : Improvement :=
  let originalAvg :=
    fold_left (fun sum r => sum + c_score r) originalResults 0
    / Qnat (List.length originalResults) in
  let improvedAvg :=
    fold_left (fun sum r => sum + improvedScore r) fixedResults 0
    / Qnat (List.length fixedResults) in
  let avgImprovement := improvedAvg - originalAvg in
  let significantImprovement := Qltb improvementThreshold avgImprovement in
  mkImprovement originalAvg improvedAvg avgImprovement significantImprovement
    (List.length (filter (fun r => Qltb 0 (fs_improvement r)) fixedResults)).

(** The loop of [evaluateAndImprove]; [remaining] is
    [maxCycles - cycle], so that the loop test [cycle < maxCycles] is
    [remaining <> 0]. *)
Fixpoint improve_loop (evaluationContext : EvaluationContext) (remaining cycle : nat)
    (currentSolutions : list Solution) (improvements : list Improvement)
  : Exc (list Solution * nat * list Improvement) :=
  match remaining with
  | O => Return (currentSolutions, cycle, improvements)
  | S remaining' =>
      let cycle := S cycle in
      criticResults <- criticPhase currentSolutions evaluationContext ;;
      fixedSolutions <- fixerPhase criticResults evaluationContext ;;
      let improvement := calculateImprovement criticResults fixedSolutions in
      let improvements := improvements ++ [improvement] in
      if significantImprovement improvement then
        improve_loop evaluationContext remaining' cycle
          (map fs_solution fixedSolutions) improvements
      else Return (currentSolutions, cycle, improvements)
  end.

Definition evaluateAndImprove (solutions : list Solution)
    (evaluationContext : EvaluationContext) : Exc ImprovementCycleResult :=
  '(currentSolutions, cycle, improvements) <-
    improve_loop evaluationContext maxCycles 0 solutions [] ;;
  finalEvaluation <- criticPhase currentSolutions evaluationContext ;;
  Return (mkCycleResult solutions currentSolutions cycle improvements
            (map c_score finalEvaluation)
            (fold_left (fun sum imp => sum + avgImprovement imp) improvements 0
             / Qnat (List.length improvements))).

(** *** Accountability engine *)

Record Stats : Type := mkStats {
  totalTasks : nat;
  verificationsPassed : nat;
  verificationsBlocked : nat;
  improvementCycles : nat;
  agentsRanked : nat
}.

Record LearningData : Type := mkLearning {
  ld_agentId : string;
  ld_timestamp : Z;
  ld_taskType : option string;
  ld_complexity : option Q;
  ld_verificationScore : Q;
  ld_sprintCompliance : option Q;
  ld_successful : bool;
  ld_improvements : bool
}.

(** The engine, together with the content of the verification-memory
    file that its verification layer rewrites. *)
Record Engine : Type := mkEngine {
  verificationLayer : VerificationLayer;
  eloSystem : AgentELORankingSystem;
  agentPerformanceCache : JsMap.t (list LearningData);
  continuousLearning : bool;
  adaptiveThresholds : bool;
  stats : Stats;
  memoryFile : option MemoryData
}.

Inductive Suggestions : Type :=
| NoSuggestions
| AlternativeSolutions (count : nat) (solutions : list Solution)
    (cyclesRun : nat) (averageImprovement : Q)
| VerificationGuidance (guidance : VerificationChecks)
    (recommendedActions : list string).

Inductive FinalResult : Type :=
| Blocked (reason : string) (verificationScore : Q)
    (improvementGuidance : VerificationChecks) (suggestions : Suggestions)
| Approved (verificationScore : Q) (eloRating : Q) (class : string)
    (sprintCompliance : option Q) (enhanced : bool)
| Failed (error : string).

Definition status (r : FinalResult) : string :=
  match r with
  | Blocked _ _ _ _ => "blocked"
  | Approved _ _ _ _ _ => "approved"
  | Failed _ => "error"
  end.

Record Phases : Type := mkPhases {
  ph_verification : option VerificationResult;
  ph_criticFixer : option ImprovementCycleResult;
  ph_eloUpdate : option RatingUpdate
}.

Record ProcessingResult : Type := mkProcessing {
  p_agentId : string;
  p_taskId : string;
  p_timestamp : Z;
  phases : Phases;
  finalResult : option FinalResult;
  p_improvements : Suggestions
}.

(** [new RecursiveSprintAccountabilityEngine(options)] on a fresh disk. *)
Definition new_Engine (verificationMode : option Mode)
    (continuousLearning adaptiveThresholds : bool) : Engine :=
  mkEngine
    (new_VerificationLayer (match verificationMode with Some m => m | None => moderate end))
    new_AgentELORankingSystem [] continuousLearning adaptiveThresholds
    (mkStats 0 0 0 0 0) None.

(** [String(v)], as [s.includes(v)] converts its argument. *)
Fixpoint to_text (v : json) : string :=
  match v with
  | JNull => "null"
  | JBool true => "true"
  | JBool false => "false"
  | JNum q => Number_toString q
  | JStr s => s
  | JArr xs =>
      JsString.join ","
        (map (fun x => match x with JNull => "" | _ => to_text x end) xs)
  | JObj _ => "[object Object]"
  end.

Definition goals_or_empty (ctx : SprintContext) : list string :=
  match sc_goals ctx with Some g => g | None => [] end.

(** The evaluation context that the engine hands to the critic-fixer. *)
Definition evaluation_context (ctx : SprintContext) : EvaluationContext :=
  mkEvalContext (Some (goals_or_empty ctx))
    (Some (match sc_constraints ctx with
           | Some c => if truthy c then c else JArr []
           | None => JArr []
           end))
    (Some (match sc_qualityStandards ctx with
           | Some q => q
           | None => mkQualityStandards None None None None
           end)).

Definition generateAlternativeSolutions (taskData : TaskData)
    (sprintContext : option SprintContext) : Exc (list Solution) :=
  let complexity := num_or (td_complexity taskData) (5 # 10) in
  let description :=
    match td_description taskData with
    | Some d => if String.eqb d "" then "Task implementation" else d
    | None => "Task implementation"
    end in
  let type :=
    match td_type taskData with
    | Some t => if String.eqb t "" then "implementation" else t
    | None => "implementation"
    end in
  let baseApproach : Solution :=
    [("description", JStr description);
     ("type", JStr type);
     ("complexity", JNum (complexity * (8 # 10)));
     ("technicalDetails", JStr "Simplified approach focusing on core requirements");
     ("architecture", JObj [("pattern", JStr "layered"); ("complexity", JStr "moderate")]);
     ("testing", JObj [("strategy", JStr "unit_tests"); ("coverage", JStr "basic")])] in
  let conservative :=
    set_field
      (set_field (set_field baseApproach "name" (JStr "Conservative Implementation"))
         "complexity" (JNum (complexity * (6 # 10))))
      "risks"
      (JArr [JObj [("risk", JStr "Technical debt");
                   ("mitigation", JStr "Planned refactoring phase")]]) in
  let balanced :=
    set_field
      (set_field
         (set_field (set_field baseApproach "name" (JStr "Balanced Implementation"))
            "complexity" (JNum complexity))
         "architecture"
         (JObj [("pattern", JStr "microservices"); ("complexity", JStr "moderate")]))
      "testing"
      (JObj [("strategy", JStr "comprehensive"); ("coverage", JStr "high")]) in
  let innovative :=
    set_field
      (set_field
         (set_field
            (set_field (set_field baseApproach "name" (JStr "Innovative Implementation"))
               "complexity" (JNum (complexity * (12 # 10))))
            "innovative" (JObj [("features", JBool true)]))
         "novel" (JObj [("approach", JBool true)]))
      "risks"
      (JArr [JObj [("risk", JStr "New technology adoption");
                   ("mitigation", JStr "Proof of concept first")];
             JObj [("risk", JStr "Timeline uncertainty");
                   ("mitigation", JStr "Agile iterations")]]) in
  match sprintContext with
  | None => null_context "allowInnovation"
  | Some ctx =>
      match sc_allowInnovation ctx with
      | Some false => Return [conservative; balanced]
      | _ => Return [conservative; balanced; innovative]
      end
  end.

Definition check_entries (checks : VerificationChecks) : list (string * CheckResult) :=
  [("sprintAlignment", sprintAlignment checks);
   ("qualityStandards", qualityStandards checks);
   ("crossAgentConsistency", crossAgentConsistency checks);
   ("historicalCompliance", historicalCompliance checks);
   ("contextAccuracy", contextAccuracy checks)].

Definition guidance_actions (checkName : string) : list string :=
  if String.eqb checkName "sprintAlignment" then
    ["Review sprint goals and align task objectives";
     "Include specific sprint goal references in task description"]
  else if String.eqb checkName "qualityStandards" then
    ["Provide detailed task description (minimum 50 characters)";
     "Specify valid task type and complexity estimate"]
  else if String.eqb checkName "crossAgentConsistency" then
    ["Review recent team outputs for consistency patterns";
     "Align with established team conventions"]
  else if String.eqb checkName "historicalCompliance" then
    ["Study successful similar tasks from history";
     "Apply proven patterns and approaches"]
  else if String.eqb checkName "contextAccuracy" then
    ["Verify understanding of sprint requirements";
     "Include references to specific context elements"]
  else [].

Definition generateVerificationGuidance (verificationResult : VerificationResult)
  : list string :=
  flat_map
    (fun '(checkName, checkResult) =>
       if negb (cr_passed checkResult) then guidance_actions checkName else [])
    (check_entries (vr_checks verificationResult)).

Definition generateImprovementSuggestions (taskData : TaskData)
    (sprintContext : option SprintContext) (verificationResult : VerificationResult)
  : Exc Suggestions :=
  alternativeSolutions <- generateAlternativeSolutions taskData sprintContext ;;
  if (0 <? List.length alternativeSolutions)%nat then
    match sprintContext with
    | None => null_context "goals"
    | Some ctx =>
        criticFixerResult <-
          evaluateAndImprove alternativeSolutions (evaluation_context ctx) ;;
        Return (AlternativeSolutions
                  (List.length (finalSolutions criticFixerResult))
                  (firstn 3 (finalSolutions criticFixerResult))
                  (cycles criticFixerResult)
                  (cycle_avgImprovement criticFixerResult))
    end
  else
    Return (VerificationGuidance (vr_checks verificationResult)
              (generateVerificationGuidance verificationResult)).

Definition calculateGoalAlignment (taskData : TaskData) (goals : list string) : Q :=
  let taskKeywords := extractKeywords (or_empty (td_description taskData)) in
  let goalKeywords := flat_map extractKeywords goals in
  if (List.length goalKeywords =? 0)%nat then 8 # 10
  else
    let matches :=
      filter (fun keyword => JsString.includes goalKeywords keyword) taskKeywords in
    Qmin 1 (Qnat (List.length matches) / (Qnat (List.length goalKeywords) * (3 # 10))).

Definition calculateConstraintAdherence (taskData : TaskData) (constraints : json)
  : Exc Q :=
  let adherence := 1 in
  let adherence :=
    if truthy_opt (field constraints "maxComplexity")
       && num_lt (number_of (field constraints "maxComplexity")) (td_complexity taskData)
    then adherence - (3 # 10) else adherence in
  match field constraints "requiredPatterns" with
  | Some requiredPatterns =>
      if truthy requiredPatterns then
        match requiredPatterns with
        | JArr patterns =>
            let hasRequiredPatterns :=
              forallb
                (fun pattern =>
                   match td_architecture taskData with
                   | Some architecture =>
                       truthy architecture
                       && JsString.has_substring (to_text pattern) (stringify architecture)
                   | None => false
                   end)
                patterns in
            Return (Qmax 0 (if negb hasRequiredPatterns
                            then adherence - (2 # 10) else adherence))
        | _ => Throw (TypeError "constraints.requiredPatterns.every is not a function")
        end
      else Return (Qmax 0 adherence)
  | None => Return (Qmax 0 adherence)
  end.

Definition is_true (o : option bool) : bool :=
  match o with Some b => b | None => false end.

Definition calculateQualityCompliance (taskData : TaskData)
    (qualityStandards : QualityStandards) : Q :=
  let compliance := 0 in
  let compliance :=
    if is_true (requireTesting qualityStandards) && truthy_opt (td_testing taskData)
    then compliance + (3 # 10) else compliance in
  let compliance :=
    if is_true (requireDocumentation qualityStandards)
       && is_true (td_documentation taskData)
    then compliance + (3 # 10) else compliance in
  let compliance :=
    if is_true (requireArchitecture qualityStandards)
       && truthy_opt (td_architecture taskData)
    then compliance + (2 # 10) else compliance in
  let compliance :=
    match minimumComplexity qualityStandards with
    | Some m => if negb (Qeqb m 0) && num_le (Some m) (td_complexity taskData)
                then compliance + (2 # 10) else compliance
    | None => compliance
    end in
  Qmin 1 (compliance + (5 # 10)).

Definition calculateSprintCompliance (taskData : TaskData)
    (sprintContext : option SprintContext) : Exc SprintCompliance :=
  match sprintContext with
  | None => null_context "goals"
  | Some ctx =>
      let compliance := 0 in
      let '(goalAlignment, compliance) :=
        match sc_goals ctx with
        | Some goals =>
            if (0 <? List.length goals)%nat then
              let goalAlignment := calculateGoalAlignment taskData goals in
              (goalAlignment, compliance + goalAlignment * (4 # 10))
            else (8 # 10, compliance + (32 # 100))
        | None => (8 # 10, compliance + (32 # 100))
        end in
      '(constraintAdherence, compliance) <-
        match sc_constraints ctx with
        | Some constraints =>
            if truthy constraints then
              constraintAdherence <- calculateConstraintAdherence taskData constraints ;;
              Return (constraintAdherence, compliance + constraintAdherence * (3 # 10))
            else Return (9 # 10, compliance + (27 # 100))
        | None => Return (9 # 10, compliance + (27 # 100))
        end ;;
      let '(qualityCompliance, compliance) :=
        match sc_qualityStandards ctx with
        | Some standards =>
            let qualityCompliance := calculateQualityCompliance taskData standards in
            (qualityCompliance, compliance + qualityCompliance * (3 # 10))
        | None => (8 # 10, compliance + (24 # 100))
        end in
      Return (mkCompliance (Some (Qmin 1 compliance))
                (Some (mkFactors goalAlignment constraintAdherence qualityCompliance)))
  end.

Definition updateAgentELO (env : Env) (agentId : string) (taskResult : TaskResult)
    (sprintCompliance : SprintCompliance) (this : Engine) : RatingUpdate * Engine :=
  let '(update, elo) :=
    updateAgentRating env agentId taskResult sprintCompliance (eloSystem this) in
  (update,
   mkEngine (verificationLayer this) elo (agentPerformanceCache this)
     (continuousLearning this) (adaptiveThresholds this) (stats this) (memoryFile this)).

Definition updateContinuousLearning (env : Env) (agentId : string) (taskData : TaskData)
    (verificationResult : VerificationResult) (sprintCompliance : SprintCompliance)
    (this : Engine) : Engine :=
  let learningData :=
    mkLearning agentId (now env) (td_type taskData) (td_complexity taskData)
      (vr_score verificationResult) (overallCompliance sprintCompliance)
      (vr_verified verificationResult) (is_true (td_enhanced taskData)) in
  let agentHistory :=
    match JsMap.get (agentPerformanceCache this) agentId with
    | Some h => h
    | None => []
    end in
  let agentHistory := agentHistory ++ [learningData] in
  let agentHistory :=
    if (50 <? List.length agentHistory)%nat then lastn 50 agentHistory
    else agentHistory in
  mkEngine (verificationLayer this) (eloSystem this)
    (JsMap.set (agentPerformanceCache this) agentId agentHistory)
    (continuousLearning this) (adaptiveThresholds this) (stats this) (memoryFile this).

Definition with_mode (this : Engine) (m : Mode) : Engine :=
  let layer := verificationLayer this in
  mkEngine
    (mkLayer m (verificationMemory layer) (successPatterns layer) (rollbackHistory layer))
    (eloSystem this) (agentPerformanceCache this) (continuousLearning this)
    (adaptiveThresholds this) (stats this) (memoryFile this).

Definition adjustAdaptiveThresholds (this : Engine) : Engine :=
  let verificationStats := getStats (verificationLayer this) in
  if (50 <? totalVerifications verificationStats)%nat then
    let successRate := successRate verificationStats in
    if Qltb (9 # 10) successRate then
      match mode (verificationLayer this) with
      | dev => with_mode this moderate
      | moderate => with_mode this strict
      | strict => this
      end
    else if Qltb successRate (6 # 10) then
      match mode (verificationLayer this) with
      | strict => with_mode this moderate
      | moderate => with_mode this dev
      | dev => this
      end
    else this
  else this.

Definition with_stats (this : Engine) (f : Stats -> Stats) : Engine :=
  mkEngine (verificationLayer this) (eloSystem this) (agentPerformanceCache this)
    (continuousLearning this) (adaptiveThresholds this) (f (stats this))
    (memoryFile this).

Definition inc_totalTasks (s : Stats) : Stats :=
  mkStats (S (totalTasks s)) (verificationsPassed s) (verificationsBlocked s)
    (improvementCycles s) (agentsRanked s).
Definition inc_verificationsPassed (s : Stats) : Stats :=
  mkStats (totalTasks s) (S (verificationsPassed s)) (verificationsBlocked s)
    (improvementCycles s) (agentsRanked s).
Definition inc_verificationsBlocked (s : Stats) : Stats :=
  mkStats (totalTasks s) (verificationsPassed s) (S (verificationsBlocked s))
    (improvementCycles s) (agentsRanked s).
Definition inc_improvementCycles (s : Stats) : Stats :=
  mkStats (totalTasks s) (verificationsPassed s) (verificationsBlocked s)
    (S (improvementCycles s)) (agentsRanked s).
Definition inc_agentsRanked (s : Stats) : Stats :=
  mkStats (totalTasks s) (verificationsPassed s) (verificationsBlocked s)
    (improvementCycles s) (S (agentsRanked s)).

Definition with_verification (this : Engine) (layer : VerificationLayer)
    (file : option MemoryData) : Engine :=
  mkEngine layer (eloSystem this) (agentPerformanceCache this)
    (continuousLearning this) (adaptiveThresholds this) (stats this) file.

(** What the body of [processAgentTask] has written at any point: the
    result under construction, the engine, and the caller's [taskData]
    object. *)
Record PState : Type := mkPState {
  ps_result : ProcessingResult;
  ps_engine : Engine;
  ps_task : TaskData
}.

Definition set_phases (r : ProcessingResult) (ph : Phases) : ProcessingResult :=
  mkProcessing (p_agentId r) (p_taskId r) (p_timestamp r) ph (finalResult r)
    (p_improvements r).

Definition set_final (r : ProcessingResult) (f : FinalResult) : ProcessingResult :=
  mkProcessing (p_agentId r) (p_taskId r) (p_timestamp r) (phases r) (Some f)
    (p_improvements r).

Definition set_improvements (r : ProcessingResult) (s : Suggestions) : ProcessingResult :=
  mkProcessing (p_agentId r) (p_taskId r) (p_timestamp r) (phases r) (finalResult r) s.

(** [taskData.solutions = ...; taskData.enhanced = true;
    taskData.improvementCycles = ...] *)
Definition adopt_solutions (taskData : TaskData) (final : list Solution) (n : nat)
  : TaskData :=
  mkTaskData (td_id taskData) (td_description taskData) (td_type taskData)
    (td_complexity taskData) (Some final) (Some true) (Some n)
    (td_documentation taskData) (td_collaboration taskData)
    (td_architecture taskData) (td_testing taskData).

(** The branch of a failed verification, up to its [return]. *)
Definition blocked_branch (env : Env) (agentId : string)
    (sprintContext : option SprintContext) (verificationResult : VerificationResult)
    (st : PState) : option JsError * PState :=
  let this := with_stats (ps_engine st) inc_verificationsBlocked in
  let taskData := ps_task st in
  match generateImprovementSuggestions taskData sprintContext verificationResult with
  | Throw e => (Some e, mkPState (ps_result st) this taskData)
  | Return improvementSuggestions =>
      let result := set_improvements (ps_result st) improvementSuggestions in
      let result :=
        set_final result
          (Blocked "verification_failed" (vr_score verificationResult)
             (vr_checks verificationResult) improvementSuggestions) in
      let '(_, this) :=
        updateAgentELO env agentId
          (mkTaskResult false (Some (vr_score verificationResult)) false
             (Some (num_or (td_complexity taskData) (5 # 10))) false false false)
          (mkCompliance (Some (vr_score verificationResult)) None) this in
      (None, mkPState result this taskData)
  end.

(** Phase 2: critic-fixer enhancement of the submitted solutions. *)
Definition criticFixer_phase (sprintContext : option SprintContext) (st : PState)
  : option JsError * PState :=
  let this := ps_engine st in
  let taskData := ps_task st in
  match td_solutions taskData with
  | Some solutions =>
      if continuousLearning this && (1 <? List.length solutions)%nat then
        match sprintContext with
        | None => (Some (TypeError "Cannot read properties of undefined (reading 'goals')"), st)
        | Some ctx =>
            match evaluateAndImprove solutions (evaluation_context ctx) with
            | Throw e => (Some e, st)
            | Return criticFixerResult =>
                let ph := phases (ps_result st) in
                let result :=
                  set_phases (ps_result st)
                    (mkPhases (ph_verification ph) (Some criticFixerResult)
                       (ph_eloUpdate ph)) in
                let this := with_stats this inc_improvementCycles in
                let taskData :=
                  if (0 <? List.length (finalSolutions criticFixerResult))%nat
                  then adopt_solutions taskData (finalSolutions criticFixerResult)
                         (cycles criticFixerResult)
                  else taskData in
                (None, mkPState result this taskData)
            end
        end
      else (None, st)
  | None => (None, st)
  end.

(** Phases 3 and 4: rating update and learning record, then approval. *)
Definition rating_phase (env : Env) (agentId : string)
    (sprintContext : option SprintContext) (verificationResult : VerificationResult)
    (st : PState) : option JsError * PState :=
  let taskData := ps_task st in
  match calculateSprintCompliance taskData sprintContext with
  | Throw e => (Some e, st)
  | Return sprintCompliance =>
      let '(eloUpdate, this) :=
        updateAgentELO env agentId
          (mkTaskResult true (Some (vr_score verificationResult)) true
             (Some (num_or (td_complexity taskData) (5 # 10)))
             (is_true (td_enhanced taskData))
             (is_true (td_collaboration taskData))
             (is_true (td_documentation taskData)))
          sprintCompliance (ps_engine st) in
      let ph := phases (ps_result st) in
      let result :=
        set_phases (ps_result st)
          (mkPhases (ph_verification ph) (ph_criticFixer ph) (Some eloUpdate)) in
      let this := with_stats this inc_agentsRanked in
      let this :=
        if continuousLearning this
        then updateContinuousLearning env agentId taskData verificationResult
               sprintCompliance this
        else this in
      let result :=
        set_final result
          (Approved (vr_score verificationResult) (newRating eloUpdate)
             (performanceClass eloUpdate) (overallCompliance sprintCompliance)
             (is_true (td_enhanced taskData))) in
      (None, mkPState result this taskData)
  end.

(** The [try] block of [processAgentTask]: the error it throws, if any,
    and what had been written by then. *)
Definition process_try (env : Env) (agentId : string)
    (sprintContext : option SprintContext) (st : PState) : option JsError * PState :=
  let this := ps_engine st in
  match enforceVerification env (ps_task st) sprintContext (verificationLayer this)
          (memoryFile this) with
  | Throw e => (Some e, st)
  | Return (verificationResult, layer, file) =>
      let this := with_verification this layer file in
      let ph := phases (ps_result st) in
      let result :=
        set_phases (ps_result st)
          (mkPhases (Some verificationResult) (ph_criticFixer ph) (ph_eloUpdate ph)) in
      let st := mkPState result this (ps_task st) in
      if negb (vr_verified verificationResult) then
        blocked_branch env agentId sprintContext verificationResult st
      else
        let st :=
          mkPState result (with_stats this inc_verificationsPassed) (ps_task st) in
        match criticFixer_phase sprintContext st with
        | (Some e, st) => (Some e, st)
        | (None, st) => rating_phase env agentId sprintContext verificationResult st
        end
  end.

(** How a call of the asynchronous [processAgentTask] ends: the promise
    resolves with a result or rejects with an error; the engine and the
    caller's [taskData] object are left as the call wrote them. *)
Record Outcome : Type := mkOutcome {
  completion : Exc ProcessingResult;
  engine_after : Engine;
  taskData_after : option TaskData
}.

(** [taskData.id || `task_${Date.now()}`] *)
Definition task_id (env : Env) (task : TaskData) : string :=
  match td_id task with
  | Some i => if String.eqb i "" then ("task_" ++ decimal_of_Z (now env))%string else i
  | None => ("task_" ++ decimal_of_Z (now env))%string
  end.

(** The state on entry to the [try] block. *)
Definition initial_state (env : Env) (agentId : string) (task : TaskData)
    (this : Engine) : PState :=
  mkPState
    (mkProcessing agentId (task_id env task) (now env) (mkPhases None None None) None
       NoSuggestions)
    this task.

Definition processAgentTask (env : Env) (agentId : string)
    (taskData : option TaskData) (sprintContext : option SprintContext)
    (this : Engine) : Outcome :=
  let this := with_stats this inc_totalTasks in
  match taskData with
  | None =>
      mkOutcome
        (Throw (TypeError "Cannot read properties of undefined (reading 'id')"))
        this None
  | Some task =>
      match process_try env agentId sprintContext
              (initial_state env agentId task this) with
      | (None, st) =>
          mkOutcome (Return (ps_result st)) (ps_engine st) (Some (ps_task st))
      | (Some error, st) =>
          mkOutcome
            (Return (set_final (ps_result st) (Failed (error_message error))))
            (ps_engine st) (Some (ps_task st))
      end
  end.

End Host.

(** ** Inputs of the examples *)

(** A host for the closed examples: it prints integers as JavaScript does
    and raises to integer powers, which is all the examples ask of it. *)
Definition integer_toString (q : Q) : string :=
  decimal_of_Z (Qnum q / Z.pos (Qden q)).

Definition integer_pow (base exponent : Q) : Q :=
  Qpower base (Qnum exponent / Z.pos (Qden exponent)).

Definition empty_task : TaskData :=
  mkTaskData None None None None None None None None None None None.

Definition with_complexity (t : TaskData) (c : option Q) : TaskData :=
  mkTaskData (td_id t) (td_description t) (td_type t) c (td_solutions t)
    (td_enhanced t) (td_improvementCycles t) (td_documentation t)
    (td_collaboration t) (td_architecture t) (td_testing t).

Definition with_solutions (t : TaskData) (sols : list Solution) : TaskData :=
  mkTaskData (td_id t) (td_description t) (td_type t) (td_complexity t) (Some sols)
    (td_enhanced t) (td_improvementCycles t) (td_documentation t)
    (td_collaboration t) (td_architecture t) (td_testing t).

(** Scenario A: the output and the sprint context. *)
Definition scenarioA_output : TaskData :=
  mkTaskData None (Some "Implement secure auth with JWT") (Some "implementation")
    (Some (7 # 10)) None None None None None None None.

Definition scenarioA_context : SprintContext :=
  mkSprintContext (Some ["Implement secure user authentication"]) None None None None None.

Definition env_at (t : Z) : Env := mkEnv t "k3x9q2m1z" true.

(** [n] verification calls in a row on the scenario-A input, one
    millisecond apart. *)
Fixpoint verify_n (n : nat) (this : VerificationLayer) (file : option MemoryData)
  : VerificationLayer * option MemoryData :=
  match n with
  | O => (this, file)
  | S n' =>
      let '(this, file) := verify_n n' this file in
      match enforceVerification integer_toString (env_at (Z.of_nat n)) scenarioA_output
              (Some scenarioA_context) this file with
      | Return (_, this', file') => (this', file')
      | Throw _ => (this, file)
      end
  end.

Definition engine_with_layer (layer : VerificationLayer) : Engine :=
  mkEngine layer new_AgentELORankingSystem [] true true (mkStats 0 0 0 0 0) None.

(** A minimal and a malformed candidate solution. *)
Definition minimal_solution : Solution := [("name", JStr "Minimal")].
Definition detailed_solution : Solution :=
  [("name", JStr "Detailed");
   ("architecture", JObj [("pattern", JStr "layered")]);
   ("testing", JObj [("strategy", JStr "unit")]);
   ("risks", JArr [JObj [("risk", JStr "Delay"); ("mitigation", JStr "Buffer")]])].
Definition malformed_solution : Solution := [("risks", JStr "unknown")].

Definition half_task : TaskData :=
  mkTaskData (Some "t-1") (Some "Implement secure auth with JWT") (Some "implementation")
    (Some (5 # 10)) None None None None None None None.

(** The own-property [risks] of a solution is absent, falsy, or an array
    without [null] elements: [evaluateRiskAssessment] then does not throw. *)
Definition risks_ok (solution : Solution) : bool :=
  match JsMap.get solution "risks" with
  | None => true
  | Some (JArr items) =>
      forallb (fun r => match r with JNull => false | _ => true end) items
  | Some v => negb (truthy v)
  end.

(** The context elements that [verifyContextAccuracy] scores: those that
    are present and truthy, in the order of [contextElements]. *)
Definition present_elements (ctx : SprintContext) : list json :=
  flat_map
    (fun element =>
       match context_element ctx element with
       | Some v => if truthy v then [v] else []
       | None => []
       end)
    contextElements.

(** One step up and one step down the scale [dev < moderate < strict]. *)
Definition tighten (m : Mode) : Mode :=
  match m with dev => moderate | moderate => strict | strict => strict end.

Definition loosen (m : Mode) : Mode :=
  match m with strict => moderate | moderate => dev | dev => dev end.

(** An agent rated 1500 and a completed task of complexity one half. *)
Definition rated_system : AgentELORankingSystem := mkElo [("a1", 1500)] [].

Definition half_result : TaskResult :=
  mkTaskResult true (Some (9 # 10)) true (Some (1 # 2)) false false false.

Definition full_compliance : SprintCompliance := mkCompliance (Some 1) None.

(** A task and a task result of complexity zero. *)
Definition zero_task : TaskData :=
  mkTaskData (Some "t-0") (Some "Implement secure auth with JWT") (Some "implementation")
    (Some 0) None None None None None None None.

Definition zero_result : TaskResult :=
  mkTaskResult true (Some (9 # 10)) true (Some 0) false false false.

Definition with_result_complexity (r : TaskResult) (c : option Q) : TaskResult :=
  mkTaskResult (tr_completed r) (tr_quality r) (tr_onTime r) c (tr_innovative r)
    (tr_helpedOthers r) (tr_documentation r).

Definition solution_ok (s : Solution) : Prop := risks_ok s = true.


(** The evaluation context of scenario A, and two candidate sets. *)
Definition scenarioA_evaluation : EvaluationContext :=
  evaluation_context scenarioA_context.

Definition two_solutions : list Solution := [minimal_solution; detailed_solution].

Definition two_solution_task : TaskData := with_solutions half_task two_solutions.

Definition malformed_task : TaskData :=
  with_solutions half_task [minimal_solution; malformed_solution].

Definition dev_engine : Engine := new_Engine (Some dev) true true.

(** The rating phase does not touch the critic-fixer result already
    recorded. *)
Definition phases_criticFixer_kept (st st' : PState) : Prop :=
  ph_criticFixer (phases (ps_result st')) = ph_criticFixer (phases (ps_result st)).

(** The result a call resolved with, and the status of its final result. *)
Definition result_of (out : Outcome) : option ProcessingResult :=
  match completion out with
  | Return r => Some r
  | Throw _ => None
  end.

Definition final_of (out : Outcome) : option FinalResult :=
  match result_of out with
  | Some r => finalResult r
  | None => None
  end.

Definition final_status (out : Outcome) : option string :=
  option_map status (final_of out).

(** The runs of the examples. *)
Definition run_without_context : Outcome :=
  processAgentTask integer_toString integer_pow (env_at 1) "a1" (Some half_task) None
    dev_engine.

Definition run_malformed : Outcome :=
  processAgentTask integer_toString integer_pow (env_at 1) "a1" (Some malformed_task)
    (Some scenarioA_context) dev_engine.

Definition run_approved : Outcome :=
  processAgentTask integer_toString integer_pow (env_at 1) "a1"
    (Some two_solution_task) (Some scenarioA_context) dev_engine.

Definition run_blocked : Outcome :=
  processAgentTask integer_toString integer_pow (env_at 1) "a1"
    (Some two_solution_task) (Some scenarioA_context)
    (new_Engine (Some strict) true true).

(** Fifty and fifty-one verifications of the scenario-A output in a row,
    in the dev mode. *)
Definition engine_after_50 : Engine :=
  engine_with_layer (fst (verify_n 50 (new_VerificationLayer dev) None)).

Definition engine_after_51 : Engine :=
  engine_with_layer (fst (verify_n 51 (new_VerificationLayer dev) None)).

(** ** Further operations of the two modules and of their caller *)

(** [x.toFixed(digits)] for [|x| < 10^21]: the digits of the integer
    nearest to [|x| * 10^digits], the larger one on a tie, behind the sign
    of [x]. *)
Definition fixed_digits (digits : nat) (x : Q) : Z :=
  Qfloor (Qabs x * inject_Z (10 ^ Z.of_nat digits) + (1 # 2)).

(** [n] zero digits. *)
Fixpoint zeros (n : nat) : string :=
  match n with
  | O => EmptyString
  | S n' => String "0" (zeros n')
  end.

Definition toFixed (digits : nat) (x : Q) : string :=
  let s := if Qltb x 0 then "-" else "" in
  let m := decimal_of_Z (fixed_digits digits x) in
  let m :=
    if (digits =? 0)%nat then m
    else
      let m :=
        if (String.length m <=? digits)%nat
        then (zeros (digits + 1 - String.length m) ++ m)%string else m in
      let k := String.length m in
      (String.substring 0 (k - digits) m ++ "."
       ++ String.substring (k - digits) digits m)%string in
  (s ++ m)%string.

(** The number that a text produced by [toFixed(0)] converts back to. *)
Definition fixed_value (x : Q) : Z :=
  if Qltb x 0 then (- fixed_digits 0 x)%Z else fixed_digits 0 x.

(** [`${(score * 100).toFixed(1)}%`] *)
Definition percent (score : Q) : string := (toFixed 1 (score * 100) ++ "%")%string.

(** *** Verification layer: the rollback action *)

Record FailedCheck : Type := mkFailedCheck {
  fc_name : string;
  fc_score : Q;
  fc_details : CheckDetails
}.

Record RollbackAction : Type := mkRollbackAction {
  ra_verificationId : string;
  ra_timestamp : Z;
  failedChecks : list FailedCheck;
  improvementGuidance : list string;
  requiresReexecution : bool
}.

(** [if (!check.passed) guidance.push(message)] *)
Definition push_unless_passed (guidance : list string) (check : CheckResult)
    (message : string) : list string :=
  if negb (cr_passed check) then guidance ++ [message] else guidance.

(** [generateImprovementGuidance(verificationResult)] *)
Definition generateImprovementGuidance (verificationResult : VerificationResult)
  : list string :=
  let checks := vr_checks verificationResult in
  let guidance := [] in
  let guidance :=
    push_unless_passed guidance (sprintAlignment checks)
      ("Improve sprint alignment (" ++ percent (cr_score (sprintAlignment checks))
       ++ ") - Review sprint goals and ensure task directly supports them") in
  let guidance :=
    push_unless_passed guidance (qualityStandards checks)
      ("Enhance quality standards (" ++ percent (cr_score (qualityStandards checks))
       ++ ") - Provide detailed description, proper type, and complexity estimate") in
  let guidance :=
    push_unless_passed guidance (crossAgentConsistency checks)
      ("Improve consistency with team ("
       ++ percent (cr_score (crossAgentConsistency checks))
       ++ ") - Review recent agent outputs for alignment") in
  let guidance :=
    push_unless_passed guidance (historicalCompliance checks)
      ("Learn from historical patterns ("
       ++ percent (cr_score (historicalCompliance checks))
       ++ ") - Study successful similar tasks") in
  let guidance :=
    push_unless_passed guidance (contextAccuracy checks)
      ("Improve context accuracy (" ++ percent (cr_score (contextAccuracy checks))
       ++ ") - Verify understanding of sprint context") in
  guidance.

(** [triggerRollback(verificationResult)]; the clock reading stands for
    the time stamp of the action. *)
Definition triggerRollback (env : Env) (verificationResult : VerificationResult)
  : RollbackAction :=
  let guidance := generateImprovementGuidance verificationResult in
  mkRollbackAction (vr_verificationId verificationResult) (now env)
    (map (fun '(name, check) => mkFailedCheck name (cr_score check) (cr_details check))
       (filter (fun '(_, check) => negb (cr_passed check))
          (check_entries (vr_checks verificationResult))))
    guidance true.

(** *** ELO ranking: queries *)

Record TopPerformer : Type := mkTopPerformer {
  tp_agentId : string;
  tp_rating : string;
  tp_performanceClass : string
}.

(** [getTopPerformers(limit)] *)
Definition getTopPerformers (limit : nat) (this : AgentELORankingSystem)
  : list TopPerformer :=
  map (fun '(agentId, rating) =>
         mkTopPerformer agentId (toFixed 0 rating) (classifyPerformance rating))
    (firstn limit (sort_desc snd (agentRatings this))).

Record AgentStats : Type := mkAgentStats {
  as_agentId : string;
  as_currentRating : string;
  as_performanceClass : string;
  as_totalTasks : nat;
  as_recentTasks : nat;
  as_recentAvgRatingChange : string;
  as_trending : string
}.

(** The mean of the rating changes of the last ten records, zero without
    any. *)
Definition recentAvgRatingChange (history : list PerformanceRecord) : Q :=
  let recentHistory := lastn 10 history in
  if (0 <? List.length recentHistory)%nat
  then fold_left (fun sum h => sum + pr_ratingChange h) recentHistory 0
       / Qnat (List.length recentHistory)
  else 0.

(** [this.agentRatings.get(agentId) || this.initialRating] *)
Definition agent_rating (this : AgentELORankingSystem) (agentId : string) : Q :=
  num_or (JsMap.get (agentRatings this) agentId) initialRating.

(** [this.performanceHistory.get(agentId) || []] *)
Definition agent_history (this : AgentELORankingSystem) (agentId : string)
  : list PerformanceRecord :=
  match JsMap.get (performanceHistory this) agentId with
  | Some h => h
  | None => []
  end.

(** [getAgentStats(agentId)] *)
Definition getAgentStats (agentId : string) (this : AgentELORankingSystem) : AgentStats :=
  let rating := agent_rating this agentId in
  let history := agent_history this agentId in
  let recentHistory := lastn 10 history in
  let avg := recentAvgRatingChange history in
  mkAgentStats agentId (toFixed 0 rating) (classifyPerformance rating)
    (List.length history) (List.length recentHistory) (toFixed 1 avg)
    (if Qltb 5 avg then "up" else if Qltb avg (-5) then "down" else "stable").

(** *** Accountability engine: recommendations *)

Record Recommendations : Type := mkRecommendations {
  rec_agentId : string;
  rec_currentRating : string;
  rec_performanceClass : string;
  rec_trending : string;
  recommendations : list string
}.

(** A sum in which a missing term gives [NaN] ([None]). *)
Definition sum_defined (xs : list (option Q)) : option Q :=
  fold_left
    (fun sum x => match sum, x with Some s, Some q => Some (s + q) | _, _ => None end)
    xs (Some 0).

(** [[...new Set(xs)]]: the distinct values in order of first occurrence. *)
Fixpoint distinct_values (seen xs : list (option string)) : list (option string) :=
  match xs with
  | [] => []
  | x :: xs' =>
      if existsb (option_string_eqb x) seen then distinct_values seen xs'
      else x :: distinct_values (x :: seen) xs'
  end.

(** A value inside a template literal. *)
Definition template_text (o : option string) : string :=
  match o with Some s => s | None => "undefined" end.

(** [getAgentRecommendations(agentId)]; the comparison of
    [agentStats.currentRating], a text, with a number converts the text
    back to a number. *)
Definition getAgentRecommendations (agentId : string) (this : Engine) : Recommendations :=
  let agentStats := getAgentStats agentId (eloSystem this) in
  let agentHistory :=
    match JsMap.get (agentPerformanceCache this) agentId with
    | Some h => h
    | None => []
    end in
  let recentTasks := lastn 10 agentHistory in
  let fromTasks :=
    if (0 <? List.length recentTasks)%nat then
      let avgVerificationScore :=
        fold_left (fun sum task => sum + ld_verificationScore task) recentTasks 0
        / Qnat (List.length recentTasks) in
      let avgCompliance :=
        match sum_defined (map ld_sprintCompliance recentTasks) with
        | Some s => Some (s / Qnat (List.length recentTasks))
        | None => None
        end in
      let taskTypes := distinct_values [] (map ld_taskType recentTasks) in
      (if Qltb avgVerificationScore (7 # 10)
       then ["Focus on improving verification scores through better sprint alignment"]
       else [])
      ++ (if num_lt avgCompliance (Some (7 # 10))
          then ["Review sprint compliance patterns and improve goal alignment"]
          else [])
      ++ (match taskTypes with
          | [only] => [("Consider diversifying task types beyond "
                        ++ template_text only)%string]
          | _ => []
          end)
    else [] in
  let currentRating := fixed_value (agent_rating (eloSystem this) agentId) in
  let fromRating :=
    if (currentRating <? 1400)%Z
    then ["Focus on completing basic tasks successfully to build rating"]
    else if (1800 <? currentRating)%Z
    then ["Consider taking on more complex, innovative tasks"]
    else [] in
  mkRecommendations agentId (as_currentRating agentStats) (as_performanceClass agentStats)
    (as_trending agentStats) (fromTasks ++ fromRating).

(** *** The commit hook that calls the engine *)

Fixpoint ends_with_from (suffix s : string) : bool :=
  String.eqb suffix s ||
  match s with
  | EmptyString => false
  | String _ s' => ends_with_from suffix s'
  end.

(** [s.endsWith(suffix)] *)
Definition endsWith (s suffix : string) : bool := ends_with_from suffix s.

(** [s.includes(t)] *)
Definition includes_text (s t : string) : bool := JsString.has_substring t s.

(** [inferTaskType(message, files)] *)
Definition inferTaskType (message : string) (files : list string) : string :=
  let messageL := JsString.toLowerCase message in
  if includes_text messageL "test" || existsb (fun f => includes_text f "test") files
  then "testing"
  else if includes_text messageL "doc"
          || existsb (fun f => includes_text f "doc" || endsWith f ".md") files
  then "documentation"
  else if includes_text messageL "fix" || includes_text messageL "bug"
  then "debugging"
  else if includes_text messageL "feat" || includes_text messageL "add"
  then "implementation"
  else if includes_text messageL "refactor" || includes_text messageL "clean"
  then "refactoring"
  else "implementation".

(** [estimateComplexity(files)] *)
Definition estimateComplexity (files : list string) : Q :=
  let complexity := Qmin (Qnat (List.length files) / 20) 1 in
  Qmax (1 # 10) complexity.

(** What [result.improvements?.guidance || []] evaluates to. *)
Inductive HookSuggestions : Type :=
| SuggestionList (items : list string)
| SuggestionChecks (checks : VerificationChecks).

Record AlignmentValidation : Type := mkAlignmentValidation {
  valid : bool;
  reason : string;
  hook_suggestions : HookSuggestions
}.

(** What the [catch] block of [validateSprintAlignment] returns. *)
Definition validation_unavailable : AlignmentValidation :=
  mkAlignmentValidation true "Sprint validation unavailable" (SuggestionList []).

(** The task that [validateSprintAlignment] builds from a commit; its
    extra field [changedFiles], a count that the engine never reads, is
    left out. *)
Definition commit_task (env : Env) (commitMessage : string) (changedFiles : list string)
  : TaskData :=
  mkTaskData (Some ("commit_" ++ decimal_of_Z (now env))%string) (Some commitMessage)
    (Some (inferTaskType commitMessage changedFiles))
    (Some (estimateComplexity changedFiles)) None None None None None None None.

Section Hook.

Variable Number_toString : Q -> string.
Variable Math_pow : Q -> Q -> Q.

(** [validateSprintAlignment(commitMessage, changedFiles)]: [sprintFile] is
    what [loadCurrentSprintContext] reads, [engine] is [this.engine], which
    is [null] until the hook is initialised. *)
Definition validateSprintAlignment (env : Env) (commitMessage : string)
    (changedFiles : list string) (sprintFile : option SprintContext)
    (engine : option Engine) : AlignmentValidation * option Engine :=
  match sprintFile with
  | None =>
      (mkAlignmentValidation true "No active sprint context found"
         (SuggestionList ["Set up sprint context in .claude/oversight/current-sprint.json"]),
       engine)
  | Some sprintContext =>
      let taskData := commit_task env commitMessage changedFiles in
      match engine with
      | None => (validation_unavailable, engine)
      | Some this =>
          let out :=
            processAgentTask Number_toString Math_pow env "commit-validation"
              (Some taskData) (Some sprintContext) this in
          let engine := Some (engine_after out) in
          match completion out with
          | Throw _ => (validation_unavailable, engine)
          | Return result =>
              match finalResult result with
              | None => (validation_unavailable, engine)
              | Some final =>
                  if String.eqb (status final) "blocked" then
                    match ph_verification (phases result) with
                    | None => (validation_unavailable, engine)
                    | Some verification =>
                        (mkAlignmentValidation false
                           ("Sprint alignment score: "
                            ++ percent (vr_score verification))%string
                           (match p_improvements result with
                            | VerificationGuidance checks _ => SuggestionChecks checks
                            | _ => SuggestionList []
                            end),
                         engine)
                    end
                  else
                    (mkAlignmentValidation (String.eqb (status final) "approved")
                       "Aligned with sprint goals" (SuggestionList []),
                     engine)
              end
          end
      end
  end.

End Hook.

(** ** Predicates of the properties *)

(** Every character of [s] satisfies [p]. *)
Fixpoint all_chars (p : ascii -> bool) (s : string) : bool :=
  match s with
  | EmptyString => true
  | String c s' => p c && all_chars p s'
  end.

(** A character that a keyword may hold: a lower-case letter, a digit or
    the underscore. *)
Definition keyword_char (c : ascii) : bool :=
  JsString.is_word c && negb (JsString.is_upper c).

(** By decreasing key. *)
Definition sorted_desc {A : Type} (key : A -> Q) (l : list A) : Prop :=
  StronglySorted (fun a b => key b <= key a) l.

(** ** Further inputs of the examples *)

(** A description that repeats one keyword twenty times, and a layer
    whose success pattern for the type has that keyword as its only common
    keyword. *)
Definition repeated_task : TaskData :=
  mkTaskData None
    (Some ("deploy deploy deploy deploy deploy deploy deploy deploy deploy deploy "
           ++ "deploy deploy deploy deploy deploy deploy deploy deploy deploy deploy")%string)
    (Some "implementation") (Some (5 # 10)) None None None None None None None.

Definition deploy_layer : VerificationLayer :=
  mkLayer moderate []
    [("implementation",
      mkPattern 1 [] (mkPatternSummary (5 # 10) ["deploy"] []))]
    [].

(** The weighted sum of factor scores, and the factors that
    [evaluateSolution] lists as strengths (above 0.8) and as weaknesses
    (below 0.6). *)
Definition weighted_total (entries : list (string * Q)) : Q :=
  Qsum (map (fun e => snd e * weight_of (fst e)) entries).

Definition strong_factors (entries : list (string * Q)) : list string :=
  map fst (filter (fun e => Qltb (8 # 10) (snd e)) entries).

Definition weak_factors (entries : list (string * Q)) : list string :=
  map fst (filter (fun e => Qltb (snd e) (6 # 10)) entries).

(** The properties that [applySolutionFixes] writes. *)
Definition enhancement_keys : list string :=
  ["sprintAlignmentEnhancement"; "technicalEnhancements"; "feasibilityImprovements";
   "riskMitigations"; "innovativeEnhancements"].

(** [improved] holds every property of [solution], except perhaps the
    enhancement properties, with the same value. *)
Definition enhanced_from (solution improved : Solution) : Prop :=
  forall k, ~ In k enhancement_keys -> JsMap.get improved k = JsMap.get solution k.

Section Critic.

Variable Number_toString : Q -> string.

(** A critic result describes the solution at its index and carries the
    evaluation of that solution. *)
Definition critic_of (evaluationContext : EvaluationContext) (solutions : list Solution)
    (c : CriticResult) : Prop :=
  nth_error solutions (solutionIndex c) = Some (c_solution c)
  /\ exists ev,
       evaluateSolution Number_toString (c_solution c) evaluationContext = Return ev
       /\ c_score c = ev_score ev
       /\ strengths c = ev_strengths ev
       /\ weaknesses c = ev_weaknesses ev
       /\ improvementAreas c = ev_improvementAreas ev.

(** What the fixer makes of one critic result: a result that scores at
    least 0.8 or names no improvement area is handed on as it is. *)
Definition needs_fixing (c : CriticResult) : bool :=
  Qltb (c_score c) (8 # 10) && (0 <? List.length (improvementAreas c))%nat.

Definition fixed_of (c : CriticResult) (f : FixedSolution) : Prop :=
  originalScore f = c_score c
  /\ enhanced_from (c_solution c) (fs_solution f)
  /\ if needs_fixing c
     then appliedFixes f = improvementAreas c
          /\ fs_improvement f = improvedScore f - originalScore f
     else fs_solution f = c_solution c /\ appliedFixes f = []
          /\ improvedScore f = c_score c /\ fs_improvement f = 0.

End Critic.

(** The current solutions of the improvement loop are the candidates, in
    some order, each with the enhancements applied so far. *)
Definition candidates_of (solutions current : list Solution) : Prop :=
  exists arranged,
    Permutation arranged solutions /\ Forall2 enhanced_from arranged current.

(** The property [requiredPatterns] of the constraints is truthy and is
    not an array: [calculateConstraintAdherence] then calls a method that
    the value does not have. *)
Definition malformed_patterns (constraints : json) : bool :=
  match field constraints "requiredPatterns" with
  | Some (JArr _) => false
  | Some patterns => truthy patterns
  | None => false
  end.

(** The counters of the engine agree with one another: no more verdicts
    than tasks, and no more improvement runs or rating updates of approved
    tasks than passed verifications. *)
Definition counters_consistent (s : Stats) : Prop :=
  (verificationsPassed s + verificationsBlocked s <= totalTasks s)%nat
  /\ (improvementCycles s <= verificationsPassed s)%nat
  /\ (agentsRanked s <= verificationsPassed s)%nat.

(** The submitted solutions that the critic-fixer cannot evaluate, and
    the constraints that the compliance phase cannot read. *)
Definition malformed_input (task : TaskData) (ctx : SprintContext) : Prop :=
  (exists solutions,
     td_solutions task = Some solutions /\ forallb risks_ok solutions = false)
  \/ (exists constraints,
        sc_constraints ctx = Some constraints /\ truthy constraints = true
        /\ malformed_patterns constraints = true).

(** The checks of a verification record that did not pass, by name. *)
Definition failed_checks (verificationResult : VerificationResult)
  : list (string * CheckResult) :=
  filter (fun e => negb (cr_passed (snd e))) (check_entries (vr_checks verificationResult)).

(** The task types that the commit hook can infer. *)
Definition inferred_types : list string :=
  ["testing"; "documentation"; "debugging"; "implementation"; "refactoring"].

(** ** Tactics of the proofs *)

(** Bounds between closed rationals. *)
Ltac closed_bounds := repeat split; vm_compute; discriminate.

(** A property name that is not an enhancement property. *)
Ltac other_key :=
  let Hin := fresh "Hin" in intro Hin; cbn in Hin; intuition discriminate.

(** * Properties *)

(** ** Comparisons and bounds on numbers *)

Lemma Qleb_le (a b : Q) : Qleb a b = true <-> a <= b.
Proof. unfold Qleb. apply Qle_bool_iff. Qed.

Lemma Qltb_lt (a b : Q) : Qltb a b = true <-> a < b.
Proof.
  unfold Qltb. rewrite negb_true_iff. split; intro H.
  - apply Qnot_le_lt. intro Hle. apply Qle_bool_iff in Hle. congruence.
  - destruct (Qle_bool b a) eqn:E; [|reflexivity].
    apply Qle_bool_iff in E. exfalso. apply (Qlt_not_le _ _ H E).
Qed.

Lemma Qltb_false_le (a b : Q) : Qltb a b = false <-> b <= a.
Proof.
  unfold Qltb. rewrite negb_false_iff. apply Qle_bool_iff.
Qed.

Lemma Qeqb_eq (a b : Q) : Qeqb a b = true <-> a == b.
Proof. unfold Qeqb. apply Qeq_bool_iff. Qed.

(** [Math.max(lo, Math.min(hi, x))] lies between [lo] and [hi]. *)
Lemma clamp_bounds (lo hi x : Q) :
  lo <= hi -> lo <= Qmax lo (Qmin hi x) /\ Qmax lo (Qmin hi x) <= hi.
Proof.
  intro H. split.
  - apply Q.le_max_l.
  - apply Q.max_lub; [exact H | apply Q.le_min_l].
Qed.

Lemma num_or_zero (c d : Q) : c == 0 -> num_or (Some c) d = d.
Proof.
  intro H. unfold num_or. apply Qeqb_eq in H. now rewrite H.
Qed.

(** ** Maps *)

Lemma JsMap_get_set_same {V : Type} (m : JsMap.t V) (k : string) (v : V) :
  JsMap.get (JsMap.set m k v) k = Some v.
Proof.
  induction m as [|[k' v'] m IH]; simpl.
  - now rewrite String.eqb_refl.
  - destruct (String.eqb k k') eqn:E; simpl.
    + now rewrite E.
    + now rewrite E.
Qed.

Lemma JsMap_get_set_other {V : Type} (m : JsMap.t V) (k k' : string) (v : V) :
  String.eqb k' k = false -> JsMap.get (JsMap.set m k v) k' = JsMap.get m k'.
Proof.
  intro Hne. induction m as [|[k0 v0] m IH]; simpl.
  - now rewrite Hne.
  - destruct (String.eqb k k0) eqn:E; simpl.
    + apply String.eqb_eq in E. subst k0. now rewrite Hne.
    + destruct (String.eqb k' k0); [reflexivity | exact IH].
Qed.

Lemma lastn_length {A : Type} (n : nat) (l : list A) :
  List.length (lastn n l) = Nat.min n (List.length l).
Proof. unfold lastn. rewrite length_skipn. lia. Qed.

Lemma lastn_suffix {A : Type} (n : nat) (l : list A) :
  exists dropped, l = dropped ++ lastn n l
                  /\ List.length dropped = (List.length l - n)%nat.
Proof.
  exists (firstn (List.length l - n) l). unfold lastn. split.
  - symmetry. apply firstn_skipn.
  - rewrite length_firstn. lia.
Qed.

(** ** The verification gate *)

Lemma verifyContextAccuracy_returns (Number_toString : Q -> string)
    (agentOutput : TaskData) (ctx : SprintContext) :
  exists r, verifyContextAccuracy Number_toString agentOutput (Some ctx) = Return r.
Proof.
  unfold verifyContextAccuracy.
  destruct (fold_left _ contextElements (0, [])) as [a d].
  eexists. reflexivity.
Qed.



(** In the moderate mode the scenario-A output is not verified: its
    overall score is 0.685. *)
Example scenarioA_moderate :
  match enforceVerification integer_toString (env_at 1) scenarioA_output
          (Some scenarioA_context) (new_VerificationLayer moderate) None with
  | Return (r, _, _) => vr_score r == 685 # 1000 /\ vr_verified r = false
  | Throw _ => False
  end.
Proof. vm_compute. split; reflexivity. Qed.

(** ** Sprint alignment on scenario A *)

(** C6, as the claim states it, fails: on the scenario-A input the
    keyword-overlap score does not exceed 0.6 and the check does not pass. *)
Lemma scenarioA_alignment_not_above_six_tenths :
  ~ (exists r, verifySprintAlignment scenarioA_output (Some scenarioA_context) = Return r
               /\ 6 # 10 < cr_score r /\ cr_passed r = true).
Proof.
  intros [r [Hr [Hlt _]]]. vm_compute in Hr. inversion Hr; subst r; clear Hr.
  vm_compute in Hlt. discriminate.
Qed.

(** C6, amended.  On the scenario-A input the output keywords are
    implement, secure, auth, with; the goal keywords are implement, secure,
    user, authentication; two of four match, so the score is exactly 0.5
    and the check, which asks for more than 0.6, does not pass. *)
Theorem scenarioA_alignment_is_one_half :
  exists r, verifySprintAlignment scenarioA_output (Some scenarioA_context) = Return r
            /\ cr_score r == 1 # 2
            /\ cr_passed r = false
            /\ cr_details r =
               AlignmentDetails ["implement"; "secure"; "auth"; "with"]
                 ["implement"; "secure"; "user"; "authentication"] (2 # 4).
Proof.
  eexists. split; [reflexivity|]. repeat split.
Qed.

(** ** Ratings *)

Lemma newRating_clamped (Math_pow : Q -> Q -> Q) (env : Env) (agentId : string)
    (taskResult : TaskResult) (sprintCompliance : SprintCompliance)
    (this : AgentELORankingSystem) :
  800 <= newRating (fst (updateAgentRating Math_pow env agentId taskResult sprintCompliance this))
  /\ newRating (fst (updateAgentRating Math_pow env agentId taskResult sprintCompliance this))
     <= 2400.
Proof.
  unfold updateAgentRating. cbn [fst newRating].
  apply clamp_bounds. discriminate.
Qed.

Lemma updateAgentRating_stores (Math_pow : Q -> Q -> Q) (env : Env) (agentId : string)
    (taskResult : TaskResult) (sprintCompliance : SprintCompliance)
    (this : AgentELORankingSystem) :
  JsMap.get
    (agentRatings (snd (updateAgentRating Math_pow env agentId taskResult sprintCompliance this)))
    agentId
  = Some (newRating (fst (updateAgentRating Math_pow env agentId taskResult
                            sprintCompliance this))).
Proof.
  unfold updateAgentRating, storePerformanceHistory.
  cbn [fst snd newRating agentRatings].
  apply JsMap_get_set_same.
Qed.

(** C2.  For an agent whose current rating lies in [800, 2400], a task
    result whose complexity lies in [0, 1] and any sprint-compliance value,
    [updateAgentRating] starts from that rating and produces a new rating in
    [800, 2400], which it stores as the agent's rating. *)
Theorem updateAgentRating_within_bounds (Math_pow : Q -> Q -> Q) (env : Env)
    (agentId : string) (taskResult : TaskResult) (sprintCompliance : SprintCompliance)
    (this : AgentELORankingSystem) (rating complexity : Q) :
  JsMap.get (agentRatings this) agentId = Some rating ->
  800 <= rating /\ rating <= 2400 ->
  tr_complexity taskResult = Some complexity ->
  0 <= complexity /\ complexity <= 1 ->
  let result := updateAgentRating Math_pow env agentId taskResult sprintCompliance this in
  previousRating (fst result) = rating
  /\ 800 <= newRating (fst result) /\ newRating (fst result) <= 2400
  /\ JsMap.get (agentRatings (snd result)) agentId = Some (newRating (fst result)).
Proof.
  intros Hget [Hlo Hhi] Hc [Hc0 Hc1] result. subst result.
  split; [|split; [|split]].
  - unfold updateAgentRating. cbn [fst previousRating]. rewrite Hget.
    unfold num_or. destruct (Qeqb rating 0) eqn:E; [|reflexivity].
    apply Qeqb_eq in E. lra.
  - apply newRating_clamped.
  - apply newRating_clamped.
  - apply updateAgentRating_stores.
Qed.

Lemma updateAgentRating_within_bounds_witness :
  let result :=
    updateAgentRating integer_pow (env_at 1) "a1" half_result full_compliance
      rated_system in
  previousRating (fst result) = 1500
  /\ 800 <= newRating (fst result) /\ newRating (fst result) <= 2400
  /\ JsMap.get (agentRatings (snd result)) "a1" = Some (newRating (fst result)).
Proof.
  apply (updateAgentRating_within_bounds integer_pow (env_at 1) "a1" half_result
           full_compliance rated_system 1500 (1 # 2)).
  - reflexivity.
  - split; unfold Qle; simpl; lia.
  - reflexivity.
  - split; unfold Qle; simpl; lia.
Defined.

(** On that input the rating rises from 1500 to 1516: the expected score
    is one half and the actual score is one. *)
Example rating_after_one_task :
  newRating (fst (updateAgentRating integer_pow (env_at 1) "a1" half_result
                    full_compliance rated_system)) == 1516.
Proof. vm_compute. reflexivity. Qed.

(** ** Complexity zero *)

Lemma quality_score_cases (d t c s : bool) :
  Qnat (count_true [d; t; c; s]) / Qnat 4
  == Qnat (count_true [d; t; false; s]) / Qnat 4 + (if c then 1 # 4 else 0).
Proof. destruct d, t, c, s; vm_compute; reflexivity. Qed.

Lemma quality_score_without_estimate (d t s : bool) :
  Qnat (count_true [d; t; false; s]) / Qnat 4 <= 3 # 4.
Proof. destruct d, t, s; vm_compute; discriminate. Qed.

(** C10.  A task whose complexity is exactly zero is treated as one with no
    complexity at all.  In the quality-standards check the sub-check
    [hasComplexityEstimate] is false, so the check scores at most 0.75,
    does not pass, scores exactly as the same output with the complexity
    removed, and scores 0.25 less than the same output with any complexity
    in (0, 1].  [updateAgentRating] computes the expected score from the
    default complexity 0.5, as it does when the complexity is missing. *)
Theorem zero_complexity_counts_as_absent (Math_pow : Q -> Q -> Q) (env : Env)
    (agentId : string) (agentOutput : TaskData) (taskResult : TaskResult)
    (sprintCompliance : SprintCompliance) (this : AgentELORankingSystem) (c : Q) :
  c == 0 ->
  td_complexity agentOutput = Some c ->
  tr_complexity taskResult = Some c ->
  hasComplexityEstimate agentOutput = false
  /\ cr_score (verifyQualityStandards agentOutput) <= 3 # 4
  /\ cr_passed (verifyQualityStandards agentOutput) = false
  /\ verifyQualityStandards agentOutput
     = verifyQualityStandards (with_complexity agentOutput None)
  /\ (forall c', 0 < c' -> c' <= 1 ->
        cr_score (verifyQualityStandards (with_complexity agentOutput (Some c')))
        == cr_score (verifyQualityStandards agentOutput) + (1 # 4))
  /\ (let update :=
        fst (updateAgentRating Math_pow env agentId taskResult sprintCompliance this) in
      expectedScore update
      = calculateExpectedScore Math_pow (previousRating update) (5 # 10))
  /\ fst (updateAgentRating Math_pow env agentId taskResult sprintCompliance this)
     = fst (updateAgentRating Math_pow env agentId
              (with_result_complexity taskResult None) sprintCompliance this).
Proof.
  intros Hc Htd Htr.
  assert (Hest : hasComplexityEstimate agentOutput = false).
  { unfold hasComplexityEstimate. rewrite Htd.
    apply Qeqb_eq in Hc. now rewrite Hc. }
  assert (Hscore : cr_score (verifyQualityStandards agentOutput) <= 3 # 4).
  { unfold verifyQualityStandards. cbn [cr_score List.length]. rewrite Hest.
    apply quality_score_without_estimate. }
  split; [exact Hest|]. split; [exact Hscore|]. split; [|split; [|split; [|split]]].
  - unfold verifyQualityStandards. cbn [cr_passed].
    apply Qltb_false_le. apply Qle_trans with (3 # 4).
    + exact Hscore.
    + unfold Qle; simpl; lia.
  - unfold verifyQualityStandards, hasDescription, hasValidType,
      validateOutputStructure. rewrite Hest.
    destruct agentOutput; reflexivity.
  - intros c' Hpos Hle.
    assert (Hest' : hasComplexityEstimate (with_complexity agentOutput (Some c')) = true).
    { unfold hasComplexityEstimate, with_complexity. cbn [td_complexity].
      rewrite !andb_true_iff, negb_true_iff. repeat split.
      - destruct (Qeqb c' 0) eqn:E; [|reflexivity].
        apply Qeqb_eq in E. lra.
      - apply Qleb_le. lra.
      - apply Qleb_le. exact Hle. }
    unfold verifyQualityStandards. cbn [cr_score List.length].
    rewrite Hest', Hest.
    replace (hasDescription (with_complexity agentOutput (Some c')))
      with (hasDescription agentOutput) by (destruct agentOutput; reflexivity).
    replace (hasValidType (with_complexity agentOutput (Some c')))
      with (hasValidType agentOutput) by (destruct agentOutput; reflexivity).
    replace (validateOutputStructure (with_complexity agentOutput (Some c')))
      with (validateOutputStructure agentOutput) by (destruct agentOutput; reflexivity).
    apply (quality_score_cases _ _ true _).
  - unfold updateAgentRating. cbn [fst expectedScore previousRating].
    rewrite Htr, (num_or_zero c _ Hc). reflexivity.
  - unfold updateAgentRating, with_result_complexity.
    cbn [fst tr_complexity]. rewrite Htr, (num_or_zero c _ Hc).
    cbn [num_or]. unfold calculateActualScore. 
    destruct taskResult; reflexivity.
Qed.

Lemma zero_complexity_counts_as_absent_witness :
  hasComplexityEstimate zero_task = false
  /\ cr_score (verifyQualityStandards zero_task) <= 3 # 4
  /\ cr_passed (verifyQualityStandards zero_task) = false
  /\ verifyQualityStandards zero_task
     = verifyQualityStandards (with_complexity zero_task None)
  /\ (forall c', 0 < c' -> c' <= 1 ->
        cr_score (verifyQualityStandards (with_complexity zero_task (Some c')))
        == cr_score (verifyQualityStandards zero_task) + (1 # 4))
  /\ (let update :=
        fst (updateAgentRating integer_pow (env_at 1) "a1" zero_result full_compliance
               rated_system) in
      expectedScore update
      = calculateExpectedScore integer_pow (previousRating update) (5 # 10))
  /\ fst (updateAgentRating integer_pow (env_at 1) "a1" zero_result full_compliance
            rated_system)
     = fst (updateAgentRating integer_pow (env_at 1) "a1"
              (with_result_complexity zero_result None) full_compliance rated_system).
Proof.
  apply (zero_complexity_counts_as_absent integer_pow (env_at 1) "a1" zero_task
           zero_result full_compliance rated_system 0).
  - reflexivity.
  - reflexivity.
  - reflexivity.
Defined.

(** With complexity zero the otherwise complete scenario-A output scores
    0.75 on quality, which is not above 0.75. *)
Example zero_task_quality :
  cr_score (verifyQualityStandards zero_task) == 3 # 4
  /\ cr_score (verifyQualityStandards scenarioA_output) == 1.
Proof. split; vm_compute; reflexivity. Qed.

(** ** Rollback history *)

Lemma memory_snapshot_rollbacks (env : Env) (this : VerificationLayer) :
  md_rollbackHistory (memory_snapshot env this) = lastn 50 (rollbackHistory this)
  /\ (List.length (md_rollbackHistory (memory_snapshot env this)) <= 50)%nat
  /\ exists evicted,
       rollbackHistory this = evicted ++ md_rollbackHistory (memory_snapshot env this)
       /\ List.length evicted = (List.length (rollbackHistory this) - 50)%nat.
Proof.
  unfold memory_snapshot. cbn [md_rollbackHistory]. split; [reflexivity|]. split.
  - rewrite lastn_length. lia.
  - apply lastn_suffix.
Qed.

Lemma storeSuccessPattern_rollbacks (this : VerificationLayer) (r : VerificationResult) :
  rollbackHistory (storeSuccessPattern this r) = rollbackHistory this.
Proof. reflexivity. Qed.

(** C9, as the claim states it, fails: fifty-one failed verifications in a
    row leave fifty-one entries in the rollback history, the first of them
    still at the head. *)
Lemma rollback_history_exceeds_fifty :
  let layer := fst (verify_n 51 (new_VerificationLayer strict) None) in
  ~ (List.length (rollbackHistory layer) <= 50)%nat
  /\ option_map vr_verificationId (hd_error (rollbackHistory layer))
     = Some "verify_1_k3x9q2m1z".
Proof.
  vm_compute. split; [lia | reflexivity].
Qed.

(** C9, amended.  A verification call appends a failed record to the
    in-memory rollback history and never removes one, so that list is not
    capped.  The cap is on what the call persists: when the write succeeds
    the file holds the last fifty entries of the list, the older ones
    having been left out, oldest first; when the write fails the file is
    unchanged. *)
Theorem persisted_rollback_history_capped (Number_toString : Q -> string) (env : Env)
    (agentOutput : TaskData) (sprintContext : option SprintContext)
    (this : VerificationLayer) (file : option MemoryData) :
  match enforceVerification Number_toString env agentOutput sprintContext this file with
  | Return (r, this', file') =>
      rollbackHistory this'
      = rollbackHistory this ++ (if vr_verified r then [] else [r])
      /\ file' = (if write_ok env then Some (memory_snapshot env this') else file)
      /\ md_rollbackHistory (memory_snapshot env this')
         = lastn 50 (rollbackHistory this')
      /\ (List.length (md_rollbackHistory (memory_snapshot env this')) <= 50)%nat
      /\ exists evicted,
           rollbackHistory this'
           = evicted ++ md_rollbackHistory (memory_snapshot env this')
           /\ List.length evicted = (List.length (rollbackHistory this') - 50)%nat
  | Throw _ => sprintContext = None
  end.
Proof.
  destruct sprintContext as [ctx|]; [|reflexivity].
  destruct (verifyContextAccuracy_returns Number_toString agentOutput ctx) as [ca Hca].
  unfold enforceVerification. rewrite Hca.
  unfold verifySprintAlignment, bind. cbv zeta.
  match goal with
  | |- context [negb (vr_verified ?r)] => set (result := r)
  end.
  split; [|split].
  - destruct (vr_verified result); cbn [negb rollbackHistory].
    + rewrite storeSuccessPattern_rollbacks. now rewrite app_nil_r.
    + reflexivity.
  - reflexivity.
  - apply memory_snapshot_rollbacks.
Qed.

(** After fifty-one failed verifications the file holds fifty entries and
    the first failure is no longer among them. *)
Example persisted_rollbacks_after_fifty_one :
  match snd (verify_n 51 (new_VerificationLayer strict) None) with
  | Some data =>
      List.length (md_rollbackHistory data) = 50%nat
      /\ option_map vr_verificationId (hd_error (md_rollbackHistory data))
         = Some "verify_2_k3x9q2m1z"
  | None => False
  end.
Proof. vm_compute. split; reflexivity. Qed.

(** ** Context accuracy *)

Lemma fold_left_Qplus_acc (xs : list Q) (a : Q) :
  fold_left Qplus xs a == a + fold_left Qplus xs 0.
Proof.
  revert a. induction xs as [|x xs IH]; intro a; cbn [fold_left].
  - ring.
  - rewrite (IH (a + x)), (IH (0 + x)). ring.
Qed.

Lemma Qsum_cons (x : Q) (xs : list Q) : Qsum (x :: xs) == x + Qsum xs.
Proof.
  unfold Qsum. cbn [fold_left]. rewrite fold_left_Qplus_acc. ring.
Qed.

(** The accumulator of the loop of [verifyContextAccuracy]. *)
Lemma context_accumulator (Number_toString : Q -> string) (agentOutput : TaskData)
    (ctx : SprintContext) (elements : list string) (acc : Q) (details : list (string * Q)) :
  fst
    (fold_left
       (fun '(accuracyScore, details) element =>
          match context_element ctx element with
          | Some v =>
              if truthy v then
                let elementScore :=
                  calculateContextElementAccuracy Number_toString agentOutput v in
                (accuracyScore + elementScore, details ++ [(element, elementScore)])
              else (accuracyScore, details)
          | None => (accuracyScore, details)
          end)
       elements (acc, details))
  == acc
     + Qsum
         (map (calculateContextElementAccuracy Number_toString agentOutput)
            (flat_map
               (fun element =>
                  match context_element ctx element with
                  | Some v => if truthy v then [v] else []
                  | None => []
                  end)
               elements)).
Proof.
  revert acc details. induction elements as [|element elements IH]; intros acc details.
  - cbn. unfold Qsum. cbn. ring.
  - cbn [fold_left flat_map].
    destruct (context_element ctx element) as [v|].
    + destruct (truthy v).
      * rewrite IH. cbn [app map]. rewrite Qsum_cons. ring.
      * rewrite IH. cbn [app]. reflexivity.
    + rewrite IH. cbn [app]. reflexivity.
Qed.

(** C7, as the claim states it, fails: with the goals as the only context
    element present, the score is not the overlap score of that element
    (the average over the elements present). *)
Lemma context_accuracy_is_not_the_average_over_present :
  present_elements scenarioA_context
  = [JArr [JStr "Implement secure user authentication"]]
  /\ ~ (exists r,
          verifyContextAccuracy integer_toString scenarioA_output
            (Some scenarioA_context) = Return r
          /\ cr_score r ==
             Qsum (map (calculateContextElementAccuracy integer_toString scenarioA_output)
                     (present_elements scenarioA_context))
             / Qnat (List.length (present_elements scenarioA_context))).
Proof.
  split; [reflexivity|].
  intros [r [Hr Heq]]. vm_compute in Hr. inversion Hr; subst r; clear Hr.
  vm_compute in Heq. discriminate.
Qed.

(** C7, amended.  The context-accuracy score is the sum, over the context
    elements among goals, requirements, constraints and acceptance_criteria
    that are present and truthy, of the keyword-overlap score between the
    output and the element, divided by four, the number of candidate
    elements, however many of them are present.  With exactly one element
    present the score is a quarter of that element's overlap score; with
    all four present it is their average. *)
Theorem context_accuracy_divides_by_four (Number_toString : Q -> string)
    (agentOutput : TaskData) (ctx : SprintContext) :
  exists r,
    verifyContextAccuracy Number_toString agentOutput (Some ctx) = Return r
    /\ cr_score r ==
       Qsum (map (calculateContextElementAccuracy Number_toString agentOutput)
               (present_elements ctx)) / 4
    /\ match present_elements ctx with
       | [v] =>
           cr_score r
           == calculateContextElementAccuracy Number_toString agentOutput v / 4
       | [_; _; _; _] =>
           cr_score r ==
           Qsum (map (calculateContextElementAccuracy Number_toString agentOutput)
                   (present_elements ctx))
           / Qnat (List.length (present_elements ctx))
       | _ => True
       end
    /\ cr_passed r = Qltb (6 # 10) (cr_score r).
Proof.
  pose proof (context_accumulator Number_toString agentOutput ctx contextElements 0 [])
    as Hacc.
  unfold verifyContextAccuracy.
  destruct (fold_left _ contextElements (0, [])) as [a d] eqn:Hfold.
  cbn [fst] in Hacc.
  eexists. split; [reflexivity|]. cbn [cr_score cr_passed].
  assert (Hscore :
    a / Qnat (List.length contextElements) ==
    Qsum (map (calculateContextElementAccuracy Number_toString agentOutput)
            (present_elements ctx)) / 4).
  { unfold present_elements. rewrite Hacc.
    change (Qnat (List.length contextElements)) with 4. field. }
  split; [exact Hscore|]. split; [|reflexivity].
  destruct (present_elements ctx) as [|v1 [|v2 [|v3 [|v4 [|v5 rest]]]]] eqn:Hp;
    try exact I.
  - rewrite Hscore. cbn [map]. rewrite Qsum_cons. unfold Qsum. cbn [fold_left]. field.
  - rewrite Hscore. cbn [List.length]. change (Qnat 4) with 4. reflexivity.
Qed.

(** ** Adaptive thresholds *)

Lemma getStats_mode (this : VerificationLayer) :
  stats_mode (getStats this) = mode this.
Proof. reflexivity. Qed.

Lemma with_mode_mode (this : Engine) (m : Mode) :
  mode (verificationLayer (with_mode this m)) = m.
Proof. reflexivity. Qed.

(** With fifty verifications or fewer the mode is left as it is. *)
Lemma adjustAdaptiveThresholds_small_sample (this : Engine) :
  (totalVerifications (getStats (verificationLayer this)) <= 50)%nat ->
  adjustAdaptiveThresholds this = this.
Proof.
  intro H. unfold adjustAdaptiveThresholds.
  destruct (50 <? totalVerifications (getStats (verificationLayer this)))%nat eqn:E;
    [|reflexivity].
  apply Nat.ltb_lt in E. lia.
Qed.

(** The check changes nothing but the mode. *)
Lemma adjustAdaptiveThresholds_frame (this : Engine) :
  let this' := adjustAdaptiveThresholds this in
  verificationMemory (verificationLayer this') = verificationMemory (verificationLayer this)
  /\ successPatterns (verificationLayer this') = successPatterns (verificationLayer this)
  /\ rollbackHistory (verificationLayer this') = rollbackHistory (verificationLayer this)
  /\ eloSystem this' = eloSystem this
  /\ stats this' = stats this.
Proof.
  unfold adjustAdaptiveThresholds.
  destruct (50 <? _)%nat; [|repeat split].
  destruct (Qltb (9 # 10) _).
  - destruct (mode (verificationLayer this)); repeat split.
  - destruct (Qltb _ (6 # 10)); [|repeat split].
    destruct (mode (verificationLayer this)); repeat split.
Qed.

(** C5, as the claim states it, fails: with exactly fifty samples, all of
    them verified in the dev mode, the success rate exceeds 0.9 and yet the
    mode is not tightened. *)
Lemma fifty_samples_leave_mode_alone :
  let verificationStats := getStats (verificationLayer engine_after_50) in
  (50 <= totalVerifications verificationStats)%nat
  /\ 9 # 10 < successRate verificationStats
  /\ mode (verificationLayer engine_after_50) = dev
  /\ mode (verificationLayer (adjustAdaptiveThresholds engine_after_50)) <> moderate.
Proof.
  assert (H : let this := engine_after_50 in
              getStats (verificationLayer this) = mkVStats 50 50 0 (50 # 50) 1 dev
              /\ mode (verificationLayer (adjustAdaptiveThresholds this)) = dev)
    by (vm_compute; split; reflexivity).
  destruct H as [Hstats Hmode]. cbv zeta.
  rewrite <- (getStats_mode (verificationLayer engine_after_50)), Hstats, Hmode.
  cbn [totalVerifications successRate stats_mode].
  split; [lia|]. split; [reflexivity|]. split; [reflexivity | discriminate].
Qed.

(** C5, amended.  When the adaptive-threshold check runs on more than
    fifty samples (fifty-one or more), a success rate above 0.9 tightens
    the mode by one step (dev to moderate, moderate to strict, strict stays
    strict), a success rate below 0.6 loosens it by one step (strict to
    moderate, moderate to dev, dev stays dev), and a success rate from 0.6
    to 0.9 leaves it unchanged. *)
Theorem adaptive_retuning_above_fifty_samples (this : Engine) :
  (50 < totalVerifications (getStats (verificationLayer this)))%nat ->
  let successRate := successRate (getStats (verificationLayer this)) in
  let before := mode (verificationLayer this) in
  let after := mode (verificationLayer (adjustAdaptiveThresholds this)) in
  (9 # 10 < successRate -> after = tighten before)
  /\ (successRate < 6 # 10 -> after = loosen before)
  /\ (6 # 10 <= successRate -> successRate <= 9 # 10 -> after = before)
  /\ tighten dev = moderate /\ tighten moderate = strict /\ tighten strict = strict
  /\ loosen strict = moderate /\ loosen moderate = dev /\ loosen dev = dev.
Proof.
  intros Hn rate before after. subst rate before after.
  unfold adjustAdaptiveThresholds.
  apply Nat.ltb_lt in Hn. rewrite Hn.
  split; [|split; [|split; [|repeat split]]].
  - intro H. apply Qltb_lt in H. rewrite H.
    destruct (mode (verificationLayer this)) eqn:Em; cbn [tighten];
      try reflexivity; exact Em.
  - intro H.
    assert (Hhi : Qltb (9 # 10) (successRate (getStats (verificationLayer this))) = false).
    { apply Qltb_false_le. lra. }
    rewrite Hhi. apply Qltb_lt in H. rewrite H.
    destruct (mode (verificationLayer this)) eqn:Em; cbn [loosen];
      try reflexivity; exact Em.
  - intros Hlo Hhi.
    apply Qltb_false_le in Hlo, Hhi. rewrite Hhi, Hlo. reflexivity.
Qed.

(** Scenario D: fifty-one verified tasks in a row in the dev mode, then the
    check: the mode becomes moderate. *)
Lemma adaptive_retuning_above_fifty_samples_witness :
  (50 < totalVerifications (getStats (verificationLayer engine_after_51)))%nat
  /\ 9 # 10 < successRate (getStats (verificationLayer engine_after_51))
  /\ mode (verificationLayer engine_after_51) = dev
  /\ mode (verificationLayer (adjustAdaptiveThresholds engine_after_51)) = moderate.
Proof.
  assert (Hstats : getStats (verificationLayer engine_after_51)
                   = mkVStats 51 51 0 (51 # 51) 1 dev)
    by (vm_compute; reflexivity).
  assert (Hn : (50 < totalVerifications (getStats (verificationLayer engine_after_51)))%nat)
    by (rewrite Hstats; cbn [totalVerifications]; lia).
  assert (Hrate : 9 # 10 < successRate (getStats (verificationLayer engine_after_51)))
    by (rewrite Hstats; reflexivity).
  assert (Hmode : mode (verificationLayer engine_after_51) = dev)
    by (rewrite <- getStats_mode, Hstats; reflexivity).
  split; [exact Hn | split; [exact Hrate | split; [exact Hmode|]]].
  rewrite (proj1 (adaptive_retuning_above_fifty_samples engine_after_51 Hn) Hrate), Hmode.
  reflexivity.
Defined.

(** ** The critic-fixer cycle *)

Lemma mapM_risk_mitigated_returns (items : list json) :
  forallb (fun r => match r with JNull => false | _ => true end) items = true ->
  exists bs, mapM risk_mitigated items = Return bs.
Proof.
  induction items as [|r items IH]; cbn [forallb mapM]; intro H.
  - eexists; reflexivity.
  - apply andb_true_iff in H. destruct H as [Hr Hi].
    destruct (IH Hi) as [bs Hbs]. rewrite Hbs.
    destruct r; try discriminate; eexists; reflexivity.
Qed.

Lemma evaluateRiskAssessment_returns (solution : Solution) :
  solution_ok solution -> exists q, evaluateRiskAssessment solution = Return q.
Proof.
  unfold solution_ok, risks_ok, evaluateRiskAssessment. intro H.
  destruct (JsMap.get solution "risks") as [risks|]; [|eexists; reflexivity].
  destruct risks as [|b|q|s|items|fs]; cbn [truthy] in *;
    try (apply negb_true_iff in H; rewrite H); try discriminate;
    try (eexists; reflexivity).
  destruct (mapM_risk_mitigated_returns items H) as [bs Hbs]. rewrite Hbs.
  cbn [bind].
  destruct (List.length items =? 0)%nat; [eexists; reflexivity|].
  destruct (Qltb (8 # 10) _); [eexists; reflexivity|].
  destruct (Qltb _ (5 # 10)); eexists; reflexivity.
Qed.

Lemma evaluateSolution_returns (Number_toString : Q -> string) (solution : Solution)
    (evaluationContext : EvaluationContext) :
  solution_ok solution ->
  exists ev, evaluateSolution Number_toString solution evaluationContext = Return ev.
Proof.
  intro H. unfold evaluateSolution.
  destruct (evaluateRiskAssessment_returns solution H) as [q Hq]. rewrite Hq.
  cbn [bind]. destruct (fold_left _ _ _) as [[[t s] w] i].
  eexists; reflexivity.
Qed.

Lemma criticPhase_from_returns (Number_toString : Q -> string)
    (evaluationContext : EvaluationContext) (solutions : list Solution) (i : nat) :
  Forall solution_ok solutions ->
  exists evs,
    criticPhase_from Number_toString i solutions evaluationContext = Return evs
    /\ map c_solution evs = solutions.
Proof.
  intro H. revert i. induction H as [|s solutions Hs Hrest IH]; intro i.
  - eexists; split; reflexivity.
  - cbn [criticPhase_from].
    destruct (evaluateSolution_returns Number_toString s evaluationContext Hs) as [ev Hev].
    destruct (IH (S i)) as [evs [Hevs Hmap]].
    rewrite Hev, Hevs. cbn [bind]. eexists; split; [reflexivity|].
    cbn [map c_solution]. now rewrite Hmap.
Qed.

Lemma insert_desc_Forall {A : Type} (P : A -> Prop) (key : A -> Q) (x : A) (l : list A) :
  P x -> Forall P l -> Forall P (insert_desc key x l).
Proof.
  intros Hx Hl. induction Hl as [|y l Hy Hl IH]; cbn [insert_desc].
  - constructor; [exact Hx | constructor].
  - destruct (Qltb (key x) (key y)); constructor; auto.
Qed.

Lemma sort_desc_Forall {A : Type} (P : A -> Prop) (key : A -> Q) (l : list A) :
  Forall P l -> Forall P (sort_desc key l).
Proof.
  intro H. unfold sort_desc. induction H as [|x l Hx Hl IH]; cbn [fold_right].
  - constructor.
  - apply insert_desc_Forall; assumption.
Qed.

Lemma criticPhase_returns (Number_toString : Q -> string)
    (evaluationContext : EvaluationContext) (solutions : list Solution) :
  Forall solution_ok solutions ->
  exists results,
    criticPhase Number_toString solutions evaluationContext = Return results
    /\ Forall (fun c => solution_ok (c_solution c)) results.
Proof.
  intro H. unfold criticPhase.
  destruct (criticPhase_from_returns Number_toString evaluationContext solutions 0 H)
    as [evs [Hevs Hmap]].
  rewrite Hevs. cbn [bind]. eexists; split; [reflexivity|].
  apply sort_desc_Forall. apply Forall_map. rewrite Hmap. exact H.
Qed.

Lemma apply_fix_keeps_risks (evaluationContext : EvaluationContext)
    (solution : Solution) (area : string) :
  JsMap.get (apply_fix evaluationContext solution area) "risks"
  = JsMap.get solution "risks".
Proof.
  unfold apply_fix, set_field.
  repeat match goal with
         | |- context [if ?b then _ else _] => destruct b
         end;
    try reflexivity; apply JsMap_get_set_other; reflexivity.
Qed.

Lemma applySolutionFixes_ok (evaluationContext : EvaluationContext)
    (areas : list string) (solution : Solution) :
  solution_ok solution ->
  solution_ok (applySolutionFixes solution areas evaluationContext).
Proof.
  unfold applySolutionFixes. revert solution.
  induction areas as [|area areas IH]; intros solution H; cbn [fold_left].
  - exact H.
  - apply IH. unfold solution_ok, risks_ok in *.
    now rewrite apply_fix_keeps_risks.
Qed.

Lemma fixerPhase_returns (Number_toString : Q -> string)
    (evaluationContext : EvaluationContext) (results : list CriticResult) :
  Forall (fun c => solution_ok (c_solution c)) results ->
  exists fixed,
    fixerPhase Number_toString results evaluationContext = Return fixed
    /\ Forall solution_ok (map fs_solution fixed).
Proof.
  unfold fixerPhase. intro H. induction H as [|c results Hc Hrest IH].
  - eexists; split; [reflexivity | constructor].
  - cbn [mapM]. destruct IH as [fixed [Hfixed Hok]]. rewrite Hfixed.
    unfold fix_one.
    destruct (Qltb (c_score c) (8 # 10) && (0 <? List.length (improvementAreas c))%nat).
    + pose proof (applySolutionFixes_ok evaluationContext (improvementAreas c)
                    (c_solution c) Hc) as Hfix.
      destruct (evaluateSolution_returns Number_toString _ evaluationContext Hfix)
        as [ev Hev].
      rewrite Hev. cbn [bind]. eexists; split; [reflexivity|].
      cbn [map fs_solution]. constructor; assumption.
    + cbn [bind]. eexists; split; [reflexivity|].
      cbn [map fs_solution]. constructor; assumption.
Qed.


Lemma improve_loop_returns (Number_toString : Q -> string)
    (evaluationContext : EvaluationContext) (remaining : nat) :
  forall (cycle : nat) (current : list Solution) (recorded : list Improvement),
    Forall solution_ok current ->
    exists final cycle' recorded',
      improve_loop Number_toString evaluationContext remaining cycle current recorded
      = Return (final, cycle', recorded')
      /\ Forall solution_ok final.
Proof.
  induction remaining as [|remaining IH]; intros cycle current recorded Hok.
  - cbn [improve_loop]. do 3 eexists. split; [reflexivity | exact Hok].
  - cbn [improve_loop].
    destruct (criticPhase_returns Number_toString evaluationContext current Hok)
      as [results [Hresults Hrok]].
    rewrite Hresults. cbn [bind].
    destruct (fixerPhase_returns Number_toString evaluationContext results Hrok)
      as [fixed [Hfixed Hfok]].
    rewrite Hfixed. cbn [bind].
    destruct (significantImprovement (calculateImprovement results fixed)).
    + apply IH. exact Hfok.
    + do 3 eexists. split; [reflexivity | exact Hok].
Qed.

Lemma evaluateAndImprove_returns (Number_toString : Q -> string)
    (solutions : list Solution) (evaluationContext : EvaluationContext) :
  forallb risks_ok solutions = true ->
  exists r, evaluateAndImprove Number_toString solutions evaluationContext = Return r.
Proof.
  intro H.
  assert (Hok : Forall solution_ok solutions).
  { apply Forall_forall. intros s Hs.
    exact (proj1 (forallb_forall risks_ok solutions) H s Hs). }
  unfold evaluateAndImprove.
  destruct (improve_loop_returns Number_toString evaluationContext maxCycles 0
              solutions [] Hok) as [final [cycle' [recorded' [Hloop Hfinal]]]].
  rewrite Hloop. cbn [bind].
  destruct (criticPhase_returns Number_toString evaluationContext final Hfinal)
    as [results [Hresults _]].
  rewrite Hresults. cbn [bind]. eexists; reflexivity.
Qed.



(** On the two candidate solutions the first cycle improves the average
    score by 0.3 and the second by nothing, so two cycles run. *)
Example two_solutions_two_cycles :
  match evaluateAndImprove integer_toString two_solutions scenarioA_evaluation with
  | Return r =>
      cycles r = 2%nat
      /\ map (fun imp => Qred (avgImprovement imp)) (improvements r) = [3 # 10; 0]
  | Throw _ => False
  end.
Proof. vm_compute. split; reflexivity. Qed.

(** A solution whose [risks] is a text makes the evaluation throw. *)
Example malformed_risks_throw :
  evaluateAndImprove integer_toString [minimal_solution; malformed_solution]
    scenarioA_evaluation
  = Throw (TypeError "solution.risks.filter is not a function").
Proof. reflexivity. Qed.

(** ** The pipeline *)

Section Pipeline.

Variable Number_toString : Q -> string.
Variable Math_pow : Q -> Q -> Q.

Lemma blocked_branch_outcome (env : Env) (agentId : string)
    (sprintContext : option SprintContext) (verificationResult : VerificationResult)
    (st st' : PState) (thrown : option JsError) :
  blocked_branch Number_toString Math_pow env agentId sprintContext verificationResult st
  = (thrown, st') ->
  ps_task st' = ps_task st
  /\ match thrown with
     | Some _ => eloSystem (ps_engine st') = eloSystem (ps_engine st)
                 /\ finalResult (ps_result st') = finalResult (ps_result st)
     | None => exists reason score checks suggestions,
                 finalResult (ps_result st') = Some (Blocked reason score checks suggestions)
     end.
Proof.
  unfold blocked_branch.
  destruct (generateImprovementSuggestions Number_toString (ps_task st) sprintContext
              verificationResult) as [suggestions|e].
  - destruct (updateAgentELO _ _ _ _ _ _) as [update this'] eqn:Helo.
    intro H. inversion H; subst. cbn [ps_task ps_result].
    split; [reflexivity|]. do 4 eexists. reflexivity.
  - intro H. inversion H; subst. cbn [ps_task ps_engine ps_result].
    repeat split.
Qed.

Lemma criticFixer_phase_outcome (sprintContext : option SprintContext)
    (st st' : PState) (thrown : option JsError) :
  criticFixer_phase Number_toString sprintContext st = (thrown, st') ->
  eloSystem (ps_engine st') = eloSystem (ps_engine st)
  /\ finalResult (ps_result st') = finalResult (ps_result st)
  /\ (ps_task st' = ps_task st
      \/ exists solutions improved,
           td_solutions (ps_task st) = Some solutions
           /\ (1 < List.length solutions)%nat
           /\ continuousLearning (ps_engine st) = true
           /\ thrown = None
           /\ ph_criticFixer (phases (ps_result st')) = Some improved
           /\ ps_task st'
              = adopt_solutions (ps_task st) (finalSolutions improved) (cycles improved)).
Proof.
  unfold criticFixer_phase.
  destruct (td_solutions (ps_task st)) as [solutions|] eqn:Hsol;
    [|intro H; inversion H; subst; auto].
  destruct (continuousLearning (ps_engine st)) eqn:Hcl; cbn [andb];
    [|intro H; inversion H; subst; auto].
  destruct (1 <? List.length solutions)%nat eqn:Hlen;
    [|intro H; inversion H; subst; auto].
  destruct sprintContext as [ctx|]; [|intro H; inversion H; subst; auto].
  destruct (evaluateAndImprove Number_toString solutions (evaluation_context ctx))
    as [improved|e]; [|intro H; inversion H; subst; auto].
  intro H. inversion H; subst; clear H.
  cbn [ps_engine ps_result ps_task finalResult phases set_phases ph_criticFixer].
  split; [reflexivity|]. split; [reflexivity|].
  destruct (0 <? List.length (finalSolutions improved))%nat; [|left; reflexivity].
  right. exists solutions, improved. apply Nat.ltb_lt in Hlen.
  repeat split; try reflexivity; assumption.
Qed.

Lemma rating_phase_outcome (env : Env) (agentId : string)
    (sprintContext : option SprintContext) (verificationResult : VerificationResult)
    (st st' : PState) (thrown : option JsError) :
  rating_phase Number_toString Math_pow env agentId sprintContext verificationResult st
  = (thrown, st') ->
  ps_task st' = ps_task st
  /\ phases_criticFixer_kept st st'
  /\ match thrown with
     | Some _ => st' = st
     | None => exists score rating class compliance enhanced,
                 finalResult (ps_result st')
                 = Some (Approved score rating class compliance enhanced)
     end.
Proof.
  unfold rating_phase, phases_criticFixer_kept.
  destruct (calculateSprintCompliance Number_toString (ps_task st) sprintContext)
    as [compliance|e].
  - destruct (updateAgentELO _ _ _ _ _ _) as [update this'].
    intro H. inversion H; subst; clear H.
    cbn [ps_task ps_result]. split; [reflexivity|]. split; [reflexivity|].
    do 5 eexists. reflexivity.
  - intro H. inversion H; subst. repeat split.
Qed.

(** What the [try] block leaves behind, from a state whose result has no
    final status yet. *)
Lemma process_try_outcome (env : Env) (agentId : string)
    (sprintContext : option SprintContext) (st st' : PState)
    (thrown : option JsError) :
  finalResult (ps_result st) = None ->
  process_try Number_toString Math_pow env agentId sprintContext st = (thrown, st') ->
  match thrown with
  | Some _ => eloSystem (ps_engine st') = eloSystem (ps_engine st)
  | None =>
      exists f, finalResult (ps_result st') = Some f
                /\ match f with
                   | Blocked _ _ _ _ => ps_task st' = ps_task st
                   | Approved _ _ _ _ _ => True
                   | Failed _ => False
                   end
  end
  /\ (ps_task st' = ps_task st
      \/ exists solutions improved,
           td_solutions (ps_task st) = Some solutions
           /\ (1 < List.length solutions)%nat
           /\ continuousLearning (ps_engine st) = true
           /\ ph_criticFixer (phases (ps_result st')) = Some improved
           /\ ps_task st'
              = adopt_solutions (ps_task st) (finalSolutions improved) (cycles improved)).
Proof.
  intros Hfinal. unfold process_try.
  destruct (enforceVerification Number_toString env (ps_task st) sprintContext
              (verificationLayer (ps_engine st)) (memoryFile (ps_engine st)))
    as [[[verificationResult layer] file]|e].
  2:{ intro H. inversion H; subst. split; [reflexivity | left; reflexivity]. }
  destruct (vr_verified verificationResult); cbn [negb].
  - destruct (criticFixer_phase Number_toString sprintContext _)
      as [[e|] st2] eqn:Hcf; intro H.
    + inversion H; subst; clear H.
      apply criticFixer_phase_outcome in Hcf.
      cbn [ps_engine ps_task ps_result] in Hcf.
      destruct Hcf as [Helo [_ Htask]]. split; [exact Helo|].
      destruct Htask as [Htask | [solutions [improved Hm]]]; [left; exact Htask|].
      destruct Hm as [_ [_ [_ [Habs _]]]]. discriminate.
    + apply criticFixer_phase_outcome in Hcf.
      cbn [ps_engine ps_task ps_result] in Hcf.
      destruct Hcf as [Helo [Hfin Htask]].
      apply rating_phase_outcome in H. destruct H as [Hsame [Hkept Hout]].
      split.
      * destruct thrown as [e|].
        -- subst st'. exact Helo.
        -- destruct Hout as [score [rating [class [compliance [enhanced Hf]]]]].
           eexists. split; [exact Hf | exact I].
      * rewrite Hsame. unfold phases_criticFixer_kept in Hkept. rewrite Hkept.
        destruct Htask as [Htask | [solutions [improved Hm]]]; [left; exact Htask|].
        right. exists solutions, improved.
        destruct Hm as [H1 [H2 [H3 [_ [H5 H6]]]]]. repeat split; assumption.
  - intro H. apply blocked_branch_outcome in H.
    cbn [ps_task ps_engine ps_result] in H. destruct H as [Htask Hout].
    split; [|left; exact Htask].
    destruct thrown as [e|].
    + destruct Hout as [Helo _]. exact Helo.
    + destruct Hout as [reason [score [checks [suggestions Hf]]]].
      eexists. split; [exact Hf | exact Htask].
Qed.

Lemma initial_state_pending (env : Env) (agentId : string) (task : TaskData)
    (this : Engine) :
  finalResult (ps_result (initial_state env agentId task this)) = None.
Proof. reflexivity. Qed.

(** C3, amended.  Given a [taskData] object, whatever the other inputs
    and the state of the engine, [processAgentTask] returns a result and
    propagates no exception.  If a phase throws, the final result has the
    status error and carries the message of the error, and the ratings
    and performance histories of the ranking system are as they were
    before the call; otherwise the status is approved or blocked. *)
Theorem processAgentTask_catches_errors (env : Env) (agentId : string)
    (task : TaskData) (sprintContext : option SprintContext) (this : Engine) :
  let out :=
    processAgentTask Number_toString Math_pow env agentId (Some task) sprintContext
      this in
  exists r f,
    completion out = Return r
    /\ finalResult r = Some f
    /\ match fst (process_try Number_toString Math_pow env agentId sprintContext
                    (initial_state env agentId task (with_stats this inc_totalTasks)))
       with
       | Some e =>
           f = Failed (error_message e) /\ status f = "error"
           /\ eloSystem (engine_after out) = eloSystem this
       | None => status f = "approved" \/ status f = "blocked"
       end.
Proof.
  intro out. subst out. unfold processAgentTask.
  destruct (process_try Number_toString Math_pow env agentId sprintContext
              (initial_state env agentId task (with_stats this inc_totalTasks)))
    as [[e|] st'] eqn:Htry;
    pose proof (process_try_outcome env agentId sprintContext _ _ _
                  (initial_state_pending env agentId task _) Htry) as [Hout _];
    cbn [fst completion engine_after].
  - eexists. eexists. split; [reflexivity|]. split; [reflexivity|].
    repeat split. exact Hout.
  - destruct Hout as [f [Hf Hcase]].
    exists (ps_result st'), f. split; [reflexivity|]. split; [exact Hf|].
    destruct f; cbn [status]; [right | left | contradiction]; reflexivity.
Qed.

(** C8, amended.  [processAgentTask] leaves the submitted [taskData]
    untouched on the blocked path, and on every path it leaves the
    fields other than [solutions], [enhanced] and [improvementCycles]
    untouched.  When the verification passes, continuous learning is
    enabled and at least two solutions were submitted, the critic-fixer
    phase may overwrite [solutions] with its final solutions and set
    [enhanced] to true and [improvementCycles] to the number of cycles
    it ran; nothing else is ever written. *)
Theorem taskData_written_only_by_enhancement (env : Env) (agentId : string)
    (task : TaskData) (sprintContext : option SprintContext) (this : Engine) :
  let out :=
    processAgentTask Number_toString Math_pow env agentId (Some task) sprintContext
      this in
  exists r f task',
    completion out = Return r
    /\ finalResult r = Some f
    /\ taskData_after out = Some task'
    /\ (td_id task' = td_id task
        /\ td_description task' = td_description task
        /\ td_type task' = td_type task
        /\ td_complexity task' = td_complexity task
        /\ td_documentation task' = td_documentation task
        /\ td_collaboration task' = td_collaboration task
        /\ td_architecture task' = td_architecture task
        /\ td_testing task' = td_testing task)
    /\ (task' = task
        \/ exists solutions improved,
             td_solutions task = Some solutions
             /\ (1 < List.length solutions)%nat
             /\ continuousLearning this = true
             /\ ph_criticFixer (phases r) = Some improved
             /\ task' = adopt_solutions task (finalSolutions improved) (cycles improved))
    /\ match f with
       | Blocked _ _ _ _ => task' = task
       | _ => True
       end.
Proof.
  intro out. subst out. unfold processAgentTask.
  destruct (process_try Number_toString Math_pow env agentId sprintContext
              (initial_state env agentId task (with_stats this inc_totalTasks)))
    as [thrown st'] eqn:Htry.
  pose proof (process_try_outcome env agentId sprintContext _ _ _
                (initial_state_pending env agentId task _) Htry) as [Hout Htask].
  cbn [initial_state ps_task ps_engine with_stats continuousLearning] in Htask.
  assert (Hframe :
    td_id (ps_task st') = td_id task
    /\ td_description (ps_task st') = td_description task
    /\ td_type (ps_task st') = td_type task
    /\ td_complexity (ps_task st') = td_complexity task
    /\ td_documentation (ps_task st') = td_documentation task
    /\ td_collaboration (ps_task st') = td_collaboration task
    /\ td_architecture (ps_task st') = td_architecture task
    /\ td_testing (ps_task st') = td_testing task).
  { destruct Htask as [Hsame | [solutions [improved [_ [_ [_ [_ Hadopt]]]]]]].
    - rewrite Hsame. repeat split.
    - rewrite Hadopt. repeat split. }
  destruct thrown as [e|]; cbn [completion taskData_after].
  - eexists. eexists. exists (ps_task st').
    split; [reflexivity|]. split; [reflexivity|]. split; [reflexivity|].
    split; [exact Hframe|]. split; [|exact I].
    destruct Htask as [Hsame | [solutions [improved Hm]]]; [left; exact Hsame|].
    right. exists solutions, improved.
    destruct Hm as [H1 [H2 [H3 [H4 H5]]]]. repeat split; assumption.
  - destruct Hout as [f [Hf Hcase]].
    exists (ps_result st'), f, (ps_task st').
    split; [reflexivity|]. split; [exact Hf|]. split; [reflexivity|].
    split; [exact Hframe|]. split.
    + destruct Htask as [Hsame | [solutions [improved Hm]]]; [left; exact Hsame|].
      right. exists solutions, improved.
      destruct Hm as [H1 [H2 [H3 [H4 H5]]]]. repeat split; assumption.
    + destruct f; try exact I. exact Hcase.
Qed.

End Pipeline.

(** C3, as the claim states it, fails: [taskData.id] is read before the
    [try] block, so a call without a [taskData] object ends in an exception
    and returns no result. *)
Lemma missing_taskData_propagates :
  completion (processAgentTask integer_toString integer_pow (env_at 1) "a1" None
                (Some scenarioA_context) dev_engine)
  = Throw (TypeError "Cannot read properties of undefined (reading 'id')")
  /\ ~ (exists r,
          completion (processAgentTask integer_toString integer_pow (env_at 1) "a1" None
                        (Some scenarioA_context) dev_engine) = Return r).
Proof.
  split; [reflexivity|]. intros [r Hr]. discriminate Hr.
Qed.

(** A missing sprint context makes the verification phase throw: the
    result is an error that carries the message, the task is counted, and
    no rating is written. *)
Example missing_context_is_an_error :
  final_of run_without_context
  = Some (Failed "Cannot read properties of undefined (reading 'goals')")
  /\ eloSystem (engine_after run_without_context) = eloSystem dev_engine
  /\ totalTasks (stats (engine_after run_without_context)) = 1%nat.
Proof. vm_compute. repeat split. Qed.

(** A malformed solution makes the critic-fixer phase throw after the
    verification has been recorded: the result is an error, the
    verification memory has grown and no rating is written. *)
Example malformed_solution_is_an_error :
  final_of run_malformed = Some (Failed "solution.risks.filter is not a function")
  /\ eloSystem (engine_after run_malformed) = eloSystem dev_engine
  /\ JsMap.size (verificationMemory (verificationLayer (engine_after run_malformed)))
     = 1%nat
  /\ taskData_after run_malformed = Some malformed_task.
Proof. vm_compute. repeat split. Qed.

(** C8, as the claim states it, fails: on the approved path, with two
    solutions submitted, the call overwrites [solutions] and adds
    [enhanced] and [improvementCycles] to the submitted object. *)
Lemma approved_path_writes_taskData :
  final_status run_approved = Some "approved"
  /\ taskData_after run_approved <> Some two_solution_task
  /\ (td_enhanced two_solution_task = None
      /\ option_map td_enhanced (taskData_after run_approved) = Some (Some true))
  /\ (td_improvementCycles two_solution_task = None
      /\ option_map td_improvementCycles (taskData_after run_approved)
         = Some (Some 2%nat))
  /\ option_map td_solutions (taskData_after run_approved)
     <> Some (td_solutions two_solution_task).
Proof.
  vm_compute. repeat split; discriminate.
Qed.

(** On the blocked path the submitted object comes back as it was. *)
Example blocked_path_keeps_taskData :
  final_status run_blocked = Some "blocked"
  /\ taskData_after run_blocked = Some two_solution_task.
Proof. vm_compute. split; reflexivity. Qed.

(** * Properties of the remaining operations *)

(** ** Lists *)

Lemma Forall_firstn {A : Type} (P : A -> Prop) (n : nat) (l : list A) :
  Forall P l -> Forall P (firstn n l).
Proof.
  intro H. revert n. induction H as [|x l Hx Hl IH]; intros [|n]; cbn; auto.
Qed.

Lemma Forall_skipn {A : Type} (P : A -> Prop) (n : nat) (l : list A) :
  Forall P l -> Forall P (skipn n l).
Proof.
  intro H. revert n. induction H as [|x l Hx Hl IH]; intros [|n]; cbn; auto.
Qed.

Lemma Forall_filter {A : Type} (P : A -> Prop) (f : A -> bool) (l : list A) :
  Forall P l -> Forall P (filter f l).
Proof.
  intro H. induction H as [|x l Hx Hl IH]; cbn; [constructor|].
  destruct (f x); auto.
Qed.

Lemma Forall_filter_true {A : Type} (f : A -> bool) (l : list A) :
  Forall (fun x => f x = true) (filter f l).
Proof.
  induction l as [|x l IH]; cbn; [constructor|].
  destruct (f x) eqn:E; auto.
Qed.

Lemma forallb_Forall {A : Type} (f : A -> bool) (l : list A) :
  forallb f l = true <-> Forall (fun x => f x = true) l.
Proof.
  rewrite forallb_forall, Forall_forall. reflexivity.
Qed.

(** ** Ratios of counts *)

Lemma Qnat_nonneg (n : nat) : 0 <= Qnat n.
Proof.
  unfold Qnat. change 0 with (inject_Z 0). rewrite <- Zle_Qle. lia.
Qed.

Lemma Qnat_pos (n : nat) : (0 < n)%nat -> 0 < Qnat n.
Proof.
  intro H. unfold Qnat. change 0 with (inject_Z 0). rewrite <- Zlt_Qlt. lia.
Qed.

Lemma Qnat_le (a b : nat) : (a <= b)%nat -> Qnat a <= Qnat b.
Proof.
  intro H. unfold Qnat. rewrite <- Zle_Qle. lia.
Qed.

Lemma Qnat_inj (a b : nat) : Qnat a == Qnat b -> a = b.
Proof.
  unfold Qnat. intro H. apply (proj1 (inject_Z_injective _ _)) in H. lia.
Qed.

Lemma Qnat_ratio_bounds (a b : nat) :
  (a <= b)%nat -> (0 < b)%nat -> 0 <= Qnat a / Qnat b /\ Qnat a / Qnat b <= 1.
Proof.
  intros Hab Hb. pose proof (Qnat_pos b Hb) as Hpos. split.
  - apply Qle_shift_div_l; [exact Hpos|]. rewrite Qmult_0_l. apply Qnat_nonneg.
  - apply Qle_shift_div_r; [exact Hpos|]. rewrite Qmult_1_l. now apply Qnat_le.
Qed.

(** ** Keywords *)

Lemma lower_char_not_upper (c : ascii) :
  JsString.is_upper (JsString.lower_char c) = false.
Proof.
  destruct c as [[] [] [] [] [] [] [] []]; reflexivity.
Qed.

Lemma all_chars_weaken (p q : ascii -> bool) (s : string) :
  (forall c, p c = true -> q c = true) ->
  all_chars p s = true -> all_chars q s = true.
Proof.
  intro Hpq. induction s as [|c s IH]; cbn; [reflexivity|].
  rewrite !andb_true_iff. intros [Hc Hs]. auto.
Qed.

Lemma all_chars_toLowerCase (s : string) :
  all_chars (fun c => negb (JsString.is_upper c)) (JsString.toLowerCase s) = true.
Proof.
  unfold JsString.toLowerCase. induction s as [|c s IH]; cbn; [reflexivity|].
  now rewrite lower_char_not_upper, IH.
Qed.

Lemma all_chars_sfilter (p q : ascii -> bool) (s : string) :
  all_chars p s = true ->
  all_chars (fun c => q c && p c) (JsString.sfilter q s) = true.
Proof.
  induction s as [|c s IH]; cbn; [reflexivity|].
  rewrite andb_true_iff. intros [Hc Hs].
  destruct (q c) eqn:Eq; cbn; [rewrite Eq, Hc|]; auto.
Qed.

Lemma all_chars_srev_append (p : ascii -> bool) (acc s : string) :
  all_chars p acc = true -> all_chars p s = true ->
  all_chars p (JsString.srev_append acc s) = true.
Proof.
  revert s. induction acc as [|c acc IH]; intro s; cbn; [auto|].
  rewrite andb_true_iff. intros [Hc Hacc] Hs. apply IH; [exact Hacc|].
  cbn. now rewrite Hc, Hs.
Qed.

(** The pieces that [split] yields hold no white space. *)
Lemma split_go_pieces (p : ascii -> bool) (s cur : string) (in_ws : bool) :
  all_chars (fun c => p c && negb (JsString.is_space c)) cur = true ->
  all_chars p s = true ->
  Forall (fun piece => all_chars (fun c => p c && negb (JsString.is_space c)) piece = true)
    (JsString.split_go cur in_ws s).
Proof.
  revert cur in_ws. induction s as [|c s IH]; intros cur in_ws Hcur; cbn.
  - intros _. constructor; [|constructor].
    unfold JsString.srev. now apply all_chars_srev_append.
  - rewrite andb_true_iff. intros [Hc Hs].
    destruct (JsString.is_space c) eqn:Esp.
    + destruct in_ws.
      * now apply IH.
      * constructor.
        -- unfold JsString.srev. now apply all_chars_srev_append.
        -- now apply IH.
    + apply IH; [|exact Hs]. cbn. now rewrite Hc, Esp, Hcur.
Qed.

Lemma split_ws_words (text : string) :
  Forall (fun word => all_chars keyword_char word = true)
    (JsString.split_ws (JsString.strip_punctuation (JsString.toLowerCase text))).
Proof.
  unfold JsString.split_ws, JsString.strip_punctuation.
  pose proof (all_chars_sfilter _ (fun c => JsString.is_word c || JsString.is_space c) _
                (all_chars_toLowerCase text)) as H.
  pose proof (split_go_pieces _ _ EmptyString false eq_refl H) as Hp.
  eapply Forall_impl; [|exact Hp]. intros word Hw.
  eapply all_chars_weaken; [|exact Hw]. intros c. unfold keyword_char.
  destruct (JsString.is_word c), (JsString.is_space c), (JsString.is_upper c);
    cbn; congruence.
Qed.

Lemma extractKeywords_length (text : string) :
  (List.length (extractKeywords text) <= 20)%nat.
Proof. unfold extractKeywords. apply firstn_le_length. Qed.

Lemma filter_none {A : Type} (f : A -> bool) (l : list A) :
  Forall (fun x => f x = false) l -> filter f l = [].
Proof.
  intro H. induction H as [|x l Hx Hl IH]; cbn; [reflexivity|]. now rewrite Hx.
Qed.

(** X1.  [extractKeywords] returns at most twenty keywords; each is longer
    than three characters and holds only lower-case letters, digits and
    underscores: no upper-case letter, no white space and no punctuation
    survives. *)
Theorem extractKeywords_shape (text : string) :
  (List.length (extractKeywords text) <= 20)%nat
  /\ Forall (fun word => (3 < String.length word)%nat
                         /\ all_chars keyword_char word = true)
       (extractKeywords text).
Proof.
  unfold extractKeywords. split; [apply firstn_le_length|].
  apply Forall_firstn. apply Forall_and.
  - eapply Forall_impl; [|apply Forall_filter_true].
    intros word H. cbv beta in H. now apply Nat.ltb_lt in H.
  - apply Forall_filter. apply split_ws_words.
Qed.

Lemma calculateKeywordAlignment_bounds (o g : list string) :
  0 <= calculateKeywordAlignment o g /\ calculateKeywordAlignment o g <= 1.
Proof.
  unfold calculateKeywordAlignment.
  destruct (List.length g =? 0)%nat.
  - split; unfold Qle; simpl; lia.
  - cbv zeta. apply Qnat_ratio_bounds.
    + pose proof (filter_length_le (fun keyword => JsString.includes g keyword) o). lia.
    + lia.
Qed.

Lemma includes_In (xs : list string) (x : string) :
  JsString.includes xs x = true <-> In x xs.
Proof.
  unfold JsString.includes. rewrite existsb_exists. split.
  - intros [y [Hy E]]. apply String.eqb_eq in E. now subst.
  - intro H. exists x. split; [exact H | apply String.eqb_refl].
Qed.

(** X2.  The keyword-overlap score lies in [0, 1].  It is exactly one half
    when there are no goal keywords, whatever the output; with goal
    keywords it is zero exactly when no output keyword is a goal keyword. *)
Theorem calculateKeywordAlignment_range (outputKeywords goalKeywords : list string) :
  0 <= calculateKeywordAlignment outputKeywords goalKeywords
  /\ calculateKeywordAlignment outputKeywords goalKeywords <= 1
  /\ calculateKeywordAlignment outputKeywords [] = 1 # 2
  /\ (goalKeywords <> [] ->
      (calculateKeywordAlignment outputKeywords goalKeywords == 0
       <-> forall keyword, In keyword outputKeywords -> ~ In keyword goalKeywords)).
Proof.
  destruct (calculateKeywordAlignment_bounds outputKeywords goalKeywords) as [H0 H1].
  split; [exact H0|]. split; [exact H1|]. split; [reflexivity|].
  intro Hg. unfold calculateKeywordAlignment.
  destruct goalKeywords as [|g0 gs]; [congruence|]. cbn [List.length Nat.eqb].
  set (g := g0 :: gs). set (d := Nat.max _ 1).
  assert (Hd : 0 < Qnat d) by (apply Qnat_pos; subst d; lia).
  split.
  - intros Hz keyword Hin Hing.
    assert (Hm : In keyword (filter (fun k => JsString.includes g k) outputKeywords)).
    { apply filter_In. split; [exact Hin | now apply includes_In]. }
    destruct (filter (fun k => JsString.includes g k) outputKeywords) as [|m ms] eqn:Ef;
      [contradiction|].
    assert (Hpos : 0 < Qnat (List.length (m :: ms)) / Qnat d).
    { apply Qlt_shift_div_l; [exact Hd|]. rewrite Qmult_0_l. apply Qnat_pos. cbn. lia. }
    rewrite Hz in Hpos. apply (Qlt_irrefl 0 Hpos).
  - intro Hnone.
    assert (Hf : filter (fun k => JsString.includes g k) outputKeywords = []).
    { destruct (filter (fun k => JsString.includes g k) outputKeywords) as [|m ms] eqn:Ef;
        [reflexivity|].
      assert (Hm : In m (m :: ms)) by (left; reflexivity).
      rewrite <- Ef in Hm. apply filter_In in Hm. destruct Hm as [Hin Hinc].
      apply includes_In in Hinc. exfalso. exact (Hnone m Hin Hinc). }
    rewrite Hf. cbn [List.length]. unfold Qdiv. change (Qnat 0) with 0. ring.
Qed.

(** ** The five checks *)

(** X3.  With a sprint context the sprint-alignment check returns; its
    score lies in [0, 1] and it passes exactly when the score exceeds 0.6.
    A context whose goals yield no keyword (no goals, or only words of at
    most three characters) scores one half and therefore never passes. *)
Theorem verifySprintAlignment_range (agentOutput : TaskData) (ctx : SprintContext) :
  exists r,
    verifySprintAlignment agentOutput (Some ctx) = Return r
    /\ 0 <= cr_score r /\ cr_score r <= 1
    /\ cr_passed r = Qltb (6 # 10) (cr_score r)
    /\ (flat_map extractKeywords (goals_or_empty ctx) = [] ->
        cr_score r = 1 # 2 /\ cr_passed r = false).
Proof.
  unfold verifySprintAlignment. eexists. split; [reflexivity|].
  cbn [cr_score cr_passed]. fold (goals_or_empty ctx).
  destruct (calculateKeywordAlignment_bounds
              (extractKeywords (or_empty (td_description agentOutput)))
              (flat_map extractKeywords (goals_or_empty ctx))) as [H0 H1].
  split; [exact H0|]. split; [exact H1|]. split; [reflexivity|].
  intro Hg. rewrite Hg. split; reflexivity.
Qed.

Lemma described_and_typed_is_structured (agentOutput : TaskData) :
  hasDescription agentOutput = true -> hasValidType agentOutput = true ->
  validateOutputStructure agentOutput = true.
Proof.
  unfold hasDescription, hasValidType, validateOutputStructure.
  destruct (td_description agentOutput), (td_type agentOutput); congruence.
Qed.

(** X4.  The quality-standards check scores in [0, 1] and passes only
    with a full score: a description of more than ten characters, a valid
    type and a complexity estimate are all needed (together they imply the
    structure sub-check), and one missing sub-check fails the check. *)
Theorem verifyQualityStandards_all_or_nothing (agentOutput : TaskData) :
  let r := verifyQualityStandards agentOutput in
  0 <= cr_score r /\ cr_score r <= 1
  /\ cr_passed r
     = hasDescription agentOutput && hasValidType agentOutput
       && hasComplexityEstimate agentOutput
  /\ (cr_passed r = true <-> cr_score r == 1).
Proof.
  cbv zeta. unfold verifyQualityStandards. cbn [cr_score cr_passed List.length].
  pose proof (described_and_typed_is_structured agentOutput) as Hs.
  destruct (hasDescription agentOutput), (hasValidType agentOutput),
    (hasComplexityEstimate agentOutput), (validateOutputStructure agentOutput);
    try (specialize (Hs eq_refl eq_refl); discriminate Hs);
    vm_compute; repeat split; intros; congruence.
Qed.

Lemma calculateConsistencyScore_bounds (output : TaskData) (recentOutputs : list TaskData) :
  0 <= calculateConsistencyScore output recentOutputs
  /\ calculateConsistencyScore output recentOutputs <= 1.
Proof.
  unfold calculateConsistencyScore.
  destruct (List.length recentOutputs =? 0)%nat eqn:E.
  - split; unfold Qle; simpl; lia.
  - apply Nat.eqb_neq in E. cbv zeta.
    match goal with
    | |- context [Qnat (List.length ?f) / Qnat (List.length recentOutputs)] =>
        destruct (Qnat_ratio_bounds (List.length f) (List.length recentOutputs))
          as [Ha0 Ha1]
    end.
    { apply filter_length_le. }
    { lia. }
    match goal with
    | |- context [Qmax 0 (1 - Qabs ?d * 2)] =>
        pose proof (Qabs_nonneg d) as Hd;
        pose proof (Q.le_max_l 0 (1 - Qabs d * 2)) as Hb0;
        assert (Hb1 : Qmax 0 (1 - Qabs d * 2) <= 1) by (apply Q.max_lub; lra)
    end.
    match goal with
    | |- context [calculateKeywordAlignment ?o ?g] =>
        destruct (calculateKeywordAlignment_bounds o g) as [Hc0 Hc1]
    end.
    split.
    + apply Qle_shift_div_l; lra.
    + apply Qle_shift_div_r; lra.
Qed.

(** X5.  The cross-agent consistency check scores in [0, 1] and passes
    exactly when the score exceeds one half.  When the memory holds no
    verified record of the last twenty-four hours the score is one and the
    check passes. *)
Theorem verifyCrossAgentConsistency_range (env : Env) (this : VerificationLayer)
    (agentOutput : TaskData) :
  let r := verifyCrossAgentConsistency env this agentOutput in
  0 <= cr_score r /\ cr_score r <= 1
  /\ cr_passed r = Qltb (5 # 10) (cr_score r)
  /\ (Forall (fun v => vr_verified v = false \/ (day_ms <= now env - vr_timestamp v)%Z)
        (JsMap.values (verificationMemory this)) ->
      cr_score r = 1 /\ cr_passed r = true).
Proof.
  cbv zeta. unfold verifyCrossAgentConsistency.
  set (recent := filter _ (JsMap.values (verificationMemory this))).
  destruct (List.length (map vr_agentOutput recent) =? 0)%nat eqn:E.
  - cbn [cr_score cr_passed]. repeat split; try reflexivity; unfold Qle; simpl; lia.
  - cbn [cr_score cr_passed].
    destruct (calculateConsistencyScore_bounds agentOutput (map vr_agentOutput recent))
      as [H0 H1].
    split; [exact H0|]. split; [exact H1|]. split; [reflexivity|].
    intro Hall. exfalso. apply Nat.eqb_neq in E. apply E.
    rewrite length_map. subst recent. rewrite filter_none; [reflexivity|].
    eapply Forall_impl; [|exact Hall]. intros v [Hv|Hv]; cbv beta.
    + now rewrite Hv.
    + apply Z.ltb_ge in Hv. rewrite Hv. apply andb_false_r.
Qed.

Lemma matches_of_distinct_keywords (common keywords : list string) :
  NoDup keywords ->
  (List.length (filter (fun keyword => JsString.includes common keyword) keywords)
   <= List.length common)%nat.
Proof.
  intro Hnd. apply NoDup_incl_length.
  - now apply NoDup_filter.
  - intros k Hk. apply filter_In in Hk. now apply includes_In.
Qed.

Lemma calculateHistoricalCompliance_bounds (output : TaskData) (pattern : SuccessPattern) :
  2 # 10 <= calculateHistoricalCompliance output pattern
  /\ calculateHistoricalCompliance output pattern <= 86 # 10
  /\ (NoDup (extractKeywords (or_empty (td_description output))) ->
      calculateHistoricalCompliance output pattern <= 1).
Proof.
  unfold calculateHistoricalCompliance. cbv zeta.
  set (common := commonKeywords (sp_summary pattern)).
  set (keywords := extractKeywords (or_empty (td_description output))).
  set (matches := filter _ keywords).
  set (d := Nat.max (List.length common) 1).
  set (inRange := if Qltb _ (3 # 10) then 4 # 10 else 0).
  assert (Hr : 0 <= inRange /\ inRange <= 4 # 10).
  { subst inRange. destruct (Qltb _ (3 # 10)); split; unfold Qle; simpl; lia. }
  assert (Hd : 0 < Qnat d) by (apply Qnat_pos; subst d; lia).
  assert (Hm0 : 0 <= Qnat (List.length matches) / Qnat d).
  { apply Qle_shift_div_l; [exact Hd|]. rewrite Qmult_0_l. apply Qnat_nonneg. }
  assert (Hm20 : Qnat (List.length matches) / Qnat d <= 20).
  { apply Qle_shift_div_r; [exact Hd|].
    apply Qle_trans with (Qnat 20).
    - apply Qnat_le. subst matches.
      pose proof (filter_length_le (fun keyword => JsString.includes common keyword)
                    keywords).
      pose proof (extractKeywords_length (or_empty (td_description output))).
      subst keywords. lia.
    - apply Qle_trans with (20 * Qnat 1).
      + unfold Qle; simpl; lia.
      + apply Qmult_le_l; [reflexivity|]. apply Qnat_le. subst d. lia. }
  split; [lra|]. split; [lra|].
  intro Hnd.
  assert (Hm1 : Qnat (List.length matches) / Qnat d <= 1).
  { apply Qle_shift_div_r; [exact Hd|]. rewrite Qmult_1_l. apply Qnat_le.
    pose proof (matches_of_distinct_keywords common keywords Hnd). subst matches d. lia. }
  lra.
Qed.

(** X6.  The historical-compliance check scores at least 0.2 and at most
    8.6, and passes exactly when the score exceeds 0.6.  The score is at
    most one when the keywords of the description are pairwise distinct:
    a keyword repeated in the description is counted once per
    occurrence. *)
Theorem verifyHistoricalCompliance_range (this : VerificationLayer)
    (agentOutput : TaskData) :
  let r := verifyHistoricalCompliance this agentOutput in
  2 # 10 <= cr_score r /\ cr_score r <= 86 # 10
  /\ cr_passed r = Qltb (6 # 10) (cr_score r)
  /\ (NoDup (extractKeywords (or_empty (td_description agentOutput))) ->
      cr_score r <= 1).
Proof.
  cbv zeta. unfold verifyHistoricalCompliance.
  destruct (match td_type agentOutput with
            | Some t => JsMap.get (successPatterns this) t
            | None => None
            end) as [pattern|]; cbn [cr_score cr_passed].
  - destruct (calculateHistoricalCompliance_bounds agentOutput pattern) as [H0 [H1 H2]].
    repeat split; assumption.
  - repeat split; try reflexivity; intros; unfold Qle; simpl; lia.
Qed.

(** The upper bound is reached: a description that repeats a common
    keyword scores far above one. *)
Example historical_compliance_can_exceed_one :
  cr_score (verifyHistoricalCompliance deploy_layer repeated_task) == 86 # 10.
Proof. vm_compute. reflexivity. Qed.

Lemma Qnat_S (n : nat) : Qnat (S n) == Qnat n + 1.
Proof.
  unfold Qnat. rewrite Nat2Z.inj_succ, <- Z.add_1_r, inject_Z_plus. reflexivity.
Qed.

Lemma Qsum_bounds (xs : list Q) :
  Forall (fun x => 0 <= x /\ x <= 1) xs ->
  0 <= Qsum xs /\ Qsum xs <= Qnat (List.length xs).
Proof.
  intro H. induction H as [|x xs [Hx0 Hx1] Hxs [IH0 IH1]].
  - split; unfold Qle; simpl; lia.
  - rewrite Qsum_cons. cbn [List.length]. rewrite Qnat_S. split; lra.
Qed.

Lemma calculateContextElementAccuracy_bounds (Number_toString : Q -> string)
    (output : TaskData) (contextElement : json) :
  0 <= calculateContextElementAccuracy Number_toString output contextElement
  /\ calculateContextElementAccuracy Number_toString output contextElement <= 1.
Proof.
  unfold calculateContextElementAccuracy. apply calculateKeywordAlignment_bounds.
Qed.

Lemma present_elements_length (ctx : SprintContext) :
  (List.length (present_elements ctx) <= 4)%nat.
Proof.
  unfold present_elements. change 4%nat with (List.length contextElements).
  induction contextElements as [|e es IH]; cbn [flat_map List.length]; [lia|].
  rewrite length_app.
  destruct (context_element ctx e) as [v|]; [destruct (truthy v)|];
    cbn [List.length]; lia.
Qed.

Lemma verifyContextAccuracy_score (Number_toString : Q -> string)
    (agentOutput : TaskData) (ctx : SprintContext) :
  exists r,
    verifyContextAccuracy Number_toString agentOutput (Some ctx) = Return r
    /\ cr_score r ==
       Qsum (map (calculateContextElementAccuracy Number_toString agentOutput)
               (present_elements ctx)) / 4
    /\ cr_passed r = Qltb (6 # 10) (cr_score r).
Proof.
  pose proof (context_accumulator Number_toString agentOutput ctx contextElements 0 [])
    as Hacc.
  unfold verifyContextAccuracy.
  destruct (fold_left _ contextElements (0, [])) as [a d] eqn:Hfold.
  cbn [fst] in Hacc.
  eexists. split; [reflexivity|]. cbn [cr_score cr_passed]. split; [|reflexivity].
  unfold present_elements. rewrite Hacc.
  change (Qnat (List.length contextElements)) with 4. field.
Qed.

(** X7.  With a sprint context the context-accuracy check returns a score
    between zero and a quarter of the number of context elements present,
    hence at most one; the check can pass only when at least three of the
    four elements are present. *)
Theorem verifyContextAccuracy_range (Number_toString : Q -> string)
    (agentOutput : TaskData) (ctx : SprintContext) :
  exists r,
    verifyContextAccuracy Number_toString agentOutput (Some ctx) = Return r
    /\ 0 <= cr_score r
    /\ cr_score r <= Qnat (List.length (present_elements ctx)) / 4
    /\ cr_score r <= 1
    /\ (cr_passed r = true -> (3 <= List.length (present_elements ctx))%nat).
Proof.
  destruct (verifyContextAccuracy_score Number_toString agentOutput ctx)
    as [r [Hr [Hscore Hpassed]]].
  exists r. split; [exact Hr|].
  set (scores := map (calculateContextElementAccuracy Number_toString agentOutput)
                   (present_elements ctx)) in *.
  destruct (Qsum_bounds scores) as [H0 H1].
  { subst scores. apply Forall_map. apply Forall_forall. intros v _.
    apply calculateContextElementAccuracy_bounds. }
  assert (Hlen : List.length scores = List.length (present_elements ctx))
    by (subst scores; apply length_map).
  rewrite Hlen in H1.
  pose proof (present_elements_length ctx) as H4.
  assert (Hn4 : Qnat (List.length (present_elements ctx)) <= 4).
  { change 4 with (Qnat 4). now apply Qnat_le. }
  assert (Hquarter : cr_score r == Qsum scores * (1 # 4)) by (rewrite Hscore; field).
  assert (Hbound : Qnat (List.length (present_elements ctx)) / 4
                   == Qnat (List.length (present_elements ctx)) * (1 # 4)) by field.
  split; [lra|]. split; [lra|]. split; [lra|].
  intro Hp. rewrite Hpassed in Hp. apply Qltb_lt in Hp.
  destruct (le_lt_dec 3 (List.length (present_elements ctx))) as [Hge|Hlt];
    [exact Hge|].
  exfalso.
  assert (Hn2 : Qnat (List.length (present_elements ctx)) <= 2).
  { change 2 with (Qnat 2). apply Qnat_le. lia. }
  lra.
Qed.

(** ** Bounded histories *)

(** [h.push(x); if (h.length > n) h = h.slice(-n)] keeps the new entry
    and the last [n - 1] of the old ones. *)
Lemma push_capped {A : Type} (n : nat) (l : list A) (x : A) :
  (0 < n)%nat ->
  (if (n <? List.length (l ++ [x]))%nat then lastn n (l ++ [x]) else l ++ [x])
  = lastn (n - 1) l ++ [x].
Proof.
  intro Hn. rewrite length_app. cbn [List.length]. unfold lastn.
  destruct (n <? List.length l + 1)%nat eqn:E.
  - apply Nat.ltb_lt in E. rewrite length_app. cbn [List.length].
    rewrite skipn_app.
    replace (List.length l + 1 - n - List.length l)%nat with 0%nat by lia.
    replace (List.length l + 1 - n)%nat with (List.length l - (n - 1))%nat by lia.
    reflexivity.
  - apply Nat.ltb_ge in E.
    replace (List.length l - (n - 1))%nat with 0%nat by lia. reflexivity.
Qed.

Lemma push_capped_length {A : Type} (n : nat) (l : list A) (x : A) :
  (0 < n)%nat ->
  List.length (lastn (n - 1) l ++ [x]) = Nat.min n (S (List.length l)).
Proof.
  intro Hn. rewrite length_app, lastn_length. cbn [List.length]. lia.
Qed.

Lemma JsMap_set_length {V : Type} (m : JsMap.t V) (k : string) (v : V) :
  List.length (JsMap.set m k v)
  = if JsMap.has m k then List.length m else S (List.length m).
Proof.
  unfold JsMap.has. induction m as [|[k' v'] m IH]; cbn; [reflexivity|].
  destruct (String.eqb k k'); cbn; [reflexivity|].
  rewrite IH. now destruct (JsMap.get m k).
Qed.

Lemma eqb_neq_sym (a b : string) : a <> b -> String.eqb a b = false.
Proof. intro H. now apply String.eqb_neq. Qed.

(** ** Success patterns *)

(** X8.  [storeSuccessPattern] raises the count of the pattern of the
    output's type by one, appends the new example and keeps the last ten
    examples, recomputes the summary from them, and leaves the patterns of
    the other types, the mode, the verification memory and the rollback
    history as they were. *)
Theorem storeSuccessPattern_keeps_ten_examples (this : VerificationLayer)
    (verificationResult : VerificationResult) :
  let type := type_or_general (td_type (vr_agentOutput verificationResult)) in
  let before :=
    match JsMap.get (successPatterns this) type with
    | Some p => p
    | None => mkPattern 0 [] (mkPatternSummary 0 [] [])
    end in
  let this' := storeSuccessPattern this verificationResult in
  (exists after,
     JsMap.get (successPatterns this') type = Some after
     /\ sp_count after = S (sp_count before)
     /\ sp_examples after
        = lastn 9 (sp_examples before)
          ++ [mkExample (vr_timestamp verificationResult) (vr_score verificationResult)
                (vr_agentOutput verificationResult)]
     /\ List.length (sp_examples after)
        = Nat.min 10 (S (List.length (sp_examples before)))
     /\ sp_summary after = calculatePatternSummary (sp_examples after))
  /\ (forall other, other <> type ->
        JsMap.get (successPatterns this') other = JsMap.get (successPatterns this) other)
  /\ mode this' = mode this
  /\ verificationMemory this' = verificationMemory this
  /\ rollbackHistory this' = rollbackHistory this.
Proof.
  cbv zeta. unfold storeSuccessPattern. cbn [successPatterns mode verificationMemory
                                              rollbackHistory].
  split; [|split; [|repeat split]].
  - eexists. split; [apply JsMap_get_set_same|].
    cbn [sp_count sp_examples sp_summary].
    rewrite (push_capped 10) by lia. change (10 - 1)%nat with 9%nat.
    split; [reflexivity|]. split; [reflexivity|]. split; [|reflexivity].
    change 9%nat with (10 - 1)%nat. apply push_capped_length. lia.
  - intros other Hne. apply JsMap_get_set_other. now apply eqb_neq_sym.
Qed.

(** ** What a verification call records *)

Lemma enforceVerification_unfold (Number_toString : Q -> string) (env : Env)
    (agentOutput : TaskData) (ctx : SprintContext) (this : VerificationLayer)
    (file : option MemoryData) :
  exists sa ca,
    verifySprintAlignment agentOutput (Some ctx) = Return sa
    /\ verifyContextAccuracy Number_toString agentOutput (Some ctx) = Return ca
    /\ let checks :=
         mkChecks sa (verifyQualityStandards agentOutput)
           (verifyCrossAgentConsistency env this agentOutput)
           (verifyHistoricalCompliance this agentOutput) ca in
       let score := calculateVerificationScore checks in
       let r :=
         mkVerification
           ("verify_" ++ decimal_of_Z (now env) ++ "_" ++ random_suffix env)%string
           (now env) (mode this) score (thresholds (mode this))
           (Qleb (thresholds (mode this)) score) checks agentOutput (Some ctx) in
       let stored :=
         if negb (vr_verified r) then
           mkLayer (mode this) (verificationMemory this) (successPatterns this)
             (rollbackHistory this ++ [r])
         else storeSuccessPattern this r in
       let this' :=
         mkLayer (mode stored) (JsMap.set (verificationMemory stored) (vr_verificationId r) r)
           (successPatterns stored) (rollbackHistory stored) in
       enforceVerification Number_toString env agentOutput (Some ctx) this file
       = Return (r, this', persistVerificationMemory env this' file).
Proof.
  destruct (verifyContextAccuracy_returns Number_toString agentOutput ctx) as [ca Hca].
  eexists. exists ca. split; [reflexivity|]. split; [exact Hca|].
  cbv zeta. unfold enforceVerification. rewrite Hca. reflexivity.
Qed.

Lemma enforceVerification_returns (Number_toString : Q -> string) (env : Env)
    (agentOutput : TaskData) (ctx : SprintContext) (this : VerificationLayer)
    (file : option MemoryData) :
  exists r this' file',
    enforceVerification Number_toString env agentOutput (Some ctx) this file
    = Return (r, this', file').
Proof.
  destruct (enforceVerification_unfold Number_toString env agentOutput ctx this file)
    as [sa [ca [_ [_ H]]]].
  do 3 eexists. exact H.
Qed.

(** X9.  With a sprint context [enforceVerification] returns a record
    whose identifier is [verify_<clock>_<suffix>]; the record is stored
    under that identifier and the records under other identifiers are
    untouched, so the memory grows by one entry unless the identifier was
    already in use.  The mode is unchanged; a failed verification leaves
    the success patterns alone and a passed one leaves the rollback
    history alone. *)
Theorem enforceVerification_records (Number_toString : Q -> string) (env : Env)
    (agentOutput : TaskData) (ctx : SprintContext) (this : VerificationLayer)
    (file : option MemoryData) :
  exists r this' file',
    enforceVerification Number_toString env agentOutput (Some ctx) this file
    = Return (r, this', file')
    /\ vr_verificationId r
       = ("verify_" ++ decimal_of_Z (now env) ++ "_" ++ random_suffix env)%string
    /\ vr_timestamp r = now env
    /\ vr_agentOutput r = agentOutput
    /\ vr_sprintContext r = Some ctx
    /\ JsMap.get (verificationMemory this') (vr_verificationId r) = Some r
    /\ (forall id, id <> vr_verificationId r ->
          JsMap.get (verificationMemory this') id = JsMap.get (verificationMemory this) id)
    /\ JsMap.size (verificationMemory this')
       = (if JsMap.has (verificationMemory this) (vr_verificationId r)
          then JsMap.size (verificationMemory this)
          else S (JsMap.size (verificationMemory this)))
    /\ mode this' = mode this
    /\ (vr_verified r = false -> successPatterns this' = successPatterns this)
    /\ (vr_verified r = true -> rollbackHistory this' = rollbackHistory this).
Proof.
  destruct (enforceVerification_unfold Number_toString env agentOutput ctx this file)
    as [sa [ca [_ [_ H]]]].
  cbv zeta in H. do 3 eexists. split; [exact H|].
  cbn [vr_verificationId vr_timestamp vr_agentOutput vr_sprintContext vr_verified
       verificationMemory mode successPatterns rollbackHistory].
  set (verified := Qleb _ _).
  assert (Hmem : forall l1 l2 l3 l4,
             verificationMemory
               (if negb verified then mkLayer l1 (verificationMemory this) l2 l3
                else storeSuccessPattern this l4)
             = verificationMemory this).
  { intros. destruct verified; reflexivity. }
  rewrite Hmem.
  split; [reflexivity|]. split; [reflexivity|]. split; [reflexivity|].
  split; [reflexivity|]. split; [apply JsMap_get_set_same|].
  split; [intros id Hne; apply JsMap_get_set_other; now apply eqb_neq_sym|].
  split; [apply JsMap_set_length|].
  split; [destruct verified; reflexivity|].
  split; intro Hv; rewrite Hv; reflexivity.
Qed.

(** ** Statistics of the layer *)

(** X10.  In the statistics of the layer the successful verifications are
    at most the total, the success rate lies in [0, 1] and is zero for an
    empty memory, and it is one exactly when the memory is not empty and
    every record in it is verified. *)
Theorem getStats_rate (this : VerificationLayer) :
  let s := getStats this in
  (successfulVerifications s <= totalVerifications s)%nat
  /\ 0 <= successRate s /\ successRate s <= 1
  /\ (totalVerifications s = 0%nat -> successRate s = 0)
  /\ (successRate s == 1 <->
      Forall (fun v => vr_verified v = true) (JsMap.values (verificationMemory this))
      /\ verificationMemory this <> []).
Proof.
  cbv zeta. unfold getStats.
  cbn [successfulVerifications totalVerifications successRate].
  unfold JsMap.size, JsMap.values.
  set (records := map snd (verificationMemory this)).
  assert (Hlen : List.length (verificationMemory this) = List.length records)
    by (subst records; now rewrite length_map).
  rewrite Hlen.
  pose proof (filter_length_le vr_verified records) as Hle.
  split; [exact Hle|].
  destruct (0 <? List.length records)%nat eqn:E.
  - apply Nat.ltb_lt in E.
    destruct (Qnat_ratio_bounds _ _ Hle E) as [H0 H1].
    split; [exact H0|]. split; [exact H1|]. split; [lia|].
    pose proof (Qnat_pos _ E) as Hpos.
    split.
    + intro H1'. split.
      * apply forallb_Forall. apply filter_length_forallb.
        assert (Heq : Qnat (List.length (filter vr_verified records))
                      == Qnat (List.length records)).
        { rewrite <- (Qmult_1_l (Qnat (List.length records))), <- H1'. field.
          intro Hz. rewrite Hz in Hpos. apply (Qlt_irrefl 0 Hpos). }
        now apply Qnat_inj.
      * intro Hnil. rewrite Hnil in Hlen. cbn in Hlen. lia.
    + intros [Hall _].
      assert (Hf : filter vr_verified records = records).
      { apply forallb_filter_id. now apply forallb_Forall. }
      rewrite Hf. field. intro Hz. rewrite Hz in Hpos. apply (Qlt_irrefl 0 Hpos).
  - apply Nat.ltb_ge in E.
    split; [unfold Qle; simpl; lia|]. split; [unfold Qle; simpl; lia|].
    split; [reflexivity|].
    split.
    + intro H. vm_compute in H. discriminate.
    + intros [_ Hne]. rewrite <- Hlen in E.
      destruct (verificationMemory this); [congruence|].
      cbn [List.length] in E. lia.
Qed.

(** ** The memory file *)

(** X11.  A layer restarted from the file that another layer has just
    written has that layer's verification memory and success patterns and
    the last fifty entries of its rollback history; it keeps its own mode,
    since the mode is not persisted. *)
Theorem persisted_memory_round_trip (env : Env) (this restarted : VerificationLayer)
    (file : option MemoryData) :
  write_ok env = true ->
  let restored :=
    loadVerificationMemory restarted (persistVerificationMemory env this file) in
  verificationMemory restored = verificationMemory this
  /\ successPatterns restored = successPatterns this
  /\ rollbackHistory restored = lastn 50 (rollbackHistory this)
  /\ (rollbacks (getStats restored) <= 50)%nat
  /\ mode restored = mode restarted
  /\ totalVerifications (getStats restored) = totalVerifications (getStats this)
  /\ successRate (getStats restored) = successRate (getStats this).
Proof.
  intros Hw. cbv zeta. unfold persistVerificationMemory. rewrite Hw.
  unfold loadVerificationMemory, memory_snapshot, getStats.
  cbn [md_verificationMemory md_successPatterns md_rollbackHistory verificationMemory
       successPatterns rollbackHistory mode rollbacks totalVerifications successRate].
  repeat split. rewrite lastn_length. lia.
Qed.

Lemma persisted_memory_round_trip_witness :
  let this := fst (verify_n 2 (new_VerificationLayer strict) None) in
  let restored :=
    loadVerificationMemory (new_VerificationLayer dev)
      (persistVerificationMemory (env_at 3) this None) in
  verificationMemory restored = verificationMemory this
  /\ successPatterns restored = successPatterns this
  /\ rollbackHistory restored = lastn 50 (rollbackHistory this)
  /\ (rollbacks (getStats restored) <= 50)%nat
  /\ mode restored = dev
  /\ totalVerifications (getStats restored) = totalVerifications (getStats this)
  /\ successRate (getStats restored) = successRate (getStats this).
Proof.
  exact (persisted_memory_round_trip (env_at 3)
           (fst (verify_n 2 (new_VerificationLayer strict) None))
           (new_VerificationLayer dev) None eq_refl).
Defined.

(** ** Rating updates *)

Lemma calculateActualScore_bounds (taskResult : TaskResult)
    (sprintCompliance : SprintCompliance) :
  0 <= calculateActualScore taskResult sprintCompliance
  /\ calculateActualScore taskResult sprintCompliance <= 1.
Proof.
  unfold calculateActualScore. cbv zeta. apply clamp_bounds. discriminate.
Qed.

Lemma calculateExpectedScore_bounds (Math_pow : Q -> Q -> Q)
    (agentRating taskComplexity : Q) :
  (forall exponent, 0 <= Math_pow 10 exponent) ->
  0 < calculateExpectedScore Math_pow agentRating taskComplexity
  /\ calculateExpectedScore Math_pow agentRating taskComplexity <= 1.
Proof.
  intro Hpow. unfold calculateExpectedScore. cbv zeta.
  match goal with |- context [Math_pow 10 ?e] => pose proof (Hpow e) as He;
    set (p := Math_pow 10 e) in * end.
  split.
  - apply Qlt_shift_div_l; lra.
  - apply Qle_shift_div_r; lra.
Qed.

Lemma integer_pow_nonneg (exponent : Q) : 0 <= integer_pow 10 exponent.
Proof.
  unfold integer_pow. apply Qpower_0_le. discriminate.
Qed.

Lemma Qclamp_near (lo hi x d : Q) :
  lo <= x -> x <= hi ->
  (0 <= d -> x <= Qmax lo (Qmin hi (x + d)) /\ Qmax lo (Qmin hi (x + d)) <= x + d)
  /\ (d <= 0 -> x + d <= Qmax lo (Qmin hi (x + d)) /\ Qmax lo (Qmin hi (x + d)) <= x).
Proof.
  intros Hlo Hhi.
  pose proof (Q.min_spec hi (x + d)) as Hmin.
  set (m := Qmin hi (x + d)) in *.
  pose proof (Q.max_spec lo m) as Hmax.
  set (M := Qmax lo m) in *.
  destruct Hmin as [[Hc Hmin]|[Hc Hmin]]; destruct Hmax as [[Hc' Hmax]|[Hc' Hmax]];
    split; intro Hd; split; lra.
Qed.

(** X12.  When [Math.pow] returns no negative number and the agent's
    current rating lies in [800, 2400], one rating update has an expected
    score in (0, 1] and an actual score in [0, 1], a rating change of
    [kFactor] times their difference, between -32 and 32, and a new rating
    that lies between the old rating and the old rating plus the change;
    the update is flagged as an improvement exactly when the actual score
    exceeds the expected one. *)
Theorem updateAgentRating_moves_at_most_k (Math_pow : Q -> Q -> Q) (env : Env)
    (agentId : string) (taskResult : TaskResult) (sprintCompliance : SprintCompliance)
    (this : AgentELORankingSystem) :
  (forall exponent, 0 <= Math_pow 10 exponent) ->
  800 <= agent_rating this agentId -> agent_rating this agentId <= 2400 ->
  let update :=
    fst (updateAgentRating Math_pow env agentId taskResult sprintCompliance this) in
  previousRating update = agent_rating this agentId
  /\ 0 < expectedScore update /\ expectedScore update <= 1
  /\ 0 <= actualScore update /\ actualScore update <= 1
  /\ ratingChange update = kFactor * (actualScore update - expectedScore update)
  /\ - kFactor <= ratingChange update /\ ratingChange update < kFactor
  /\ (0 <= ratingChange update ->
      previousRating update <= newRating update
      /\ newRating update <= previousRating update + ratingChange update)
  /\ (ratingChange update <= 0 ->
      previousRating update + ratingChange update <= newRating update
      /\ newRating update <= previousRating update)
  /\ improvement update = Qltb (expectedScore update) (actualScore update).
Proof.
  intros Hpow Hlo Hhi. cbv zeta. unfold updateAgentRating. cbv zeta.
  cbn [fst previousRating expectedScore actualScore ratingChange newRating improvement].
  fold (agent_rating this agentId).
  set (current := agent_rating this agentId) in *.
  destruct (calculateExpectedScore_bounds Math_pow current
              (num_or (tr_complexity taskResult) (5 # 10)) Hpow) as [He0 He1].
  destruct (calculateActualScore_bounds taskResult sprintCompliance) as [Ha0 Ha1].
  set (e := calculateExpectedScore Math_pow current _) in *.
  set (a := calculateActualScore taskResult sprintCompliance) in *.
  unfold kFactor.
  destruct (Qclamp_near 800 2400 current (32 * (a - e)) Hlo Hhi) as [Hup Hdown].
  split; [reflexivity|]. split; [exact He0|]. split; [exact He1|].
  split; [exact Ha0|]. split; [exact Ha1|]. split; [reflexivity|].
  split; [lra|]. split; [lra|]. split; [exact Hup|]. split; [exact Hdown|].
  destruct (Qltb e a) eqn:E.
  - apply Qltb_lt in E. apply Qltb_lt. lra.
  - apply Qltb_false_le in E. apply Qltb_false_le. lra.
Qed.

Lemma updateAgentRating_moves_at_most_k_witness :
  let update :=
    fst (updateAgentRating integer_pow (env_at 1) "a1" half_result full_compliance
           rated_system) in
  previousRating update = agent_rating rated_system "a1"
  /\ 0 < expectedScore update /\ expectedScore update <= 1
  /\ 0 <= actualScore update /\ actualScore update <= 1
  /\ ratingChange update = kFactor * (actualScore update - expectedScore update)
  /\ - kFactor <= ratingChange update /\ ratingChange update < kFactor
  /\ (0 <= ratingChange update ->
      previousRating update <= newRating update
      /\ newRating update <= previousRating update + ratingChange update)
  /\ (ratingChange update <= 0 ->
      previousRating update + ratingChange update <= newRating update
      /\ newRating update <= previousRating update)
  /\ improvement update = Qltb (expectedScore update) (actualScore update).
Proof.
  apply (updateAgentRating_moves_at_most_k integer_pow (env_at 1) "a1" half_result
           full_compliance rated_system).
  - exact integer_pow_nonneg.
  - unfold Qle; simpl; lia.
  - unfold Qle; simpl; lia.
Defined.

(** X13.  A rating update touches one agent: the ratings and performance
    histories of the other agents are unchanged.  The agent's history
    gains the record of the update as its last entry and keeps at most
    fifty entries, the oldest being dropped. *)
Theorem updateAgentRating_touches_one_agent (Math_pow : Q -> Q -> Q) (env : Env)
    (agentId : string) (taskResult : TaskResult) (sprintCompliance : SprintCompliance)
    (this : AgentELORankingSystem) :
  let update :=
    fst (updateAgentRating Math_pow env agentId taskResult sprintCompliance this) in
  let this' :=
    snd (updateAgentRating Math_pow env agentId taskResult sprintCompliance this) in
  (forall other, other <> agentId ->
     JsMap.get (agentRatings this') other = JsMap.get (agentRatings this) other
     /\ JsMap.get (performanceHistory this') other
        = JsMap.get (performanceHistory this) other)
  /\ agent_rating this' agentId = newRating update
  /\ agent_history this' agentId
     = lastn 49 (agent_history this agentId)
       ++ [mkPerformance (now env) (previousRating update) (newRating update)
             (ratingChange update) taskResult sprintCompliance (expectedScore update)
             (actualScore update)]
  /\ List.length (agent_history this' agentId)
     = Nat.min 50 (S (List.length (agent_history this agentId)))
  /\ (List.length (agent_history this' agentId) <= 50)%nat.
Proof.
  cbv zeta. unfold updateAgentRating, storePerformanceHistory. cbv zeta.
  cbn [fst snd agentRatings performanceHistory previousRating newRating ratingChange
       expectedScore actualScore].
  unfold agent_rating, agent_history. cbn [agentRatings performanceHistory].
  rewrite !JsMap_get_set_same.
  rewrite (push_capped 50) by lia. change (50 - 1)%nat with 49%nat.
  split; [|split; [|split; [reflexivity|split]]].
  - intros other Hne. split; apply JsMap_get_set_other; now apply eqb_neq_sym.
  - unfold num_or.
    match goal with |- (if Qeqb ?r 0 then _ else _) = _ =>
      destruct (Qeqb r 0) eqn:E; [|reflexivity]; apply Qeqb_eq in E end.
    exfalso.
    match type of E with ?r == 0 => assert (H800 : 800 <= r) by apply Q.le_max_l end.
    rewrite E in H800. revert H800. unfold Qle; simpl; lia.
  - change 49%nat with (50 - 1)%nat. apply push_capped_length. lia.
  - change 49%nat with (50 - 1)%nat. rewrite push_capped_length by lia. lia.
Qed.

(** ** Sorting by decreasing key *)

Lemma insert_desc_Permutation {A : Type} (key : A -> Q) (x : A) (l : list A) :
  Permutation (insert_desc key x l) (x :: l).
Proof.
  induction l as [|y l IH]; cbn [insert_desc]; [reflexivity|].
  destruct (Qltb (key x) (key y)); [|reflexivity].
  rewrite IH. apply perm_swap.
Qed.

Lemma sort_desc_Permutation {A : Type} (key : A -> Q) (l : list A) :
  Permutation (sort_desc key l) l.
Proof.
  unfold sort_desc. induction l as [|x l IH]; cbn [fold_right]; [reflexivity|].
  rewrite insert_desc_Permutation. now constructor.
Qed.

Lemma insert_desc_sorted {A : Type} (key : A -> Q) (x : A) (l : list A) :
  sorted_desc key l -> sorted_desc key (insert_desc key x l).
Proof.
  unfold sorted_desc. intro H. induction H as [|y l Hl IH Hy]; cbn [insert_desc].
  - constructor; constructor.
  - destruct (Qltb (key x) (key y)) eqn:E.
    + apply Qltb_lt in E. constructor; [exact IH|].
      apply insert_desc_Forall; [apply Qlt_le_weak; exact E | exact Hy].
    + apply Qltb_false_le in E. constructor; [constructor; assumption|].
      constructor; [exact E|].
      eapply Forall_impl; [|exact Hy]. intros z Hz. cbv beta in *.
      now apply Qle_trans with (key y).
Qed.

Lemma sort_desc_sorted {A : Type} (key : A -> Q) (l : list A) :
  sorted_desc key (sort_desc key l).
Proof.
  unfold sort_desc. induction l as [|x l IH]; cbn [fold_right].
  - constructor.
  - now apply insert_desc_sorted.
Qed.

Lemma sort_desc_length {A : Type} (key : A -> Q) (l : list A) :
  List.length (sort_desc key l) = List.length l.
Proof. apply Permutation_length, sort_desc_Permutation. Qed.

(** X14.  [getTopPerformers] lists the best rated agents in decreasing
    order of rating: the listed agents followed by the others are a
    permutation of the rated agents sorted by decreasing rating, and the
    number listed is the limit, or the number of rated agents when that
    is smaller. *)
Theorem getTopPerformers_ranks_by_rating (limit : nat) (this : AgentELORankingSystem) :
  exists ranked others,
    Permutation (ranked ++ others) (agentRatings this)
    /\ sorted_desc snd (ranked ++ others)
    /\ List.length ranked = Nat.min limit (JsMap.size (agentRatings this))
    /\ getTopPerformers limit this
       = map (fun e => mkTopPerformer (fst e) (toFixed 0 (snd e))
                         (classifyPerformance (snd e)))
           ranked.
Proof.
  exists (firstn limit (sort_desc snd (agentRatings this))),
         (skipn limit (sort_desc snd (agentRatings this))).
  rewrite firstn_skipn. split; [apply sort_desc_Permutation|].
  split; [apply sort_desc_sorted|]. split.
  - rewrite length_firstn, sort_desc_length. reflexivity.
  - unfold getTopPerformers. apply map_ext. intros [agentId rating]. reflexivity.
Qed.

(** ** The five factors of an evaluation *)

Lemma evaluateSprintAlignment_bounds (Number_toString : Q -> string)
    (solution : Solution) (evaluationContext : EvaluationContext) :
  0 <= evaluateSprintAlignment Number_toString solution evaluationContext
  /\ evaluateSprintAlignment Number_toString solution evaluationContext <= 1.
Proof.
  unfold evaluateSprintAlignment.
  destruct (sprintGoals evaluationContext) as [goals|]; [|closed_bounds].
  cbv zeta. split; [|apply Q.le_min_l].
  apply Q.min_glb; [discriminate|].
  apply Qle_shift_div_l.
  - apply Qlt_le_trans with 1; [reflexivity | apply Q.le_max_r].
  - rewrite Qmult_0_l. apply Qnat_nonneg.
Qed.

Lemma evaluateTechnicalQuality_bounds (solution : Solution) :
  5 # 10 <= evaluateTechnicalQuality solution /\ evaluateTechnicalQuality solution <= 1.
Proof.
  unfold evaluateTechnicalQuality. cbv zeta.
  destruct (JsMap.get solution "technicalDetails") as [d|];
    [destruct (truthy d && num_lt (Some 50) (js_length d))|];
    (destruct (JsMap.get solution "architecture") as [a|];
     [destruct (truthy a && (0 <? keys_count a)%nat)|]);
    destruct (truthy_sub solution "testing" "strategy");
    destruct (truthy_opt (JsMap.get solution "errorHandling"));
    closed_bounds.
Qed.

Lemma evaluateImplementationFeasibility_bounds (solution : Solution) :
  5 # 10 <= evaluateImplementationFeasibility solution
  /\ evaluateImplementationFeasibility solution <= 1.
Proof.
  unfold evaluateImplementationFeasibility. cbv zeta.
  destruct (truthy_opt (JsMap.get solution "complexity")
            && num_le (number_of (JsMap.get solution "complexity")) (Some (7 # 10)));
    [|destruct (truthy_opt (JsMap.get solution "complexity")
                && num_lt (Some (9 # 10)) (number_of (JsMap.get solution "complexity")))];
    destruct (truthy_sub solution "resourceRequirements" "realistic");
    destruct (truthy_sub solution "timeline" "realistic");
    closed_bounds.
Qed.

Lemma evaluateRiskAssessment_bounds (solution : Solution) (score : Q) :
  evaluateRiskAssessment solution = Return score -> 5 # 10 <= score /\ score <= 1.
Proof.
  unfold evaluateRiskAssessment. cbv zeta.
  destruct (JsMap.get solution "risks") as [risks|].
  - destruct (truthy risks).
    + destruct risks as [|b|q|s|items|fs]; try discriminate.
      destruct (mapM risk_mitigated items) as [mitigated|e]; [|discriminate].
      cbn [bind].
      destruct (List.length items =? 0)%nat;
        [|destruct (Qltb (8 # 10) _); [|destruct (Qltb _ (5 # 10))]];
        cbn [bind]; intro H; inversion H; subst score; closed_bounds.
    + cbn [bind]. intro H; inversion H; subst score; closed_bounds.
  - cbn [bind]. intro H; inversion H; subst score; closed_bounds.
Qed.

Lemma evaluateInnovationFactor_bounds (solution : Solution) :
  5 # 10 <= evaluateInnovationFactor solution /\ evaluateInnovationFactor solution <= 1.
Proof.
  unfold evaluateInnovationFactor. cbv zeta.
  destruct (truthy_sub solution "innovative" "features");
    destruct (truthy_sub solution "novel" "approach"); closed_bounds.
Qed.

(** The loop of [evaluateSolution] over the factors. *)
Lemma evaluateSolution_loop (entries : list (string * Q)) :
  forall (total : Q) (strong weak areas : list string),
    let '(totalScore, strengths, weaknesses, improvementAreas) :=
      fold_left
        (fun '(totalScore, strengths, weaknesses, improvementAreas) '(factor, score) =>
           let weightedScore := score * weight_of factor in
           let totalScore := totalScore + weightedScore in
           if Qltb (8 # 10) score
           then (totalScore, strengths ++ [factor], weaknesses, improvementAreas)
           else if Qltb score (6 # 10)
           then (totalScore, strengths, weaknesses ++ [factor], improvementAreas ++ [factor])
           else (totalScore, strengths, weaknesses, improvementAreas))
        entries (total, strong, weak, areas) in
    totalScore == total + weighted_total entries
    /\ strengths = strong ++ strong_factors entries
    /\ weaknesses = weak ++ weak_factors entries
    /\ improvementAreas = areas ++ weak_factors entries.
Proof.
  induction entries as [|[factor score] entries IH]; intros total strong weak areas.
  - cbn [fold_left]. unfold weighted_total, strong_factors, weak_factors, Qsum.
    cbn [map filter fold_left]. rewrite !app_nil_r. repeat split. ring.
  - cbn [fold_left]. cbv zeta.
    unfold weighted_total, strong_factors, weak_factors in *.
    cbn [map filter fst snd].
    destruct (Qltb (8 # 10) score) eqn:Es.
    + assert (Ew : Qltb score (6 # 10) = false).
      { apply Qltb_false_le. apply Qltb_lt in Es.
        apply Qle_trans with (8 # 10); [discriminate | now apply Qlt_le_weak]. }
      rewrite Ew. specialize (IH (total + score * weight_of factor) (strong ++ [factor])
                                weak areas).
      destruct (fold_left _ entries _) as [[[t s] w] i].
      destruct IH as [Ht [Hs [Hw Hi]]]. cbn [map].
      rewrite Qsum_cons, <- app_assoc in *. repeat split; try assumption.
      rewrite Ht. ring.
    + destruct (Qltb score (6 # 10)) eqn:Ew.
      * specialize (IH (total + score * weight_of factor) strong (weak ++ [factor])
                       (areas ++ [factor])).
        destruct (fold_left _ entries _) as [[[t s] w] i].
        destruct IH as [Ht [Hs [Hw Hi]]]. cbn [map].
        rewrite Qsum_cons, <- !app_assoc in *. repeat split; try assumption.
        rewrite Ht. ring.
      * specialize (IH (total + score * weight_of factor) strong weak areas).
        destruct (fold_left _ entries _) as [[[t s] w] i].
        destruct IH as [Ht [Hs [Hw Hi]]].
        rewrite Qsum_cons. repeat split; try assumption.
        rewrite Ht. ring.
Qed.

Lemma evaluateSolution_result (Number_toString : Q -> string) (solution : Solution)
    (evaluationContext : EvaluationContext) (ev : Evaluation) :
  evaluateSolution Number_toString solution evaluationContext = Return ev ->
  exists riskAssessment,
    evaluateRiskAssessment solution = Return riskAssessment
    /\ ev_factors ev
       = mkSolutionFactors
           (evaluateSprintAlignment Number_toString solution evaluationContext)
           (evaluateTechnicalQuality solution)
           (evaluateImplementationFeasibility solution) riskAssessment
           (evaluateInnovationFactor solution)
    /\ ev_score ev == weighted_total (factor_entries (ev_factors ev))
    /\ ev_strengths ev = strong_factors (factor_entries (ev_factors ev))
    /\ ev_weaknesses ev = weak_factors (factor_entries (ev_factors ev))
    /\ ev_improvementAreas ev = ev_weaknesses ev.
Proof.
  unfold evaluateSolution. cbv zeta.
  destruct (evaluateRiskAssessment solution) as [riskAssessment|e]; [|discriminate].
  cbn [bind].
  match goal with
  | |- context [fold_left _ (factor_entries ?f) _] =>
      pose proof (evaluateSolution_loop (factor_entries f) 0 [] [] []) as Hloop;
      set (fs := f) in *
  end.
  destruct (fold_left _ (factor_entries fs) _) as [[[t s] w] i].
  destruct Hloop as [Ht [Hs [Hw Hi]]]. cbn [app] in *.
  intro H. inversion H; subst ev; clear H.
  cbn [ev_factors ev_score ev_strengths ev_weaknesses ev_improvementAreas].
  exists riskAssessment. split; [reflexivity|]. split; [reflexivity|].
  split; [rewrite Ht; ring|]. repeat split; congruence.
Qed.

Lemma weighted_total_factors (f : Factors) :
  weighted_total (factor_entries f)
  == (3 # 10) * f_sprintAlignment f + (25 # 100) * f_technicalQuality f
     + (25 # 100) * f_implementationFeasibility f + (15 # 100) * f_riskAssessment f
     + (5 # 100) * f_innovationFactor f.
Proof.
  unfold weighted_total, factor_entries. cbn [map fst snd].
  rewrite !Qsum_cons. unfold Qsum. cbn [fold_left].
  change (weight_of "sprintAlignment") with (3 # 10).
  change (weight_of "technicalQuality") with (25 # 100).
  change (weight_of "implementationFeasibility") with (25 # 100).
  change (weight_of "riskAssessment") with (15 # 100).
  change (weight_of "innovationFactor") with (5 # 100).
  ring.
Qed.

(** X15.  [evaluateSolution] throws only on a malformed [risks] property.
    Otherwise its score is the weighted sum of the five factors, with
    weights 0.3, 0.25, 0.25, 0.15 and 0.05; sprint alignment lies in
    [0, 1] and the four other factors in [0.5, 1], so the score lies in
    [0.35, 1]; the strengths are the factors above 0.8, the weaknesses
    those below 0.6, and the improvement areas are the weaknesses. *)
Theorem evaluateSolution_weighs_five_factors (Number_toString : Q -> string)
    (solution : Solution) (evaluationContext : EvaluationContext) :
  match evaluateSolution Number_toString solution evaluationContext with
  | Return ev =>
      let f := ev_factors ev in
      ev_score ev
      == (3 # 10) * f_sprintAlignment f + (25 # 100) * f_technicalQuality f
         + (25 # 100) * f_implementationFeasibility f + (15 # 100) * f_riskAssessment f
         + (5 # 100) * f_innovationFactor f
      /\ (0 <= f_sprintAlignment f /\ f_sprintAlignment f <= 1)
      /\ (5 # 10 <= f_technicalQuality f /\ f_technicalQuality f <= 1)
      /\ (5 # 10 <= f_implementationFeasibility f /\ f_implementationFeasibility f <= 1)
      /\ (5 # 10 <= f_riskAssessment f /\ f_riskAssessment f <= 1)
      /\ (5 # 10 <= f_innovationFactor f /\ f_innovationFactor f <= 1)
      /\ (35 # 100 <= ev_score ev /\ ev_score ev <= 1)
      /\ ev_strengths ev = strong_factors (factor_entries f)
      /\ ev_weaknesses ev = weak_factors (factor_entries f)
      /\ ev_improvementAreas ev = ev_weaknesses ev
  | Throw _ => risks_ok solution = false
  end.
Proof.
  destruct (evaluateSolution Number_toString solution evaluationContext) as [ev|e] eqn:Hev.
  - destruct (evaluateSolution_result _ _ _ _ Hev)
      as [risk [Hrisk [Hf [Hscore [Hs [Hw Hi]]]]]].
    cbv zeta. rewrite weighted_total_factors in Hscore.
    pose proof (evaluateSprintAlignment_bounds Number_toString solution evaluationContext)
      as Hsa.
    pose proof (evaluateTechnicalQuality_bounds solution) as Htq.
    pose proof (evaluateImplementationFeasibility_bounds solution) as Hif.
    pose proof (evaluateRiskAssessment_bounds solution risk Hrisk) as Hra.
    pose proof (evaluateInnovationFactor_bounds solution) as Hin.
    rewrite Hf in *.
    cbn [f_sprintAlignment f_technicalQuality f_implementationFeasibility
         f_riskAssessment f_innovationFactor] in *.
    split; [exact Hscore|]. split; [exact Hsa|]. split; [exact Htq|].
    split; [exact Hif|]. split; [exact Hra|]. split; [exact Hin|].
    split; [split; lra|]. repeat split; assumption.
  - destruct (risks_ok solution) eqn:Hok; [|reflexivity].
    destruct (evaluateSolution_returns Number_toString solution evaluationContext Hok)
      as [ev Hev'].
    congruence.
Qed.

(** ** The critic phase *)

Lemma criticPhase_from_results (Number_toString : Q -> string)
    (evaluationContext : EvaluationContext) (solutions : list Solution) :
  forall (i : nat) (evs : list CriticResult),
    criticPhase_from Number_toString i solutions evaluationContext = Return evs ->
    map c_solution evs = solutions
    /\ map solutionIndex evs = seq i (List.length solutions)
    /\ Forall (fun c =>
                 exists ev,
                   evaluateSolution Number_toString (c_solution c) evaluationContext
                   = Return ev
                   /\ c_score c = ev_score ev
                   /\ strengths c = ev_strengths ev
                   /\ weaknesses c = ev_weaknesses ev
                   /\ improvementAreas c = ev_improvementAreas ev) evs.
Proof.
  induction solutions as [|s solutions IH]; intros i evs H; cbn [criticPhase_from] in H.
  - inversion H; subst evs. repeat split; constructor.
  - destruct (evaluateSolution Number_toString s evaluationContext) as [ev|e] eqn:Hev;
      [|discriminate].
    cbn [bind] in H.
    destruct (criticPhase_from Number_toString (S i) solutions evaluationContext)
      as [rest|e] eqn:Hrest; [|discriminate].
    cbn [bind] in H. inversion H; subst evs; clear H.
    destruct (IH (S i) rest Hrest) as [Hsol [Hidx Hall]].
    cbn [map c_solution solutionIndex List.length seq].
    rewrite Hsol, Hidx. split; [reflexivity|]. split; [reflexivity|].
    constructor; [|exact Hall].
    exists ev. cbn [c_solution c_score strengths weaknesses improvementAreas].
    repeat split. exact Hev.
Qed.

Lemma nth_error_of_index {A B : Type} (f : A -> B) (g : A -> nat) (l : list A) :
  map g l = seq 0 (List.length l) ->
  Forall (fun x => nth_error (map f l) (g x) = Some (f x)) l.
Proof.
  intro H.
  assert (Hgen : forall i pre,
             map g l = seq i (List.length l) -> List.length pre = i ->
             Forall (fun x => nth_error (pre ++ map f l) (g x) = Some (f x)) l).
  { clear H. induction l as [|x l IH]; intros i pre H Hpre; [constructor|].
    cbn [map List.length seq] in H.
    assert (Hx : g x = i) by congruence.
    assert (Hl : map g l = seq (S i) (List.length l)) by congruence.
    constructor.
    - rewrite Hx, nth_error_app2 by lia.
      replace (i - List.length pre)%nat with 0%nat by lia. reflexivity.
    - specialize (IH (S i) (pre ++ [f x]) Hl).
      rewrite length_app in IH. cbn [List.length] in IH.
      specialize (IH ltac:(lia)).
      eapply Forall_impl; [|exact IH]. intros y Hy. cbv beta in *.
      rewrite <- app_assoc in Hy. exact Hy. }
  exact (Hgen 0%nat [] H eq_refl).
Qed.

Lemma all_ok_Forall (solutions : list Solution) :
  forallb risks_ok solutions = true -> Forall solution_ok solutions.
Proof. intro H. apply forallb_Forall in H. exact H. Qed.

Lemma criticPhase_results (Number_toString : Q -> string)
    (solutions : list Solution) (evaluationContext : EvaluationContext)
    (results : list CriticResult) :
  criticPhase Number_toString solutions evaluationContext = Return results ->
  sorted_desc c_score results
  /\ Permutation (map c_solution results) solutions
  /\ Permutation (map solutionIndex results) (seq 0 (List.length solutions))
  /\ Forall (critic_of Number_toString evaluationContext solutions) results.
Proof.
  intro Hrun.
  unfold criticPhase in Hrun.
  destruct (criticPhase_from Number_toString 0 solutions evaluationContext)
    as [evs|e] eqn:Hevs; [|discriminate].
  cbn [bind] in Hrun. inversion Hrun; subst results; clear Hrun.
  destruct (criticPhase_from_results _ _ _ _ _ Hevs) as [Hsol [Hidx Hall]].
  pose proof (sort_desc_Permutation c_score evs) as Hperm.
  split; [apply sort_desc_sorted|].
  split; [rewrite <- Hsol; now apply Permutation_map|].
  split; [rewrite <- Hidx; now apply Permutation_map|].
  apply sort_desc_Forall. unfold critic_of.
  assert (Hlen : List.length solutions = List.length evs)
    by (rewrite <- Hsol; apply length_map).
  rewrite Hlen in Hidx.
  pose proof (nth_error_of_index c_solution solutionIndex evs Hidx) as Hnth.
  rewrite Hsol in Hnth.
  apply Forall_and; assumption.
Qed.

(** X16.  The critic phase throws only on a malformed solution.  Otherwise
    it returns one result per solution, in decreasing order of score; each
    result carries the evaluation of its solution and the index of that
    solution in the input. *)
Theorem criticPhase_ranks_solutions (Number_toString : Q -> string)
    (solutions : list Solution) (evaluationContext : EvaluationContext) :
  match criticPhase Number_toString solutions evaluationContext with
  | Return results =>
      sorted_desc c_score results
      /\ Permutation (map c_solution results) solutions
      /\ Permutation (map solutionIndex results) (seq 0 (List.length solutions))
      /\ Forall (critic_of Number_toString evaluationContext solutions) results
  | Throw _ => forallb risks_ok solutions = false
  end.
Proof.
  destruct (criticPhase Number_toString solutions evaluationContext) as [results|e]
    eqn:Hrun.
  - now apply criticPhase_results.
  - destruct (forallb risks_ok solutions) eqn:Hok; [|reflexivity].
    destruct (criticPhase_returns Number_toString evaluationContext solutions
                (all_ok_Forall _ Hok)) as [results [Hr _]].
    congruence.
Qed.

(** ** The fixer phase *)

Lemma apply_fix_enhances (evaluationContext : EvaluationContext) (solution : Solution)
    (area : string) :
  enhanced_from solution (apply_fix evaluationContext solution area).
Proof.
  intros k Hk. unfold apply_fix, set_field.
  assert (Hne : forall key, In key enhancement_keys -> String.eqb k key = false).
  { intros key Hkey. apply String.eqb_neq. intro Heq. subst key. exact (Hk Hkey). }
  repeat match goal with
         | |- context [if ?b then _ else _] => destruct b
         end;
    try reflexivity; apply JsMap_get_set_other; apply Hne; cbn; tauto.
Qed.

Lemma applySolutionFixes_enhances (evaluationContext : EvaluationContext)
    (areas : list string) (solution : Solution) :
  enhanced_from solution (applySolutionFixes solution areas evaluationContext).
Proof.
  unfold applySolutionFixes. revert solution.
  induction areas as [|area areas IH]; intros solution k Hk; cbn [fold_left].
  - reflexivity.
  - rewrite (IH _ k Hk). now apply apply_fix_enhances.
Qed.

(** The four factors that do not read the text of a solution read only
    properties that no fix writes. *)
Lemma enhanced_same_factors (solution improved : Solution) :
  enhanced_from solution improved ->
  evaluateTechnicalQuality improved = evaluateTechnicalQuality solution
  /\ evaluateImplementationFeasibility improved
     = evaluateImplementationFeasibility solution
  /\ evaluateRiskAssessment improved = evaluateRiskAssessment solution
  /\ evaluateInnovationFactor improved = evaluateInnovationFactor solution.
Proof.
  intro H.
  unfold evaluateTechnicalQuality, evaluateImplementationFeasibility,
    evaluateRiskAssessment, evaluateInnovationFactor, truthy_sub.
  rewrite !(H "technicalDetails"), !(H "architecture"), !(H "testing"),
    !(H "errorHandling"), !(H "complexity"), !(H "resourceRequirements"),
    !(H "timeline"), !(H "risks"), !(H "innovative"), !(H "novel") by other_key.
  repeat split.
Qed.

Lemma evaluateSolution_throws (Number_toString : Q -> string) (solution : Solution)
    (evaluationContext : EvaluationContext) (e : JsError) :
  evaluateSolution Number_toString solution evaluationContext = Throw e ->
  evaluateRiskAssessment solution = Throw e.
Proof.
  unfold evaluateSolution. cbv zeta.
  destruct (evaluateRiskAssessment solution) as [q|e']; cbn [bind].
  - destruct (fold_left _ _ _) as [[[t s] w] i]. discriminate.
  - congruence.
Qed.

(** X17.  The fixes write only the five enhancement properties, which no
    factor other than sprint alignment reads: technical quality,
    feasibility, risk assessment and innovation are the same before and
    after.  A fixed solution therefore differs in score from the original
    by 0.3 times the difference in sprint alignment, at most 0.3 either
    way, and not at all when the context has no goals. *)
Theorem fixes_change_sprint_alignment_only (Number_toString : Q -> string)
    (solution : Solution) (areas : list string) (evaluationContext : EvaluationContext) :
  let fixed := applySolutionFixes solution areas evaluationContext in
  enhanced_from solution fixed
  /\ evaluateTechnicalQuality fixed = evaluateTechnicalQuality solution
  /\ evaluateImplementationFeasibility fixed = evaluateImplementationFeasibility solution
  /\ evaluateRiskAssessment fixed = evaluateRiskAssessment solution
  /\ evaluateInnovationFactor fixed = evaluateInnovationFactor solution
  /\ match evaluateSolution Number_toString solution evaluationContext,
           evaluateSolution Number_toString fixed evaluationContext with
     | Return before, Return after =>
         ev_score after - ev_score before
         == (3 # 10) * (f_sprintAlignment (ev_factors after)
                        - f_sprintAlignment (ev_factors before))
         /\ - (3 # 10) <= ev_score after - ev_score before
         /\ ev_score after - ev_score before <= 3 # 10
     | Throw thrown, Throw thrown' => thrown' = thrown
     | _, _ => False
     end
  /\ (sprintGoals evaluationContext = None ->
      evaluateSolution Number_toString fixed evaluationContext
      = evaluateSolution Number_toString solution evaluationContext).
Proof.
  cbv zeta.
  pose proof (applySolutionFixes_enhances evaluationContext areas solution) as Henh.
  destruct (enhanced_same_factors _ _ Henh) as [Htq [Hif [Hra Hin]]].
  set (fixed := applySolutionFixes solution areas evaluationContext) in *.
  split; [exact Henh|]. split; [exact Htq|]. split; [exact Hif|].
  split; [exact Hra|]. split; [exact Hin|]. split.
  - destruct (evaluateSolution Number_toString solution evaluationContext)
      as [before|e] eqn:Hb;
      destruct (evaluateSolution Number_toString fixed evaluationContext)
        as [after|e'] eqn:Ha.
    + destruct (evaluateSolution_result _ _ _ _ Hb) as [rb [Hrb [Hfb [Hsb _]]]].
      destruct (evaluateSolution_result _ _ _ _ Ha) as [ra [Hra' [Hfa [Hsa _]]]].
      rewrite weighted_total_factors in Hsb, Hsa.
      assert (Hrisk : ra = rb) by congruence.
      pose proof (evaluateSprintAlignment_bounds Number_toString solution
                    evaluationContext) as Hbb.
      pose proof (evaluateSprintAlignment_bounds Number_toString fixed
                    evaluationContext) as Hba.
      rewrite Hfa, Hfb in *. rewrite Htq, Hif, Hin, Hrisk in *.
      cbn [f_sprintAlignment f_technicalQuality f_implementationFeasibility
           f_riskAssessment f_innovationFactor] in *.
      split; [rewrite Hsa, Hsb; ring|]. split; lra.
    + apply evaluateSolution_throws in Ha.
      destruct (evaluateSolution_result _ _ _ _ Hb) as [rb [Hrb _]]. congruence.
    + apply evaluateSolution_throws in Hb.
      destruct (evaluateSolution_result _ _ _ _ Ha) as [ra [Hra' _]]. congruence.
    + apply evaluateSolution_throws in Ha, Hb. congruence.
  - intro Hgoals. unfold evaluateSolution, evaluateSprintAlignment.
    rewrite Hgoals, Htq, Hif, Hra, Hin. reflexivity.
Qed.

Lemma enhanced_keeps_risks_ok (solution improved : Solution) :
  enhanced_from solution improved -> risks_ok improved = risks_ok solution.
Proof.
  intro H. unfold risks_ok. now rewrite (H "risks") by other_key.
Qed.

Lemma enhanced_from_refl (solution : Solution) : enhanced_from solution solution.
Proof. intros k _. reflexivity. Qed.

Lemma enhanced_from_trans (a b c : Solution) :
  enhanced_from a b -> enhanced_from b c -> enhanced_from a c.
Proof.
  intros Hab Hbc k Hk. now rewrite (Hbc k Hk), (Hab k Hk).
Qed.

Lemma fix_one_result (Number_toString : Q -> string)
    (evaluationContext : EvaluationContext) (c : CriticResult) :
  match fix_one Number_toString evaluationContext c with
  | Return f => fixed_of c f
  | Throw _ => risks_ok (c_solution c) = false
  end.
Proof.
  unfold fix_one, fixed_of. fold (needs_fixing c).
  destruct (needs_fixing c) eqn:Hneeds.
  - pose proof (applySolutionFixes_enhances evaluationContext (improvementAreas c)
                  (c_solution c)) as Henh.
    destruct (evaluateSolution Number_toString _ evaluationContext) as [ev|e] eqn:Hev;
      cbn [bind].
    + cbn [originalScore fs_solution appliedFixes fs_improvement improvedScore].
      split; [reflexivity|]. split; [exact Henh|]. split; reflexivity.
    + rewrite <- (enhanced_keeps_risks_ok _ _ Henh).
      destruct (risks_ok (applySolutionFixes _ _ _)) eqn:Hok; [|reflexivity].
      destruct (evaluateSolution_returns Number_toString _ evaluationContext Hok)
        as [ev Hev'].
      congruence.
  - cbn [originalScore fs_solution appliedFixes fs_improvement improvedScore].
    split; [reflexivity|]. split; [apply enhanced_from_refl|]. repeat split.
Qed.

Lemma fixerPhase_results (Number_toString : Q -> string)
    (criticResults : list CriticResult) (evaluationContext : EvaluationContext)
    (fixedSolutions : list FixedSolution) :
  fixerPhase Number_toString criticResults evaluationContext = Return fixedSolutions ->
  Forall2 fixed_of criticResults fixedSolutions.
Proof.
  unfold fixerPhase. revert fixedSolutions.
  induction criticResults as [|c rest IH]; intros fixedSolutions; cbn [mapM].
  - intro H. inversion H. constructor.
  - pose proof (fix_one_result Number_toString evaluationContext c) as Hc.
    destruct (fix_one Number_toString evaluationContext c) as [f|e]; cbn [bind];
      [|discriminate].
    destruct (mapM (fix_one Number_toString evaluationContext) rest) as [fs|e];
      cbn [bind]; [|discriminate].
    intro H. inversion H. constructor; [exact Hc | now apply IH].
Qed.

(** X18.  The fixer phase throws only on a malformed solution.  Otherwise
    it returns one fixed solution per critic result, in the same order;
    each keeps the original score and every property of the solution but
    the enhancement properties, and a result that scores at least 0.8 or
    names no improvement area is handed on unchanged with improvement
    zero. *)
Theorem fixerPhase_keeps_order (Number_toString : Q -> string)
    (criticResults : list CriticResult) (evaluationContext : EvaluationContext) :
  match fixerPhase Number_toString criticResults evaluationContext with
  | Return fixedSolutions =>
      Forall2 fixed_of criticResults fixedSolutions
      /\ map originalScore fixedSolutions = map c_score criticResults
  | Throw _ => exists c, In c criticResults /\ risks_ok (c_solution c) = false
  end.
Proof.
  destruct (fixerPhase Number_toString criticResults evaluationContext)
    as [fixedSolutions|e] eqn:Hrun.
  - pose proof (fixerPhase_results _ _ _ _ Hrun) as Hall. split; [exact Hall|].
    clear Hrun. induction Hall as [|c f cs fs [Hscore _] Hall IH]; [reflexivity|].
    cbn [map]. now rewrite Hscore, IH.
  - unfold fixerPhase in Hrun. revert Hrun.
    induction criticResults as [|c rest IH]; cbn [mapM]; [discriminate|].
    pose proof (fix_one_result Number_toString evaluationContext c) as Hc.
    destruct (fix_one Number_toString evaluationContext c) as [f|e']; cbn [bind].
    + destruct (mapM (fix_one Number_toString evaluationContext) rest) as [fs|e''];
        cbn [bind]; [discriminate|].
      intro H. destruct (IH H) as [c' [Hin Hbad]].
      exists c'. split; [now right | exact Hbad].
    + intros _. exists c. split; [now left | exact Hc].
Qed.

(** ** The improvement loop *)

Lemma Forall2_flip {A B : Type} (R : A -> B -> Prop) (l : list A) (l' : list B) :
  Forall2 R l l' -> Forall2 (fun b a => R a b) l' l.
Proof. intro H. induction H; constructor; assumption. Qed.

Lemma Forall2_trans {A : Type} (R : A -> A -> Prop) (l1 l2 l3 : list A) :
  (forall a b c, R a b -> R b c -> R a c) ->
  Forall2 R l1 l2 -> Forall2 R l2 l3 -> Forall2 R l1 l3.
Proof.
  intros Ht H12. revert l3. induction H12 as [|a b l1 l2 Hab H12 IH]; intros l3 H23.
  - inversion H23. constructor.
  - inversion H23; subst. constructor; [eapply Ht; eassumption | now apply IH].
Qed.

Lemma Forall2_map_r {A B C : Type} (R : A -> C -> Prop) (f : B -> C) (l : list A)
    (l' : list B) :
  Forall2 (fun a b => R a (f b)) l l' -> Forall2 R l (map f l').
Proof. intro H. induction H; cbn [map]; constructor; assumption. Qed.

Lemma Forall2_map_l {A B C : Type} (R : C -> B -> Prop) (f : A -> C) (l : list A)
    (l' : list B) :
  Forall2 (fun a b => R (f a) b) l l' -> Forall2 R (map f l) l'.
Proof. intro H. induction H; cbn [map]; constructor; assumption. Qed.

Lemma candidates_of_refl (solutions : list Solution) : candidates_of solutions solutions.
Proof.
  exists solutions. split; [reflexivity|].
  induction solutions; constructor; [apply enhanced_from_refl | assumption].
Qed.

(** One turn of the loop: the critic reorders, the fixer enhances. *)
Lemma candidates_of_step (solutions current : list Solution)
    (results : list CriticResult) (fixed : list FixedSolution) :
  candidates_of solutions current ->
  Permutation (map c_solution results) current ->
  Forall2 fixed_of results fixed ->
  candidates_of solutions (map fs_solution fixed).
Proof.
  intros [arranged [Hperm Hall]] Hsort Hfixed.
  apply Forall2_flip in Hall.
  destruct (Permutation_Forall2 (Permutation_sym Hsort) Hall) as [arranged' [Hp' Hall']].
  apply Forall2_flip in Hall'.
  exists arranged'. split.
  - now rewrite <- Hp'.
  - apply Forall2_trans with (map c_solution results).
    + exact enhanced_from_trans.
    + exact Hall'.
    + apply Forall2_map_l, Forall2_map_r.
      eapply Forall2_impl; [|exact Hfixed]. intros c f [_ [Henh _]]. exact Henh.
Qed.

Lemma improve_loop_candidates (Number_toString : Q -> string)
    (evaluationContext : EvaluationContext) (solutions : list Solution)
    (remaining : nat) :
  forall (cycle : nat) (current : list Solution) (recorded : list Improvement)
         (final : list Solution) (cycle' : nat) (recorded' : list Improvement),
    improve_loop Number_toString evaluationContext remaining cycle current recorded
    = Return (final, cycle', recorded') ->
    candidates_of solutions current -> candidates_of solutions final.
Proof.
  induction remaining as [|remaining IH];
    intros cycle current recorded final cycle' recorded' Hrun Hcur.
  - cbn [improve_loop] in Hrun. inversion Hrun; subst. exact Hcur.
  - cbn [improve_loop] in Hrun.
    destruct (criticPhase Number_toString current evaluationContext)
      as [results|e] eqn:Hcritic; [|discriminate].
    cbn [bind] in Hrun.
    destruct (fixerPhase Number_toString results evaluationContext)
      as [fixed|e] eqn:Hfixer; [|discriminate].
    cbn [bind] in Hrun.
    apply criticPhase_results in Hcritic. destruct Hcritic as [_ [Hperm _]].
    apply fixerPhase_results in Hfixer.
    destruct (significantImprovement (calculateImprovement results fixed)).
    + apply IH in Hrun; [exact Hrun|].
      eapply candidates_of_step; eassumption.
    + inversion Hrun; subst. exact Hcur.
Qed.

Lemma sorted_desc_map {A : Type} (key : A -> Q) (l : list A) :
  sorted_desc key l -> sorted_desc (fun q => q) (map key l).
Proof.
  unfold sorted_desc. intro H. induction H as [|x l Hl IH Hx]; cbn [map].
  - constructor.
  - constructor; [exact IH|]. apply Forall_map. exact Hx.
Qed.

Lemma candidates_of_length (solutions current : list Solution) :
  candidates_of solutions current -> List.length current = List.length solutions.
Proof.
  intros [arranged [Hperm Hall]].
  rewrite <- (Forall2_length Hall). now apply Permutation_length.
Qed.

Lemma evaluateAndImprove_result (Number_toString : Q -> string)
    (solutions : list Solution) (evaluationContext : EvaluationContext)
    (r : ImprovementCycleResult) :
  evaluateAndImprove Number_toString solutions evaluationContext = Return r ->
  originalSolutions r = solutions
  /\ candidates_of solutions (finalSolutions r)
  /\ List.length (finalSolutions r) = List.length solutions
  /\ List.length (finalScores r) = List.length solutions
  /\ sorted_desc (fun score => score) (finalScores r).
Proof.
  intro Hrun. unfold evaluateAndImprove in Hrun.
  destruct (improve_loop Number_toString evaluationContext maxCycles 0 solutions [])
    as [[[final cycle'] recorded']|e] eqn:Hloop; [|discriminate].
  cbn [bind] in Hrun.
  destruct (criticPhase Number_toString final evaluationContext)
    as [results|e] eqn:Hcritic; [|discriminate].
  cbn [bind] in Hrun. inversion Hrun; subst r; clear Hrun.
  cbn [originalSolutions finalSolutions finalScores].
  pose proof (improve_loop_candidates _ _ solutions _ _ _ _ _ _ _ Hloop
                (candidates_of_refl solutions)) as Hcand.
  pose proof (candidates_of_length _ _ Hcand) as Hlen.
  destruct (criticPhase_results _ _ _ _ Hcritic) as [Hsorted [Hperm [_ Hall]]].
  split; [reflexivity|]. split; [exact Hcand|]. split; [exact Hlen|].
  split.
  - rewrite length_map, <- Hlen, <- (Permutation_length Hperm), length_map.
    reflexivity.
  - now apply sorted_desc_map.
Qed.

(** X19.  [evaluateAndImprove] throws only on a malformed solution.
    Otherwise the final solutions are the candidates in some order, each
    with all its properties but the enhancement properties unchanged;
    there are as many final solutions and final scores as candidates, and
    the final scores are in decreasing order. *)
Theorem evaluateAndImprove_keeps_candidates (Number_toString : Q -> string)
    (solutions : list Solution) (evaluationContext : EvaluationContext) :
  match evaluateAndImprove Number_toString solutions evaluationContext with
  | Return r =>
      originalSolutions r = solutions
      /\ candidates_of solutions (finalSolutions r)
      /\ List.length (finalSolutions r) = List.length solutions
      /\ List.length (finalScores r) = List.length solutions
      /\ sorted_desc (fun score => score) (finalScores r)
  | Throw _ => forallb risks_ok solutions = false
  end.
Proof.
  destruct (evaluateAndImprove Number_toString solutions evaluationContext)
    as [r|e] eqn:Hrun.
  - exact (evaluateAndImprove_result _ _ _ _ Hrun).
  - destruct (forallb risks_ok solutions) eqn:Hok; [|reflexivity].
    destruct (evaluateAndImprove_returns Number_toString solutions evaluationContext Hok)
      as [r Hr].
    congruence.
Qed.

(** ** Suggestions for a blocked task *)

Lemma generateAlternativeSolutions_result (taskData : TaskData) (ctx : SprintContext) :
  exists alternatives,
    generateAlternativeSolutions taskData (Some ctx) = Return alternatives
    /\ List.length alternatives
       = (match sc_allowInnovation ctx with Some false => 2 | _ => 3 end)%nat
    /\ forallb risks_ok alternatives = true
    /\ map (fun s => JsMap.get s "name") alternatives
       = firstn (List.length alternatives)
           [Some (JStr "Conservative Implementation");
            Some (JStr "Balanced Implementation");
            Some (JStr "Innovative Implementation")]
    /\ map (fun s => JsMap.get s "complexity") alternatives
       = firstn (List.length alternatives)
           [Some (JNum (num_or (td_complexity taskData) (5 # 10) * (6 # 10)));
            Some (JNum (num_or (td_complexity taskData) (5 # 10)));
            Some (JNum (num_or (td_complexity taskData) (5 # 10) * (12 # 10)))].
Proof.
  unfold generateAlternativeSolutions. cbv zeta.
  destruct (sc_allowInnovation ctx) as [[|]|];
    (eexists; split; [reflexivity|]; repeat split).
Qed.

Lemma generateImprovementSuggestions_result (Number_toString : Q -> string)
    (taskData : TaskData) (ctx : SprintContext) (verificationResult : VerificationResult) :
  exists alternatives improved,
    generateAlternativeSolutions taskData (Some ctx) = Return alternatives
    /\ evaluateAndImprove Number_toString alternatives (evaluation_context ctx)
       = Return improved
    /\ generateImprovementSuggestions Number_toString taskData (Some ctx)
         verificationResult
       = Return (AlternativeSolutions (List.length alternatives)
                   (finalSolutions improved) (cycles improved)
                   (cycle_avgImprovement improved))
    /\ candidates_of alternatives (finalSolutions improved).
Proof.
  destruct (generateAlternativeSolutions_result taskData ctx)
    as [alternatives [Halt [Hlen [Hok _]]]].
  destruct (evaluateAndImprove_returns Number_toString alternatives
              (evaluation_context ctx) Hok) as [improved Himp].
  destruct (evaluateAndImprove_result _ _ _ _ Himp) as [_ [Hcand [Hfinal _]]].
  exists alternatives, improved. split; [exact Halt|]. split; [exact Himp|].
  split; [|exact Hcand].
  unfold generateImprovementSuggestions. rewrite Halt. cbn [bind].
  assert (Hpos : (0 <? List.length alternatives)%nat = true).
  { apply Nat.ltb_lt. rewrite Hlen. destruct (sc_allowInnovation ctx) as [[|]|]; lia. }
  rewrite Hpos, Himp. cbn [bind]. rewrite Hfinal.
  rewrite firstn_all2; [reflexivity|].
  rewrite Hfinal, Hlen. destruct (sc_allowInnovation ctx) as [[|]|]; lia.
Qed.

(** X20.  For a blocked task with a sprint context the suggestions are
    always alternative solutions, never the verification guidance:
    [generateAlternativeSolutions] yields the conservative, the balanced
    and, unless innovation is disallowed, the innovative alternative, of
    0.6, 1 and 1.2 times the task's complexity, which the critic-fixer
    evaluates without throwing, and all of them are returned. *)
Theorem generateImprovementSuggestions_never_falls_back (Number_toString : Q -> string)
    (taskData : TaskData) (ctx : SprintContext) (verificationResult : VerificationResult) :
  exists alternatives count solutions cyclesRun averageImprovement,
    generateAlternativeSolutions taskData (Some ctx) = Return alternatives
    /\ List.length alternatives
       = (match sc_allowInnovation ctx with Some false => 2 | _ => 3 end)%nat
    /\ map (fun s => JsMap.get s "name") alternatives
       = firstn (List.length alternatives)
           [Some (JStr "Conservative Implementation");
            Some (JStr "Balanced Implementation");
            Some (JStr "Innovative Implementation")]
    /\ map (fun s => JsMap.get s "complexity") alternatives
       = firstn (List.length alternatives)
           [Some (JNum (num_or (td_complexity taskData) (5 # 10) * (6 # 10)));
            Some (JNum (num_or (td_complexity taskData) (5 # 10)));
            Some (JNum (num_or (td_complexity taskData) (5 # 10) * (12 # 10)))]
    /\ generateImprovementSuggestions Number_toString taskData (Some ctx)
         verificationResult
       = Return (AlternativeSolutions count solutions cyclesRun averageImprovement)
    /\ count = List.length alternatives
    /\ List.length solutions = count
    /\ candidates_of alternatives solutions.
Proof.
  destruct (generateImprovementSuggestions_result Number_toString taskData ctx
              verificationResult) as [alternatives [improved [Halt [Himp [Hgen Hcand]]]]].
  destruct (generateAlternativeSolutions_result taskData ctx)
    as [alternatives' [Halt' [Hlen [_ [Hnames Hcomplexity]]]]].
  assert (alternatives' = alternatives) by congruence. subst alternatives'.
  exists alternatives. do 4 eexists.
  split; [exact Halt|]. split; [exact Hlen|]. split; [exact Hnames|].
  split; [exact Hcomplexity|]. split; [exact Hgen|]. split; [reflexivity|].
  split; [now apply candidates_of_length | exact Hcand].
Qed.

(** ** Sprint compliance *)

Lemma calculateGoalAlignment_bounds (taskData : TaskData) (goals : list string) :
  0 <= calculateGoalAlignment taskData goals /\ calculateGoalAlignment taskData goals <= 1.
Proof.
  unfold calculateGoalAlignment. cbv zeta.
  destruct (List.length (flat_map extractKeywords goals) =? 0)%nat eqn:E;
    [closed_bounds|].
  apply Nat.eqb_neq in E. split; [|apply Q.le_min_l].
  apply Q.min_glb; [discriminate|].
  assert (Hpos : 0 < Qnat (List.length (flat_map extractKeywords goals)))
    by (apply Qnat_pos; lia).
  apply Qle_shift_div_l; [lra|]. rewrite Qmult_0_l. apply Qnat_nonneg.
Qed.

Lemma calculateQualityCompliance_bounds (taskData : TaskData)
    (qualityStandards : QualityStandards) :
  5 # 10 <= calculateQualityCompliance taskData qualityStandards
  /\ calculateQualityCompliance taskData qualityStandards <= 1.
Proof.
  unfold calculateQualityCompliance. cbv zeta.
  destruct (is_true (requireTesting qualityStandards) && truthy_opt (td_testing taskData));
    destruct (is_true (requireDocumentation qualityStandards)
              && is_true (td_documentation taskData));
    destruct (is_true (requireArchitecture qualityStandards)
              && truthy_opt (td_architecture taskData));
    (destruct (minimumComplexity qualityStandards) as [m|];
     [destruct (negb (Qeqb m 0) && num_le (Some m) (td_complexity taskData))|]);
    closed_bounds.
Qed.

(** [calculateConstraintAdherence] throws only on a truthy
    [requiredPatterns] that is not an array. *)
Lemma calculateConstraintAdherence_result (Number_toString : Q -> string)
    (taskData : TaskData) (constraints : json) :
  match calculateConstraintAdherence Number_toString taskData constraints with
  | Return adherence => 5 # 10 <= adherence /\ adherence <= 1
  | Throw _ => malformed_patterns constraints = true
  end.
Proof.
  unfold calculateConstraintAdherence, malformed_patterns. cbv zeta.
  destruct (truthy_opt (field constraints "maxComplexity")
            && num_lt (number_of (field constraints "maxComplexity"))
                 (td_complexity taskData));
    (destruct (field constraints "requiredPatterns") as [patterns|]; [|closed_bounds]);
    (destruct (truthy patterns) eqn:Ht; [|closed_bounds]);
    destruct patterns as [|b|q|s|items|fs]; try reflexivity; try discriminate;
    match goal with |- context [negb ?b] => destruct b end; closed_bounds.
Qed.

Lemma calculateSprintCompliance_result (Number_toString : Q -> string)
    (taskData : TaskData) (ctx : SprintContext) :
  match calculateSprintCompliance Number_toString taskData (Some ctx) with
  | Return compliance =>
      exists overall f,
        overallCompliance compliance = Some overall
        /\ factors compliance = Some f
        /\ (0 <= goalAlignment f /\ goalAlignment f <= 1)
        /\ (5 # 10 <= constraintAdherence f /\ constraintAdherence f <= 1)
        /\ (5 # 10 <= qualityCompliance f /\ qualityCompliance f <= 1)
        /\ overall == goalAlignment f * (4 # 10) + constraintAdherence f * (3 # 10)
                      + qualityCompliance f * (3 # 10)
        /\ (3 # 10 <= overall /\ overall <= 1)
  | Throw _ =>
      exists constraints,
        sc_constraints ctx = Some constraints /\ truthy constraints = true
        /\ malformed_patterns constraints = true
  end.
Proof.
  unfold calculateSprintCompliance. cbv zeta.
  destruct (sc_goals ctx) as [goals|];
    [destruct (0 <? List.length goals)%nat;
     [pose proof (calculateGoalAlignment_bounds taskData goals) as Hg;
      set (g := calculateGoalAlignment taskData goals) in *|]|];
    (destruct (sc_constraints ctx) as [constraints|];
     [destruct (truthy constraints) eqn:Ht;
      [pose proof (calculateConstraintAdherence_result Number_toString taskData
                     constraints) as Hca;
       destruct (calculateConstraintAdherence Number_toString taskData constraints)
         as [c|e]|]|]);
    cbn [bind];
    try (exists constraints; repeat split; assumption);
    (destruct (sc_qualityStandards ctx) as [standards|];
     [pose proof (calculateQualityCompliance_bounds taskData standards) as Hq;
      set (q := calculateQualityCompliance taskData standards) in *|]);
    cbv beta iota;
    (do 2 eexists; split; [reflexivity|]; split; [reflexivity|];
     cbn [goalAlignment constraintAdherence qualityCompliance];
     match goal with
     | |- context [Qmin 1 ?X] =>
         destruct (Q.min_spec 1 X) as [[Hlt Hmin]|[Hle Hmin]];
         [exfalso; lra | rewrite Hmin; repeat split; lra]
     end).
Qed.

(** X21.  [calculateSprintCompliance] throws only when the constraints
    hold a truthy [requiredPatterns] that is not an array.  Otherwise goal
    alignment lies in [0, 1], constraint adherence and quality compliance
    in [0.5, 1], and the overall compliance is 0.4, 0.3 and 0.3 times
    them, between 0.3 and 1.  For a context without goals, constraints
    and quality standards it is 0.83. *)
Theorem calculateSprintCompliance_range (Number_toString : Q -> string)
    (taskData : TaskData) (ctx : SprintContext) :
  match calculateSprintCompliance Number_toString taskData (Some ctx) with
  | Return compliance =>
      exists overall f,
        overallCompliance compliance = Some overall
        /\ factors compliance = Some f
        /\ (0 <= goalAlignment f /\ goalAlignment f <= 1)
        /\ (5 # 10 <= constraintAdherence f /\ constraintAdherence f <= 1)
        /\ (5 # 10 <= qualityCompliance f /\ qualityCompliance f <= 1)
        /\ overall == goalAlignment f * (4 # 10) + constraintAdherence f * (3 # 10)
                      + qualityCompliance f * (3 # 10)
        /\ (3 # 10 <= overall /\ overall <= 1)
  | Throw _ =>
      exists constraints,
        sc_constraints ctx = Some constraints /\ truthy constraints = true
        /\ malformed_patterns constraints = true
  end
  /\ (sc_goals ctx = None -> sc_constraints ctx = None -> sc_qualityStandards ctx = None ->
      exists compliance,
        calculateSprintCompliance Number_toString taskData (Some ctx) = Return compliance
        /\ option_map Qred (overallCompliance compliance) = Some (83 # 100)).
Proof.
  split; [apply calculateSprintCompliance_result|].
  intros Hg Hc Hq. unfold calculateSprintCompliance. rewrite Hg, Hc, Hq.
  eexists. split; reflexivity.
Qed.

(** ** The phases of the pipeline *)

Section Phases.

Variable Number_toString : Q -> string.
Variable Math_pow : Q -> Q -> Q.

Lemma updateAgentELO_frame (env : Env) (agentId : string) (taskResult : TaskResult)
    (sprintCompliance : SprintCompliance) (this : Engine) :
  let this' := snd (updateAgentELO Math_pow env agentId taskResult sprintCompliance this) in
  stats this' = stats this
  /\ verificationLayer this' = verificationLayer this
  /\ agentPerformanceCache this' = agentPerformanceCache this
  /\ continuousLearning this' = continuousLearning this
  /\ memoryFile this' = memoryFile this.
Proof.
  cbv zeta. unfold updateAgentELO.
  destruct (updateAgentRating Math_pow env agentId taskResult sprintCompliance
              (eloSystem this)) as [update elo].
  repeat split.
Qed.

Lemma blocked_branch_stats (env : Env) (agentId : string)
    (sprintContext : option SprintContext) (verificationResult : VerificationResult)
    (st st' : PState) (thrown : option JsError) :
  blocked_branch Number_toString Math_pow env agentId sprintContext verificationResult st
  = (thrown, st') ->
  stats (ps_engine st') = inc_verificationsBlocked (stats (ps_engine st)).
Proof.
  unfold blocked_branch.
  destruct (generateImprovementSuggestions Number_toString (ps_task st) sprintContext
              verificationResult) as [suggestions|e].
  - match goal with
    | |- context [updateAgentELO Math_pow env agentId ?tr ?sc ?this] =>
        pose proof (updateAgentELO_frame env agentId tr sc this) as Hframe;
        destruct (updateAgentELO Math_pow env agentId tr sc this) as [update this']
    end.
    cbn [snd] in Hframe. destruct Hframe as [Hstats _].
    intro H. inversion H; subst. cbn [ps_engine]. rewrite Hstats. reflexivity.
  - intro H. inversion H; subst. reflexivity.
Qed.

Lemma blocked_branch_with_context (env : Env) (agentId : string) (ctx : SprintContext)
    (verificationResult : VerificationResult) (st : PState) :
  exists count solutions cyclesRun averageImprovement st',
    blocked_branch Number_toString Math_pow env agentId (Some ctx) verificationResult st
    = (None, st')
    /\ finalResult (ps_result st')
       = Some (Blocked "verification_failed" (vr_score verificationResult)
                 (vr_checks verificationResult)
                 (AlternativeSolutions count solutions cyclesRun averageImprovement))
    /\ p_improvements (ps_result st')
       = AlternativeSolutions count solutions cyclesRun averageImprovement
    /\ phases (ps_result st') = phases (ps_result st)
    /\ ps_task st' = ps_task st.
Proof.
  unfold blocked_branch.
  destruct (generateImprovementSuggestions_result Number_toString (ps_task st) ctx
              verificationResult) as [alternatives [improved [_ [_ [Hgen _]]]]].
  rewrite Hgen.
  destruct (updateAgentELO _ _ _ _ _ _) as [update this'].
  do 5 eexists. split; [reflexivity|]. repeat split.
Qed.

Lemma criticFixer_phase_result (sprintContext : option SprintContext)
    (st st' : PState) (thrown : option JsError) :
  criticFixer_phase Number_toString sprintContext st = (thrown, st') ->
  match thrown with
  | Some e =>
      st' = st
      /\ exists solutions,
           td_solutions (ps_task st) = Some solutions
           /\ match sprintContext with
              | Some ctx => forallb risks_ok solutions = false
              | None => True
              end
  | None =>
      (stats (ps_engine st') = stats (ps_engine st)
       \/ stats (ps_engine st') = inc_improvementCycles (stats (ps_engine st)))
      /\ finalResult (ps_result st') = finalResult (ps_result st)
      /\ ph_verification (phases (ps_result st'))
         = ph_verification (phases (ps_result st))
  end.
Proof.
  unfold criticFixer_phase.
  destruct (td_solutions (ps_task st)) as [solutions|] eqn:Hsol;
    [|intro H; inversion H; subst; auto].
  destruct (continuousLearning (ps_engine st) && (1 <? List.length solutions)%nat);
    [|intro H; inversion H; subst; auto].
  destruct sprintContext as [ctx|].
  - destruct (evaluateAndImprove Number_toString solutions (evaluation_context ctx))
      as [improved|e] eqn:Himp; intro H; inversion H; subst; clear H.
    + cbn [ps_engine ps_result stats with_stats finalResult set_phases phases
           ph_verification].
      split; [right; reflexivity|]. split; reflexivity.
    + split; [reflexivity|]. exists solutions. split; [reflexivity|].
      destruct (forallb risks_ok solutions) eqn:Hok; [|reflexivity].
      destruct (evaluateAndImprove_returns Number_toString solutions
                  (evaluation_context ctx) Hok) as [r Hr].
      congruence.
  - intro H; inversion H; subst. split; [reflexivity|].
    exists solutions. split; [reflexivity | exact I].
Qed.

Lemma rating_phase_result (env : Env) (agentId : string)
    (sprintContext : option SprintContext) (verificationResult : VerificationResult)
    (st st' : PState) (thrown : option JsError) :
  rating_phase Number_toString Math_pow env agentId sprintContext verificationResult st
  = (thrown, st') ->
  match thrown with
  | Some e =>
      st' = st
      /\ calculateSprintCompliance Number_toString (ps_task st) sprintContext = Throw e
  | None =>
      stats (ps_engine st') = inc_agentsRanked (stats (ps_engine st))
      /\ ph_verification (phases (ps_result st'))
         = ph_verification (phases (ps_result st))
      /\ exists update compliance,
           ph_eloUpdate (phases (ps_result st')) = Some update
           /\ finalResult (ps_result st')
              = Some (Approved (vr_score verificationResult) (newRating update)
                        (performanceClass update) compliance
                        (is_true (td_enhanced (ps_task st))))
  end.
Proof.
  unfold rating_phase.
  destruct (calculateSprintCompliance Number_toString (ps_task st) sprintContext)
    as [compliance|e].
  - match goal with
    | |- context [updateAgentELO Math_pow env agentId ?tr ?sc ?this] =>
        pose proof (updateAgentELO_frame env agentId tr sc this) as Hframe;
        destruct (updateAgentELO Math_pow env agentId tr sc this) as [update this']
    end.
    cbn [snd] in Hframe. destruct Hframe as [Hstats _].
    intro H. inversion H; subst; clear H.
    cbn [ps_engine ps_result phases set_final set_phases ph_verification ph_eloUpdate
         finalResult].
    split.
    + match goal with
      | |- stats (if ?b then _ else ?e) = _ =>
          transitivity (stats e); [destruct b; reflexivity|]
      end.
      cbn [stats with_stats]. now rewrite Hstats.
    + split; [reflexivity|]. do 2 eexists. split; reflexivity.
  - intro H. inversion H; subst. split; reflexivity.
Qed.

Lemma process_try_without_context (env : Env) (agentId : string) (st : PState) :
  process_try Number_toString Math_pow env agentId None st
  = (Some (TypeError "Cannot read properties of undefined (reading 'goals')"), st).
Proof. reflexivity. Qed.

(** The paths through the [try] block when a sprint context is given. *)
Lemma process_try_with_context (env : Env) (agentId : string) (ctx : SprintContext)
    (st : PState) :
  exists v layer file thrown st',
    enforceVerification Number_toString env (ps_task st) (Some ctx)
      (verificationLayer (ps_engine st)) (memoryFile (ps_engine st))
    = Return (v, layer, file)
    /\ process_try Number_toString Math_pow env agentId (Some ctx) st = (thrown, st')
    /\ ph_verification (phases (ps_result st')) = Some v
    /\ if vr_verified v then
         match thrown with
         | None =>
             (stats (ps_engine st')
              = inc_agentsRanked (inc_verificationsPassed (stats (ps_engine st)))
              \/ stats (ps_engine st')
                 = inc_agentsRanked
                     (inc_improvementCycles
                        (inc_verificationsPassed (stats (ps_engine st)))))
             /\ exists update compliance enhanced,
                  ph_eloUpdate (phases (ps_result st')) = Some update
                  /\ finalResult (ps_result st')
                     = Some (Approved (vr_score v) (newRating update)
                               (performanceClass update) compliance enhanced)
         | Some _ =>
             (stats (ps_engine st') = inc_verificationsPassed (stats (ps_engine st))
              \/ stats (ps_engine st')
                 = inc_improvementCycles
                     (inc_verificationsPassed (stats (ps_engine st))))
             /\ finalResult (ps_result st') = finalResult (ps_result st)
             /\ malformed_input (ps_task st) ctx
         end
       else
         thrown = None
         /\ stats (ps_engine st') = inc_verificationsBlocked (stats (ps_engine st))
         /\ ps_task st' = ps_task st
         /\ exists count solutions cyclesRun averageImprovement,
              finalResult (ps_result st')
              = Some (Blocked "verification_failed" (vr_score v) (vr_checks v)
                        (AlternativeSolutions count solutions cyclesRun
                           averageImprovement))
              /\ p_improvements (ps_result st')
                 = AlternativeSolutions count solutions cyclesRun averageImprovement.
Proof.
  destruct (enforceVerification_returns Number_toString env (ps_task st) ctx
              (verificationLayer (ps_engine st)) (memoryFile (ps_engine st)))
    as [v [layer [file Hverify]]].
  exists v, layer, file.
  unfold process_try. rewrite Hverify.
  destruct (vr_verified v) eqn:Hv; cbn [negb].
  - match goal with
    | |- context [criticFixer_phase Number_toString (Some ctx) ?s] =>
        set (st2 := s);
        destruct (criticFixer_phase Number_toString (Some ctx) st2)
          as [[e|] st3] eqn:Hcf
    end.
    + apply criticFixer_phase_result in Hcf.
      destruct Hcf as [Hsame [solutions [Hsol Hbad]]]. subst st3.
      do 2 eexists. split; [reflexivity|]. split; [reflexivity|].
      split; [reflexivity|].
      split; [left; reflexivity|]. split; [reflexivity|].
      left. exists solutions. split; assumption.
    + apply criticFixer_phase_result in Hcf.
      destruct Hcf as [Hstats [Hfinal Hphase]].
      destruct (rating_phase Number_toString Math_pow env agentId (Some ctx) v st3)
        as [[e|] st4] eqn:Hrating.
      * apply rating_phase_result in Hrating. destruct Hrating as [Hsame Hthrow].
        subst st4. do 2 eexists. split; [reflexivity|]. split; [reflexivity|].
        split; [rewrite Hphase; reflexivity|].
        split; [destruct Hstats as [Hs|Hs]; rewrite Hs; [left|right]; reflexivity|].
        split; [rewrite Hfinal; reflexivity|].
        right.
        pose proof (calculateSprintCompliance_result Number_toString (ps_task st3) ctx)
          as Hcompliance.
        rewrite Hthrow in Hcompliance. exact Hcompliance.
      * apply rating_phase_result in Hrating.
        destruct Hrating as [Hranked [Hphase' [update [compliance [Hupdate Hfin]]]]].
        do 2 eexists. split; [reflexivity|]. split; [reflexivity|].
        split; [rewrite Hphase', Hphase; reflexivity|].
        split.
        -- rewrite Hranked.
           destruct Hstats as [Hs|Hs]; rewrite Hs; [left|right]; reflexivity.
        -- do 3 eexists. split; [exact Hupdate | exact Hfin].
  - match goal with
    | |- context [blocked_branch Number_toString Math_pow env agentId (Some ctx) v ?s] =>
        set (st2 := s);
        destruct (blocked_branch_with_context env agentId ctx v st2)
          as [count [solutions [cyclesRun [averageImprovement [st3 Hb]]]]]
    end.
    destruct Hb as [Hrun [Hfinal [Himp [Hphases Htask]]]].
    pose proof (blocked_branch_stats _ _ _ _ _ _ _ Hrun) as Hstats.
    rewrite Hrun. exists None, st3. split; [reflexivity|]. split; [reflexivity|].
    split; [rewrite Hphases; reflexivity|].
    split; [reflexivity|]. split; [exact Hstats|]. split; [exact Htask|].
    exists count, solutions, cyclesRun, averageImprovement.
    split; assumption.
Qed.

End Phases.

(** ** Verdicts and counters *)

Lemma processAgentTask_verdict (Number_toString : Q -> string)
    (Math_pow : Q -> Q -> Q) (env : Env) (agentId : string) (task : TaskData)
    (ctx : SprintContext) (this : Engine) :
  let out :=
    processAgentTask Number_toString Math_pow env agentId (Some task) (Some ctx) this in
  exists r v f,
    completion out = Return r
    /\ ph_verification (phases r) = Some v
    /\ finalResult r = Some f
    /\ match f with
       | Blocked reason score guidance suggestions =>
           vr_verified v = false
           /\ reason = "verification_failed"
           /\ score = vr_score v
           /\ guidance = vr_checks v
           /\ p_improvements r = suggestions
           /\ (exists count solutions cyclesRun averageImprovement,
                 suggestions
                 = AlternativeSolutions count solutions cyclesRun averageImprovement)
           /\ taskData_after out = Some task
       | Approved score rating class compliance enhanced =>
           vr_verified v = true
           /\ score = vr_score v
           /\ exists update,
                ph_eloUpdate (phases r) = Some update
                /\ rating = newRating update /\ class = performanceClass update
       | Failed _ => vr_verified v = true /\ malformed_input task ctx
       end.
Proof.
  cbv zeta. unfold processAgentTask.
  destruct (process_try_with_context Number_toString Math_pow env agentId ctx
              (initial_state env agentId task (with_stats this inc_totalTasks)))
    as [v [layer [file [thrown [st' [_ [Hrun [Hphase Hpath]]]]]]]].
  rewrite Hrun.
  destruct (vr_verified v) eqn:Hv.
  - destruct thrown as [e|].
    + destruct Hpath as [_ [_ Hbad]].
      do 3 eexists. cbn [completion]. split; [reflexivity|].
      split; [exact Hphase|]. split; [reflexivity|]. split; [exact Hv | exact Hbad].
    + destruct Hpath as [_ [update [compliance [enhanced [Hupdate Hfinal]]]]].
      do 3 eexists. cbn [completion]. split; [reflexivity|].
      split; [exact Hphase|]. split; [exact Hfinal|].
      split; [exact Hv|]. split; [reflexivity|].
      exists update. repeat split. exact Hupdate.
  - destruct Hpath as [Hthrown [_ [Htask [count [solutions [cyclesRun
                        [averageImprovement [Hfinal Himp]]]]]]]].
    subst thrown. do 3 eexists. cbn [completion taskData_after].
    split; [reflexivity|]. split; [exact Hphase|]. split; [exact Hfinal|].
    split; [exact Hv|]. split; [reflexivity|]. split; [reflexivity|].
    split; [reflexivity|]. split; [exact Himp|].
    split; [do 4 eexists; reflexivity|]. now rewrite Htask.
Qed.

(** X22.  With a sprint context a task whose verification fails is always
    blocked, never an error: the result carries the verification record's
    score and checks and alternative solutions as suggestions, and the
    task is untouched.  A task whose verification passes is approved with
    the updated rating, or ends as an error, which happens only on
    malformed solutions or malformed constraints.  Without a sprint
    context every task ends as an error and only the task counter
    moves. *)
Theorem processAgentTask_with_context (Number_toString : Q -> string)
    (Math_pow : Q -> Q -> Q) (env : Env) (agentId : string) (task : TaskData)
    (ctx : SprintContext) (this : Engine) :
  (let out :=
     processAgentTask Number_toString Math_pow env agentId (Some task) (Some ctx) this in
   exists r v f,
     completion out = Return r
     /\ ph_verification (phases r) = Some v
     /\ finalResult r = Some f
     /\ match f with
        | Blocked reason score guidance suggestions =>
            vr_verified v = false
            /\ reason = "verification_failed"
            /\ score = vr_score v
            /\ guidance = vr_checks v
            /\ p_improvements r = suggestions
            /\ (exists count solutions cyclesRun averageImprovement,
                  suggestions
                  = AlternativeSolutions count solutions cyclesRun averageImprovement)
            /\ taskData_after out = Some task
        | Approved score rating class compliance enhanced =>
            vr_verified v = true
            /\ score = vr_score v
            /\ exists update,
                 ph_eloUpdate (phases r) = Some update
                 /\ rating = newRating update /\ class = performanceClass update
        | Failed _ => vr_verified v = true /\ malformed_input task ctx
        end)
  /\ (let out :=
        processAgentTask Number_toString Math_pow env agentId (Some task) None this in
      final_of out
      = Some (Failed "Cannot read properties of undefined (reading 'goals')")
      /\ engine_after out = with_stats this inc_totalTasks
      /\ taskData_after out = Some task).
Proof.
  split; [apply processAgentTask_verdict|].
  cbv zeta. unfold processAgentTask. rewrite process_try_without_context.
  repeat split.
Qed.

Lemma processAgentTask_stats (Number_toString : Q -> string) (Math_pow : Q -> Q -> Q)
    (env : Env) (agentId : string) (taskData : option TaskData)
    (sprintContext : option SprintContext) (this : Engine) :
  let s := inc_totalTasks (stats this) in
  let s' :=
    stats (engine_after (processAgentTask Number_toString Math_pow env agentId taskData
                           sprintContext this)) in
  s' = s
  \/ s' = inc_verificationsBlocked s
  \/ s' = inc_verificationsPassed s
  \/ s' = inc_improvementCycles (inc_verificationsPassed s)
  \/ s' = inc_agentsRanked (inc_verificationsPassed s)
  \/ s' = inc_agentsRanked (inc_improvementCycles (inc_verificationsPassed s)).
Proof.
  cbv zeta. unfold processAgentTask.
  destruct taskData as [task|]; [|left; reflexivity].
  destruct sprintContext as [ctx|].
  - destruct (process_try_with_context Number_toString Math_pow env agentId ctx
                (initial_state env agentId task (with_stats this inc_totalTasks)))
      as [v [layer [file [thrown [st' [_ [Hrun [_ Hpath]]]]]]]].
    rewrite Hrun. cbn [initial_state ps_engine stats with_stats] in Hpath.
    destruct (vr_verified v).
    + destruct thrown as [e|]; cbn [engine_after].
      * destruct Hpath as [[Hs|Hs] _]; rewrite Hs; tauto.
      * destruct Hpath as [[Hs|Hs] _]; rewrite Hs; tauto.
    + destruct Hpath as [Hthrown [Hs _]]. subst thrown. cbn [engine_after].
      rewrite Hs. tauto.
  - rewrite process_try_without_context. left. reflexivity.
Qed.

(** X23.  Every call of [processAgentTask] counts one more task and at
    most one more verdict, passed or blocked; no counter decreases, and
    improvement runs and rating updates of approved tasks advance only
    together with a passed verification.  The counters stay consistent:
    verdicts never outnumber tasks, and improvement runs and rankings
    never outnumber passed verifications. *)
Theorem processAgentTask_counts (Number_toString : Q -> string) (Math_pow : Q -> Q -> Q)
    (env : Env) (agentId : string) (taskData : option TaskData)
    (sprintContext : option SprintContext) (this : Engine) :
  let s := stats this in
  let s' :=
    stats (engine_after (processAgentTask Number_toString Math_pow env agentId taskData
                           sprintContext this)) in
  totalTasks s' = S (totalTasks s)
  /\ (verificationsPassed s <= verificationsPassed s')%nat
  /\ (verificationsBlocked s <= verificationsBlocked s')%nat
  /\ (verificationsPassed s' + verificationsBlocked s'
      <= S (verificationsPassed s + verificationsBlocked s))%nat
  /\ (improvementCycles s <= improvementCycles s')%nat
  /\ (improvementCycles s' + verificationsPassed s
      <= improvementCycles s + verificationsPassed s')%nat
  /\ (agentsRanked s <= agentsRanked s')%nat
  /\ (agentsRanked s' + verificationsPassed s
      <= agentsRanked s + verificationsPassed s')%nat
  /\ (counters_consistent s -> counters_consistent s').
Proof.
  cbv zeta.
  pose proof (processAgentTask_stats Number_toString Math_pow env agentId taskData
                sprintContext this) as H.
  cbv zeta in H. unfold counters_consistent.
  destruct H as [H|[H|[H|[H|[H|H]]]]]; rewrite H;
    unfold inc_agentsRanked, inc_improvementCycles, inc_verificationsPassed,
      inc_verificationsBlocked, inc_totalTasks;
    cbn [totalTasks verificationsPassed verificationsBlocked improvementCycles
         agentsRanked];
    repeat split; lia.
Qed.

(** ** The learning record of an agent *)

(** X24.  [updateContinuousLearning] appends the learning record of the
    task to the agent's history and keeps the last fifty entries; the
    histories of the other agents, the verification layer, the ranking
    system and the counters are unchanged. *)
Theorem updateContinuousLearning_keeps_fifty (env : Env) (agentId : string)
    (taskData : TaskData) (verificationResult : VerificationResult)
    (sprintCompliance : SprintCompliance) (this : Engine) :
  let this' :=
    updateContinuousLearning env agentId taskData verificationResult sprintCompliance
      this in
  let before :=
    match JsMap.get (agentPerformanceCache this) agentId with
    | Some h => h
    | None => []
    end in
  (exists after,
     JsMap.get (agentPerformanceCache this') agentId = Some after
     /\ after
        = lastn 49 before
          ++ [mkLearning agentId (now env) (td_type taskData) (td_complexity taskData)
                (vr_score verificationResult) (overallCompliance sprintCompliance)
                (vr_verified verificationResult) (is_true (td_enhanced taskData))]
     /\ List.length after = Nat.min 50 (S (List.length before)))
  /\ (forall other, other <> agentId ->
        JsMap.get (agentPerformanceCache this') other
        = JsMap.get (agentPerformanceCache this) other)
  /\ verificationLayer this' = verificationLayer this
  /\ eloSystem this' = eloSystem this
  /\ stats this' = stats this.
Proof.
  cbv zeta. unfold updateContinuousLearning. cbv zeta.
  cbn [agentPerformanceCache verificationLayer eloSystem stats].
  rewrite (push_capped 50) by lia. change (50 - 1)%nat with 49%nat.
  split; [|split; [|repeat split]].
  - eexists. split; [apply JsMap_get_set_same|]. split; [reflexivity|].
    change 49%nat with (50 - 1)%nat. apply push_capped_length. lia.
  - intros other Hne. apply JsMap_get_set_other. now apply eqb_neq_sym.
Qed.

(** ** Guidance after a failed verification *)

Lemma push_unless_passed_length (guidance : list string) (check : CheckResult)
    (message : string) :
  List.length (push_unless_passed guidance check message)
  = (List.length guidance + (if cr_passed check then 0 else 1))%nat.
Proof.
  unfold push_unless_passed. destruct (cr_passed check); cbn [negb].
  - lia.
  - rewrite length_app. reflexivity.
Qed.

Lemma failed_entries_names (entries : list (string * CheckResult)) :
  map fc_name
    (map (fun '(name, check) => mkFailedCheck name (cr_score check) (cr_details check))
       (filter (fun '(_, check) => negb (cr_passed check)) entries))
  = map fst (filter (fun e => negb (cr_passed (snd e))) entries)
  /\ map fc_score
       (map (fun '(name, check) => mkFailedCheck name (cr_score check) (cr_details check))
          (filter (fun '(_, check) => negb (cr_passed check)) entries))
     = map (fun e => cr_score (snd e))
         (filter (fun e => negb (cr_passed (snd e))) entries).
Proof.
  induction entries as [|[name check] entries [IHn IHs]]; [split; reflexivity|].
  cbn [filter snd]. destruct (cr_passed check); cbn [negb map fc_name fc_score fst snd].
  - split; assumption.
  - rewrite IHn, IHs. split; reflexivity.
Qed.

Lemma guidance_actions_pairs (entries : list (string * CheckResult)) :
  Forall (fun e => List.length (guidance_actions (fst e)) = 2%nat) entries ->
  List.length
    (flat_map
       (fun '(checkName, checkResult) =>
          if negb (cr_passed checkResult) then guidance_actions checkName else [])
       entries)
  = (2 * List.length (filter (fun e => negb (cr_passed (snd e))) entries))%nat.
Proof.
  intro H. induction H as [|[name check] entries Hpair Hrest IH]; [reflexivity|].
  cbn [flat_map filter snd fst] in *. rewrite length_app, IH.
  destruct (cr_passed check); cbn [negb List.length]; [lia|].
  rewrite Hpair. lia.
Qed.

(** X25.  The rollback action names exactly the checks that did not pass,
    with their scores, in the order of the checks; it carries one line of
    improvement guidance per failed check and asks for re-execution.  The
    verification guidance of the engine has two actions per failed
    check. *)
Theorem rollback_guidance_per_failed_check (env : Env)
    (verificationResult : VerificationResult) :
  let rollback := triggerRollback env verificationResult in
  map fc_name (failedChecks rollback) = map fst (failed_checks verificationResult)
  /\ map fc_score (failedChecks rollback)
     = map (fun e => cr_score (snd e)) (failed_checks verificationResult)
  /\ improvementGuidance rollback = generateImprovementGuidance verificationResult
  /\ List.length (improvementGuidance rollback)
     = List.length (failed_checks verificationResult)
  /\ List.length (generateVerificationGuidance verificationResult)
     = (2 * List.length (failed_checks verificationResult))%nat
  /\ ra_verificationId rollback = vr_verificationId verificationResult
  /\ requiresReexecution rollback = true.
Proof.
  cbv zeta. unfold triggerRollback.
  cbn [failedChecks improvementGuidance ra_verificationId requiresReexecution].
  destruct (failed_entries_names (check_entries (vr_checks verificationResult)))
    as [Hnames Hscores].
  split; [exact Hnames|]. split; [exact Hscores|]. split; [reflexivity|].
  split; [|split; [|split; reflexivity]].
  - unfold generateImprovementGuidance. cbv zeta.
    rewrite !push_unless_passed_length.
    unfold failed_checks, check_entries. cbn [filter snd List.length].
    destruct (cr_passed (sprintAlignment (vr_checks verificationResult)));
      destruct (cr_passed (qualityStandards (vr_checks verificationResult)));
      destruct (cr_passed (crossAgentConsistency (vr_checks verificationResult)));
      destruct (cr_passed (historicalCompliance (vr_checks verificationResult)));
      destruct (cr_passed (contextAccuracy (vr_checks verificationResult)));
      reflexivity.
  - unfold generateVerificationGuidance, failed_checks.
    apply guidance_actions_pairs.
    unfold check_entries. repeat constructor.
Qed.

(** ** The commit hook *)

Lemma estimateComplexity_bounds (files : list string) :
  1 # 10 <= estimateComplexity files /\ estimateComplexity files <= 1.
Proof.
  unfold estimateComplexity. cbv zeta. split.
  - apply Q.le_max_l.
  - apply Q.max_lub; [discriminate | apply Q.le_min_r].
Qed.

Lemma estimateComplexity_counts (files : list string) :
  ((List.length files <= 2)%nat -> estimateComplexity files == 1 # 10)
  /\ ((2 <= List.length files)%nat -> (List.length files <= 20)%nat ->
      estimateComplexity files == Qnat (List.length files) / 20)
  /\ ((20 <= List.length files)%nat -> estimateComplexity files == 1).
Proof.
  unfold estimateComplexity. cbv zeta.
  set (n := List.length files).
  assert (Hdiv : Qnat n / 20 == Qnat n * (1 # 20)) by field.
  pose proof (Q.min_spec (Qnat n / 20) 1) as Hmin.
  set (m := Qmin (Qnat n / 20) 1) in *.
  pose proof (Q.max_spec (1 # 10) m) as Hmax.
  set (M := Qmax (1 # 10) m) in *.
  split; [|split].
  - intro Hn. assert (Hq : Qnat n <= 2) by (change 2 with (Qnat 2); now apply Qnat_le).
    destruct Hmin as [[? ?]|[? ?]]; destruct Hmax as [[? ?]|[? ?]]; lra.
  - intros Hlo Hhi.
    assert (Hq2 : 2 <= Qnat n) by (change 2 with (Qnat 2); now apply Qnat_le).
    assert (Hq20 : Qnat n <= 20) by (change 20 with (Qnat 20); now apply Qnat_le).
    destruct Hmin as [[? ?]|[? ?]]; destruct Hmax as [[? ?]|[? ?]]; lra.
  - intro Hn.
    assert (Hq : 20 <= Qnat n) by (change 20 with (Qnat 20); now apply Qnat_le).
    destruct Hmin as [[? ?]|[? ?]]; destruct Hmax as [[? ?]|[? ?]]; lra.
Qed.

(** X26.  The complexity that the commit hook estimates lies in
    [0.1, 1]: 0.1 up to two changed files, a twentieth of the number of
    files between two and twenty, one from twenty files on.  A commit
    therefore always carries a complexity estimate that the quality check
    accepts. *)
Theorem estimateComplexity_range (env : Env) (commitMessage : string)
    (files : list string) :
  1 # 10 <= estimateComplexity files
  /\ estimateComplexity files <= 1
  /\ ((List.length files <= 2)%nat -> estimateComplexity files == 1 # 10)
  /\ ((2 <= List.length files)%nat -> (List.length files <= 20)%nat ->
      estimateComplexity files == Qnat (List.length files) / 20)
  /\ ((20 <= List.length files)%nat -> estimateComplexity files == 1)
  /\ hasComplexityEstimate (commit_task env commitMessage files) = true.
Proof.
  destruct (estimateComplexity_bounds files) as [Hlo Hhi].
  destruct (estimateComplexity_counts files) as [H1 [H2 H3]].
  split; [exact Hlo|]. split; [exact Hhi|]. split; [exact H1|]. split; [exact H2|].
  split; [exact H3|].
  unfold hasComplexityEstimate, commit_task. cbn [td_complexity].
  rewrite !andb_true_iff, negb_true_iff. repeat split.
  - destruct (Qeqb (estimateComplexity files) 0) eqn:E; [|reflexivity].
    apply Qeqb_eq in E. lra.
  - apply Qleb_le. lra.
  - apply Qleb_le. exact Hhi.
Qed.

Lemma inferTaskType_cases (message : string) (files : list string) :
  In (inferTaskType message files) inferred_types.
Proof.
  unfold inferTaskType, inferred_types. cbv zeta.
  repeat match goal with
         | |- context [if ?b then _ else _] => destruct b
         end; cbn; tauto.
Qed.

(** X27.  The commit hook infers one of five task types, and "testing"
    whenever the commit message mentions "test".  Two of the five,
    "testing" and "refactoring", are not valid types for the quality
    check: such a commit scores at most 0.75 on quality and does not
    pass that check. *)
Theorem inferTaskType_values (env : Env) (commitMessage : string) (files : list string) :
  let task := commit_task env commitMessage files in
  In (inferTaskType commitMessage files) inferred_types
  /\ (includes_text (JsString.toLowerCase commitMessage) "test" = true ->
      inferTaskType commitMessage files = "testing")
  /\ (hasValidType task = false <->
      inferTaskType commitMessage files = "testing"
      \/ inferTaskType commitMessage files = "refactoring")
  /\ (hasValidType task = false ->
      cr_passed (verifyQualityStandards task) = false
      /\ cr_score (verifyQualityStandards task) <= 3 # 4).
Proof.
  cbv zeta. pose proof (inferTaskType_cases commitMessage files) as Hcases.
  split; [exact Hcases|]. split; [|split].
  - intro H. unfold inferTaskType. cbv zeta. now rewrite H.
  - unfold hasValidType, commit_task. cbn [td_type].
    unfold inferred_types in Hcases. cbn [In] in Hcases.
    destruct Hcases as [H|[H|[H|[H|[H|[]]]]]]; rewrite <- H; cbn;
      split; intro; try tauto; try discriminate;
      repeat match goal with Hd : _ \/ _ |- _ => destruct Hd end; discriminate.
  - intro Hinvalid.
    unfold verifyQualityStandards. cbn [cr_passed cr_score List.length].
    rewrite Hinvalid.
    destruct (hasDescription (commit_task env commitMessage files)),
      (hasComplexityEstimate (commit_task env commitMessage files)),
      (validateOutputStructure (commit_task env commitMessage files));
      vm_compute; split; congruence.
Qed.

(** X28.  With a sprint context and an initialised engine the commit hook
    runs the commit through [processAgentTask] and keeps the engine's new
    state.  The commit is valid exactly when the task is approved; a
    failed verification gives the reason with the overall score as a
    percentage; a passed one gives the reason "Aligned with sprint goals",
    also when the task ended as an error on malformed constraints.  The
    suggestions are always empty.  Without an engine the validation is
    unavailable and valid; without a sprint context it is valid. *)
Theorem validateSprintAlignment_verdict (Number_toString : Q -> string)
    (Math_pow : Q -> Q -> Q) (env : Env) (commitMessage : string)
    (changedFiles : list string) (ctx : SprintContext) (this : Engine) :
  let task := commit_task env commitMessage changedFiles in
  let out :=
    processAgentTask Number_toString Math_pow env "commit-validation" (Some task)
      (Some ctx) this in
  let validation :=
    fst (validateSprintAlignment Number_toString Math_pow env commitMessage changedFiles
           (Some ctx) (Some this)) in
  snd (validateSprintAlignment Number_toString Math_pow env commitMessage changedFiles
         (Some ctx) (Some this))
  = Some (engine_after out)
  /\ hook_suggestions validation = SuggestionList []
  /\ (exists r v f,
        completion out = Return r
        /\ ph_verification (phases r) = Some v
        /\ finalResult r = Some f
        /\ valid validation = String.eqb (status f) "approved"
        /\ (vr_verified v = false ->
            valid validation = false
            /\ reason validation
               = ("Sprint alignment score: " ++ percent (vr_score v))%string)
        /\ (vr_verified v = true ->
            reason validation = "Aligned with sprint goals"
            /\ (valid validation = false ->
                exists constraints,
                  sc_constraints ctx = Some constraints
                  /\ truthy constraints = true
                  /\ malformed_patterns constraints = true)))
  /\ validateSprintAlignment Number_toString Math_pow env commitMessage changedFiles
       (Some ctx) None
     = (validation_unavailable, None)
  /\ fst (validateSprintAlignment Number_toString Math_pow env commitMessage changedFiles
            None (Some this))
     = mkAlignmentValidation true "No active sprint context found"
         (SuggestionList
            ["Set up sprint context in .claude/oversight/current-sprint.json"]).
Proof.
  cbv zeta.
  destruct (processAgentTask_verdict Number_toString Math_pow env "commit-validation"
              (commit_task env commitMessage changedFiles) ctx this)
    as [r [v [f [Hr [Hv [Hf Hcase]]]]]].
  unfold validateSprintAlignment. rewrite Hr, Hf.
  split; [|split; [|split; [|split; reflexivity]]].
  - destruct f; cbn [status String.eqb Ascii.eqb Bool.eqb andb]; [rewrite Hv| |];
      reflexivity.
  - destruct f; cbn [status String.eqb Ascii.eqb Bool.eqb andb]; [rewrite Hv| |];
      cbn [fst]; try reflexivity.
    destruct Hcase as [_ [_ [_ [_ [Himp [[count [solutions [cyclesRun [avg Hs]]]] _]]]]]].
    rewrite Himp, Hs. reflexivity.
  - exists r, v, f. split; [reflexivity|]. split; [exact Hv|]. split; [exact Hf|].
    destruct f as [reason0 score guidance suggestions
                  |score rating class compliance enhanced|message];
      cbn [status String.eqb Ascii.eqb Bool.eqb andb]; [rewrite Hv| |];
      cbn [fst valid reason].
    + destruct Hcase as [Hfalse _]. split; [reflexivity|].
      split; [intros _; split; reflexivity|]. intro Ht. congruence.
    + destruct Hcase as [Htrue _]. split; [reflexivity|].
      split; [intro Hfalse; congruence|].
      intros _. split; [reflexivity|]. discriminate.
    + destruct Hcase as [Htrue Hbad]. split; [reflexivity|].
      split; [intro Hfalse; congruence|].
      intros _. split; [reflexivity|]. intros _.
      destruct Hbad as [[solutions [Hsol _]]|Hbad]; [discriminate Hsol | exact Hbad].
Qed.

(** ** Reports on an agent *)

(** X29.  The statistics of an agent count the whole history and the last
    ten entries of it; the trend is "up" when the mean rating change of
    those entries exceeds 5, "down" when it is below -5 and "stable"
    otherwise.  An agent without history has no tasks, a mean change of
    "0.0" and a stable trend; an agent without rating is reported at
    "1500", class "Developing". *)
Theorem getAgentStats_summary (agentId : string) (this : AgentELORankingSystem) :
  let s := getAgentStats agentId this in
  let average := recentAvgRatingChange (agent_history this agentId) in
  as_totalTasks s = List.length (agent_history this agentId)
  /\ as_recentTasks s = Nat.min 10 (as_totalTasks s)
  /\ as_performanceClass s = classifyPerformance (agent_rating this agentId)
  /\ (as_trending s = "up" <-> 5 < average)
  /\ (as_trending s = "down" <-> average < -5)
  /\ (as_trending s = "stable" <-> -5 <= average /\ average <= 5)
  /\ (JsMap.get (performanceHistory this) agentId = None ->
      as_totalTasks s = 0%nat /\ as_recentAvgRatingChange s = "0.0"
      /\ as_trending s = "stable")
  /\ (JsMap.get (agentRatings this) agentId = None ->
      as_currentRating s = "1500" /\ as_performanceClass s = "Developing").
Proof.
  cbv zeta. unfold getAgentStats. cbv zeta.
  cbn [as_totalTasks as_recentTasks as_performanceClass as_trending
       as_recentAvgRatingChange as_currentRating].
  split; [reflexivity|]. split; [apply lastn_length|]. split; [reflexivity|].
  set (average := recentAvgRatingChange (agent_history this agentId)).
  assert (Htrend :
    ((if Qltb 5 average then "up" else if Qltb average (-5) then "down" else "stable")
     = "up" <-> 5 < average)
    /\ ((if Qltb 5 average then "up" else if Qltb average (-5) then "down" else "stable")
        = "down" <-> average < -5)
    /\ ((if Qltb 5 average then "up" else if Qltb average (-5) then "down" else "stable")
        = "stable" <-> -5 <= average /\ average <= 5)).
  { destruct (Qltb 5 average) eqn:Eup.
    - apply Qltb_lt in Eup.
      repeat split; intros; try discriminate; try assumption; try lra.
    - apply Qltb_false_le in Eup. destruct (Qltb average (-5)) eqn:Edown.
      + apply Qltb_lt in Edown.
        repeat split; intros; try discriminate; try assumption; try lra.
      + apply Qltb_false_le in Edown.
        repeat split; intros; try discriminate; try assumption; try lra. }
  destruct Htrend as [Hup [Hdown Hstable]].
  split; [exact Hup|]. split; [exact Hdown|]. split; [exact Hstable|]. split.
  - intro Hnone. subst average. unfold agent_history. rewrite Hnone.
    repeat split.
  - intro Hnone. unfold agent_rating. rewrite Hnone. split; reflexivity.
Qed.

Lemma Qfloor_lt_iff (y : Q) (n : Z) : (Qfloor y < n)%Z <-> y < inject_Z n.
Proof.
  split; intro H.
  - apply Qlt_le_trans with (inject_Z (Qfloor y + 1)); [apply Qlt_floor|].
    rewrite <- Zle_Qle. lia.
  - rewrite Zlt_Qlt. apply Qle_lt_trans with y; [apply Qfloor_le | exact H].
Qed.

Lemma fixed_value_nonneg (x : Q) :
  0 <= x -> fixed_value x = Qfloor (x + (1 # 2)).
Proof.
  intro Hx. unfold fixed_value, fixed_digits.
  replace (Qltb x 0) with false by (symmetry; now apply Qltb_false_le).
  apply Qfloor_comp. rewrite (Qabs_pos x Hx).
  change (inject_Z (10 ^ Z.of_nat 0)) with 1. ring.
Qed.

(** X30.  The rating-based recommendation is decided on the rating rounded
    to an integer: for an agent without learning history and a
    non-negative rating, the advice is to complete basic tasks below
    1399.5, to take on complex tasks from 1800.5 on, and nothing in
    between. *)
Theorem getAgentRecommendations_round_the_rating (agentId : string) (this : Engine) :
  JsMap.get (agentPerformanceCache this) agentId = None ->
  0 <= agent_rating (eloSystem this) agentId ->
  let rating := agent_rating (eloSystem this) agentId in
  let advice := recommendations (getAgentRecommendations agentId this) in
  (rating < 13995 # 10 ->
   advice = ["Focus on completing basic tasks successfully to build rating"])
  /\ (13995 # 10 <= rating -> rating < 18005 # 10 -> advice = [])
  /\ (18005 # 10 <= rating ->
      advice = ["Consider taking on more complex, innovative tasks"])
  /\ rec_performanceClass (getAgentRecommendations agentId this)
     = classifyPerformance rating.
Proof.
  intros Hnone Hpos. cbv zeta. unfold getAgentRecommendations. cbv zeta.
  cbn [recommendations rec_performanceClass]. rewrite Hnone.
  cbn [lastn List.length Nat.sub skipn Nat.ltb Nat.leb app].
  rewrite (fixed_value_nonneg _ Hpos).
  set (rating := agent_rating (eloSystem this) agentId) in *.
  assert (Hlow : (Qfloor (rating + (1 # 2)) <? 1400)%Z = true <-> rating < 13995 # 10).
  { rewrite Z.ltb_lt, Qfloor_lt_iff. change (inject_Z 1400) with 1400.
    split; intro H; lra. }
  assert (Hhigh : (1800 <? Qfloor (rating + (1 # 2)))%Z = true <-> 18005 # 10 <= rating).
  { rewrite Z.ltb_lt. split; intro H.
    - apply Qnot_lt_le. intro Hlt.
      assert (Hf : (Qfloor (rating + (1 # 2)) < 1801)%Z)
        by (apply Qfloor_lt_iff; change (inject_Z 1801) with 1801; lra).
      lia.
    - destruct (Z_lt_le_dec 1800 (Qfloor (rating + (1 # 2)))) as [Hgt|Hle];
        [exact Hgt|].
      assert (Hf : (Qfloor (rating + (1 # 2)) < 1801)%Z) by lia.
      apply Qfloor_lt_iff in Hf. change (inject_Z 1801) with 1801 in Hf. lra. }
  split; [|split; [|split]].
  - intro H. rewrite (proj2 Hlow H). reflexivity.
  - intros Hge Hlt.
    destruct (Qfloor (rating + (1 # 2)) <? 1400)%Z.
    + pose proof (proj1 Hlow eq_refl). lra.
    + destruct (1800 <? Qfloor (rating + (1 # 2)))%Z; [|reflexivity].
      pose proof (proj1 Hhigh eq_refl). lra.
  - intro H.
    destruct (Qfloor (rating + (1 # 2)) <? 1400)%Z.
    + pose proof (proj1 Hlow eq_refl). lra.
    + rewrite (proj2 Hhigh H). reflexivity.
  - reflexivity.
Qed.

Lemma getAgentRecommendations_round_the_rating_witness :
  let rating := agent_rating (eloSystem dev_engine) "a1" in
  let advice := recommendations (getAgentRecommendations "a1" dev_engine) in
  (rating < 13995 # 10 ->
   advice = ["Focus on completing basic tasks successfully to build rating"])
  /\ (13995 # 10 <= rating -> rating < 18005 # 10 -> advice = [])
  /\ (18005 # 10 <= rating ->
      advice = ["Consider taking on more complex, innovative tasks"])
  /\ rec_performanceClass (getAgentRecommendations "a1" dev_engine)
     = classifyPerformance rating.
Proof.
  apply (getAgentRecommendations_round_the_rating "a1" dev_engine).
  - reflexivity.
  - unfold Qle; simpl; lia.
Defined.
